(** * sec-edgar-scraper: statement location, cell and date normalisation,
      table extraction and grid assembly

    A shallow embedding of the parts of
    [src/sec_edgar_scraper/scraper.py] and [test/edgar_functions.py]
    that locate a statement file, normalise numbers and dates, extract
    the rows of a rendered statement and assemble the final frame.

    Conventions of the embedding:
    - a Python [str] is a [string] of 8-bit characters; the functions
      below follow the Python semantics on ASCII text;
    - a Python exception is a value [Raise e] of the [result] type, a
      normal return is [Ok v];
    - [None] and [numpy.NaN] placed in a value slot are [None] of an
      [option];
    - a Python [float] that holds a cell value is an exact rational
      ([Q]); binary64 rounding is not part of the model: the
      properties below are about where, with which sign and scale a
      value is stored, and about the shape of the result;
    - a [dict] is a [gmap]. *)

From Stdlib Require Import ZArith QArith String Ascii List Bool Lia.
From stdpp Require Import base option list gmap strings.

Open Scope string_scope.

(** ** Exceptions and results *)

Inductive exn : Type :=
  | IndexError
  | ValueError
  | KeyError
  | AttributeError.

Inductive result (A : Type) : Type :=
  | Ok (a : A)
  | Raise (e : exn).

Arguments Ok {A} a.
Arguments Raise {A} e.

#[global] Instance result_ret : MRet result := fun A a => Ok a.

#[global] Instance result_bind : MBind result := fun A B k r =>
  match r with
  | Ok a => k a
  | Raise e => Raise e
  end.

(** [try: ... except Exception: return None] *)
Definition catch_all {A : Type} (r : result (option A)) : option A :=
  match r with
  | Ok v => v
  | Raise _ => None
  end.

(** ** Python string primitives *)

Module Py.

Definition is_digit (c : ascii) : bool :=
  let n := nat_of_ascii c in (48 <=? n)%nat && (n <=? 57)%nat.

(** the white space [int()] skips around an ASCII literal *)
Definition is_c_space (c : ascii) : bool :=
  let n := nat_of_ascii c in
  ((9 <=? n)%nat && (n <=? 13)%nat) || (n =? 32)%nat.

(** the ASCII characters [str.strip()] removes *)
Definition is_space (c : ascii) : bool :=
  let n := nat_of_ascii c in
  ((9 <=? n)%nat && (n <=? 13)%nat) || ((28 <=? n)%nat && (n <=? 32)%nat).

Definition lower_char (c : ascii) : ascii :=
  let n := nat_of_ascii c in
  if (65 <=? n)%nat && (n <=? 90)%nat then ascii_of_nat (n + 32) else c.

(** [s.lower()] *)
Fixpoint lower (s : string) : string :=
  match s with
  | EmptyString => EmptyString
  | String c s' => String (lower_char c) (lower s')
  end.

Definition is_empty (s : string) : bool :=
  match s with
  | EmptyString => true
  | String _ _ => false
  end.

(** leading and trailing characters of a class removed *)
Fixpoint lstrip_by (sp : ascii -> bool) (s : string) : string :=
  match s with
  | EmptyString => EmptyString
  | String c s' => if sp c then lstrip_by sp s' else s
  end.

Fixpoint rstrip_by (sp : ascii -> bool) (s : string) : string :=
  match s with
  | EmptyString => EmptyString
  | String c s' =>
      let r := rstrip_by sp s' in
      if sp c && is_empty r then EmptyString else String c r
  end.

Definition strip_by (sp : ascii -> bool) (s : string) : string :=
  rstrip_by sp (lstrip_by sp s).

(** [s.strip()] *)
Definition strip (s : string) : string := strip_by is_space s.

(** [s] starts with [p] *)
Fixpoint has_prefix (p s : string) : bool :=
  match p with
  | EmptyString => true
  | String a p' =>
      match s with
      | EmptyString => false
      | String b s' => Ascii.eqb a b && has_prefix p' s'
      end
  end.

(** [c in s] for one character *)
Fixpoint in_string (c : ascii) (s : string) : bool :=
  match s with
  | EmptyString => false
  | String a s' => Ascii.eqb c a || in_string c s'
  end.

(** [sub in s] *)
Fixpoint contains (sub s : string) : bool :=
  has_prefix sub s
  || match s with
     | EmptyString => false
     | String _ s' => contains sub s'
     end.

Fixpoint filter_chars (keep : ascii -> bool) (s : string) : string :=
  match s with
  | EmptyString => EmptyString
  | String c s' =>
      if keep c then String c (filter_chars keep s') else filter_chars keep s'
  end.

(** [s[n:]] *)
Fixpoint drop (n : nat) (s : string) : string :=
  match n, s with
  | S k, String _ s' => drop k s'
  | _, _ => s
  end.

(** [s.replace(old, new)] for a non-empty [old]: occurrences are found
    from the left and do not overlap; [skip] counts the characters of a
    matched occurrence that are still to be passed over. *)
Fixpoint replace_from (old new : string) (skip : nat) (s : string) : string :=
  match s with
  | EmptyString => EmptyString
  | String c s' =>
      match skip with
      | S k => replace_from old new k s'
      | O =>
          if has_prefix old s
          then new ++ replace_from old new (String.length old - 1) s'
          else String c (replace_from old new 0 s')
      end
  end.

(** with an empty [old], Python puts [new] before every character and
    at the end *)
Fixpoint intersperse (new s : string) : string :=
  match s with
  | EmptyString => new
  | String c s' => new ++ String c (intersperse new s')
  end.

Definition replace (old new s : string) : string :=
  if is_empty old then intersperse new s else replace_from old new 0 s.

(** [s.split(sep)] for a non-empty [sep]; [cur] holds the current piece *)
Fixpoint split_from (sep : string) (skip : nat) (cur : string) (s : string)
  : list string :=
  match s with
  | EmptyString => [cur]
  | String c s' =>
      match skip with
      | S k => split_from sep k cur s'
      | O =>
          if has_prefix sep s
          then cur :: split_from sep (String.length sep - 1) EmptyString s'
          else split_from sep 0 (cur ++ String c EmptyString) s'
      end
  end.

Definition split (sep s : string) : list string :=
  split_from sep 0 EmptyString s.

Definition digit_val (c : ascii) : Z := Z.of_nat (nat_of_ascii c) - 48.

(** the digits of an [int] literal: decimal digits, a single underscore
    allowed between two digits *)
Fixpoint int_digits (prev_digit : bool) (acc : Z) (s : string) : option Z :=
  match s with
  | EmptyString => if prev_digit then Some acc else None
  | String c s' =>
      if is_digit c then int_digits true (10 * acc + digit_val c) s'
      else if Ascii.eqb c "_" && prev_digit then int_digits false acc s'
      else None
  end.

(** [int(s)] in base 10 on an ASCII string: white space around, a
    sign, digits; [None] stands for the [ValueError].  The refusal of
    literals of more than 4300 digits is left out. *)
Definition int (s : string) : option Z :=
  match strip_by is_c_space s with
  | String "-" r => Z.opp <$> int_digits false 0 r
  | String "+" r => int_digits false 0 r
  | t => int_digits false 0 t
  end.

(** [float(s)] on the strings the extractor passes to it, which hold
    only digits and points: digits with at most one point and at least
    one digit.  The value is kept exact: the rounding of a float to
    53 bits and its overflow are left out. *)
Fixpoint float_digits (seen_dot have_digit : bool) (mant : Z) (scale : positive)
    (s : string) : option Q :=
  match s with
  | EmptyString => if have_digit then Some (mant # scale) else None
  | String c s' =>
      if is_digit c
      then float_digits seen_dot true (10 * mant + digit_val c)
             (if seen_dot then (10 * scale)%positive else scale) s'
      else if Ascii.eqb c "." && negb seen_dot
      then float_digits true have_digit mant scale s'
      else None
  end.

Definition float (s : string) : option Q := float_digits false false 0 1 s.

(** [x in l] for a list of strings *)
Definition In_list (x : string) (l : list string) : bool :=
  existsb (String.eqb x) l.

End Py.

(** [calendar.month_abbr[1:]] and [calendar.month_name[1:]] (C locale) *)
Definition month_abbr : list string :=
  ["Jan"; "Feb"; "Mar"; "Apr"; "May"; "Jun";
   "Jul"; "Aug"; "Sep"; "Oct"; "Nov"; "Dec"].

Definition month_name : list string :=
  ["January"; "February"; "March"; "April"; "May"; "June";
   "July"; "August"; "September"; "October"; "November"; "December"].

(** ** [src/sec_edgar_scraper/scraper.py] *)

Module Scraper.

(** [self.statement_keys_map] *)
Definition balance_sheet_keys : list string :=
  [ "balance sheet";
    "balance sheets";
    "statement of financial position";
    "consolidated balance sheets";
    "consolidated balance sheet";
    "consolidated financial position";
    "consolidated balance sheets - southern";
    "consolidated statements of financial position";
    "consolidated statement of financial position";
    "consolidated statements of financial condition";
    "combined and consolidated balance sheet";
    "condensed consolidated balance sheets";
    "consolidated balance sheets, as of december 31";
    "dow consolidated balance sheets";
    "consolidated balance sheets (unaudited)" ].

Definition income_statement_keys : list string :=
  [ "income statement";
    "income statements";
    "statement of earnings (loss)";
    "statements of consolidated income";
    "consolidated statements of operations";
    "consolidated statement of operations";
    "consolidated statements of earnings";
    "consolidated statement of earnings";
    "consolidated statements of income";
    "consolidated statement of income";
    "consolidated income statements";
    "consolidated income statement";
    "condensed consolidated statements of earnings";
    "condensed consolidated statements of income";
    "consolidated results of operations";
    "consolidated statements of income (loss)";
    "consolidated statements of income - southern";
    "consolidated statements of operations and comprehensive income";
    "consolidated statements of comprehensive income";
    "consolidated statements of comprehensive income (unaudited)" ].

Definition cash_flow_statement_keys : list string :=
  [ "cash flows statement";
    "cash flows statements";
    "statement of cash flows";
    "statements of consolidated cash flows";
    "consolidated statements of cash flows";
    "consolidated statement of cash flows";
    "consolidated statement of cash flow";
    "consolidated cash flows statements";
    "consolidated cash flow statements";
    "condensed consolidated statements of cash flows";
    "consolidated statements of cash flows (unaudited)";
    "consolidated statements of cash flows - southern" ].

Definition statement_keys_map : gmap string (list string) :=
  list_to_map
    [ ("balance_sheet", balance_sheet_keys);
      ("income_statement", income_statement_keys);
      ("cash_flow_statement", cash_flow_statement_keys) ].

(** The [for possible_key in ...] loop of [get_statement_soup]: the
    file name of the first key whose entry in the dictionary is a
    non-empty string ([if file_name:]), [None] when the loop ends
    without a [break]. *)
Fixpoint first_file_name (statement_file_name_dict : gmap string string)
    (possible_keys : list string) : option string :=
  match possible_keys with
  | [] => None
  | possible_key :: rest =>
      match statement_file_name_dict !! Py.lower possible_key with
      | Some file_name =>
          if Py.is_empty file_name
          then first_file_name statement_file_name_dict rest
          else Some file_name
      | None => first_file_name statement_file_name_dict rest
      end
  end.

(** [get_statement_soup] up to the point where the link is fetched:
    the resolved [statement_link], or the [ValueError] of
    [if not statement_link]. *)
Definition statement_link (base_link : string)
    (statement_file_name_dict : gmap string string) (statement_name : string)
  : result string :=
  let possible_keys :=
    default [] (statement_keys_map !! Py.lower statement_name) in
  match first_file_name statement_file_name_dict possible_keys with
  | Some file_name => Ok (base_link ++ "/" ++ file_name)
  | None => Raise ValueError
  end.

(** The argument of [__standardize_number]: a cell of the frame read by
    pandas is a [str] or a [float]. *)
Inductive cell_value : Type :=
  | PStr (s : string)
  | PFloat (is_nan : bool).

Definition missing_markers : list string := ["N/A"; "--"; ""; "nan"; "NAN"].

(** [re.sub(r'[^\d.-]', '', s)] *)
Definition keep_numeric (c : ascii) : bool :=
  Py.is_digit c || Ascii.eqb c "." || Ascii.eqb c "-".

Definition __standardize_number (number_str : cell_value) (multiplier : Z)
  : result (option Z) :=
  match number_str with
  | PFloat true => Ok None
  | PFloat false => Raise AttributeError
  | PStr number_str =>
      if Py.In_list (Py.strip number_str) missing_markers then Ok None
      else
        let negative :=
          Py.contains "(" number_str && Py.contains ")" number_str in
        let number_str :=
          if negative
          then Py.replace ")" "" (Py.replace "(" "" number_str)
          else number_str in
        let is_num_currency := Py.contains "$" number_str in
        let number_str := Py.filter_chars keep_numeric number_str in
        match Py.int number_str with
        | Some number =>
            let number := if negative then (- number)%Z else number in
            Ok (Some (if is_num_currency then (number * multiplier)%Z
                      else number))
        | None => Ok None
        end
  end.

(** [__standardize_date] on a [str] argument *)
Definition __standardize_date (date : string) : string :=
  fold_left (fun date '(abbr, full) => Py.replace abbr full date)
            (combine month_abbr month_name) date.

End Scraper.

(** ** The document tree and the frame

    What BeautifulSoup and pandas hand to the code, reduced to what the
    code reads from them. *)

(** a [td] element: [cell.get("class")] and [cell.text] *)
Record Cell : Type := mkCell {
  cell_class : list string;
  cell_text : string
}.

(** a [tr] element: the [onclick] attribute (if any) of each element of
    [row.select("td.pl a, td.pl.custom a")], and the [td] cells of the
    row in document order *)
Record Row : Type := mkRow {
  row_onclick_elements : list (option string);
  row_cells : list Cell
}.

(** a [table] element: [table.find("th").get_text()] when there is a
    [th], and [table.select("tr")] *)
Record Table : Type := mkTable {
  table_header : option string;
  table_rows : list Row
}.

(** the parsed statement: [soup.find_all("table")], and for each
    element of [soup.find_all("th", {"class": "th"})] the value of
    [th.div.string] ([None] when [th.div] or [th.div.string] is) *)
Record Soup : Type := mkSoup {
  soup_tables : list Table;
  soup_th : list (option string)
}.

Record Date : Type := mkDate {
  year : Z;
  month : Z;
  day : Z
}.

(** a [pandas.DataFrame] of floats: the column labels and the rows,
    each with its index label *)
Record DataFrame (I C : Type) : Type := mkDataFrame {
  df_columns : list C;
  df_rows : list (I * list (option Q))
}.

Arguments mkDataFrame {I C} df_columns df_rows.
Arguments df_columns {I C} d.
Arguments df_rows {I C} d.

Module Pandas.

Section Frame.
Context {I C : Type}.

Definition index (df : DataFrame I C) : list I := map fst (df_rows df).

(** [DataFrame(data, columns=columns, index=index)] for a list of
    equally long tuples: an empty [data] gives the frame of NaN over
    the given labels, otherwise the shape has to agree with them *)
Definition new (data : list (list (option Q))) (columns : list C)
    (index : list I) : result (DataFrame I C) :=
  match data with
  | [] =>
      Ok (mkDataFrame columns
            (map (fun i => (i, replicate (length columns) None)) index))
  | _ =>
      if (length data =? length index)%nat
         && forallb (fun r => (length r =? length columns)%nat) data
      then Ok (mkDataFrame columns (combine index data))
      else Raise ValueError
  end.

(** [df.empty] *)
Definition empty (df : DataFrame I C) : bool :=
  (length (df_rows df) =? 0)%nat || (length (df_columns df) =? 0)%nat.

(** [df.T] *)
Definition T (df : DataFrame I C) : DataFrame C I :=
  mkDataFrame (index df)
    (imap (fun j c => (c, map (fun r => default None (snd r !! j)) (df_rows df)))
          (df_columns df)).

(** equality of two floats as [duplicated] sees it: NaN equals NaN *)
Definition value_eqb (a b : option Q) : bool :=
  match a, b with
  | None, None => true
  | Some x, Some y => Qeq_bool x y
  | _, _ => false
  end.

Fixpoint row_eqb (r1 r2 : list (option Q)) : bool :=
  match r1, r2 with
  | [], [] => true
  | a :: r1', b :: r2' => value_eqb a b && row_eqb r1' r2'
  | _, _ => false
  end.

(** [df[~df.duplicated()]]: a row is dropped when its values equal
    those of a row in [seen], the rows met before it *)
Fixpoint drop_seen (seen : list (list (option Q)))
    (rows : list (I * list (option Q))) : list (I * list (option Q)) :=
  match rows with
  | [] => []
  | (i, r) :: rest =>
      if existsb (row_eqb r) seen then drop_seen (r :: seen) rest
      else (i, r) :: drop_seen (r :: seen) rest
  end.

(** [df.drop_duplicates()]: all columns are compared, the first of
    equal rows is kept *)
Definition drop_duplicates (df : DataFrame I C) : DataFrame I C :=
  if empty df then df
  else mkDataFrame (df_columns df) (drop_seen [] (df_rows df)).

End Frame.

(** [list(zip( *rows ))]: the columns of [rows], as many as the
    shortest row has *)
Fixpoint zip_star_aux {A : Type} (fuel : nat) (rows : list (list A))
  : list (list A) :=
  match fuel with
  | O => []
  | S k =>
      match mapM head rows with
      | Some hs => hs :: zip_star_aux k (map tail rows)
      | None => []
      end
  end.

Definition zip_star {A : Type} (rows : list (list A)) : list (list A) :=
  match rows with
  | [] => []
  | r :: _ => zip_star_aux (length r) rows
  end.

End Pandas.

(** ** [test/edgar_functions.py] *)

Module EdgarFunctions.

(** [__standardize_date] *)
Definition __standardize_date (date : string) : string :=
  fold_left (fun date '(abbr, full) => Py.replace abbr full date)
            (combine month_abbr month_name) date.

(** [__keep_numbers_and_decimals_only_in_string] *)
Definition in_num (c : ascii) : bool :=
  Py.is_digit c || Ascii.eqb c ".".

Definition __keep_numbers_and_decimals_only_in_string (mixed_string : string)
  : string :=
  Py.filter_chars in_num mixed_string.

(** the argument of [float] in the cell loop *)
Definition clean_cell_text (text : string) : string :=
  __keep_numbers_and_decimals_only_in_string
    (Py.strip
       (Py.replace ")" ""
          (Py.replace "(" ""
             (Py.replace "," "" (Py.replace "$" "" text))))).

Definition has_class (name : string) (cell : Cell) : bool :=
  Py.In_list name (cell_class cell).

(** [row.select("td.text, td.nump, td.num")] *)
Definition selected (cell : Cell) : bool :=
  has_class "text" cell || has_class "nump" cell || has_class "num" cell.

Definition select_cells (row : Row) : list Cell :=
  List.filter selected (row_cells row).

(** [values[i] = v] on a Python list *)
Definition set_item {A : Type} (values : list A) (i : nat) (v : A)
  : result (list A) :=
  if (i <? length values)%nat then Ok (<[i := v]> values)
  else Raise IndexError.

(** The body of [for i, cell in enumerate(...)], from the cell at
    position [i] on. *)
Fixpoint process_cells (special_case : bool) (unit_multiplier : Z) (i : nat)
    (cells : list Cell) (values : list (option Q))
  : result (list (option Q)) :=
  match cells with
  | [] => Ok values
  | cell :: rest =>
      if has_class "text" cell
      then process_cells special_case unit_multiplier (S i) rest values
      else
        let value := clean_cell_text (cell_text cell) in
        if Py.is_empty value
        then process_cells special_case unit_multiplier (S i) rest values
        else
          match Py.float value with
          | None => Raise ValueError
          | Some value =>
              if special_case
              then
                (* [value /= 1000]: the quotient is bound to the local
                   name and not written to [values] *)
                let value := (value / 1000)%Q in
                process_cells special_case unit_multiplier (S i) rest values
              else
                values ←
                  set_item values i
                    (Some (if has_class "nump" cell
                           then (value * inject_Z unit_multiplier)%Q
                           else (- value * inject_Z unit_multiplier)%Q));
                process_cells special_case unit_multiplier (S i) rest values
          end
  end.

(** [onclick_attr.split("defref_")[-1].split("',")[0]] *)
Definition column_title_of (onclick_attr : string) : string :=
  let after := default "" (last (Py.split "defref_" onclick_attr)) in
  default "" (head (Py.split "'," after)).

(** header text to [(unit_multiplier, special_case)] *)
Definition table_settings (table : Table) : Z * bool :=
  match table_header table with
  | Some header_text =>
      (if Py.contains "in Thousands" header_text then 1%Z
       else if Py.contains "in Millions" header_text then 1000%Z
       else 1%Z,
       Py.contains "unless otherwise specified" header_text)
  | None => (1%Z, false)
  end.

(** one row of a table: [None] for a row that is skipped, otherwise
    the column title and the values of the row *)
Definition process_row (special_case : bool) (unit_multiplier : Z)
    (n_dates : nat) (row : Row)
  : result (option (string * list (option Q))) :=
  match row_onclick_elements row with
  | [] => Ok None
  | first :: _ =>
      match first with
      | None => Raise KeyError
      | Some onclick_attr =>
          let column_title := column_title_of onclick_attr in
          values ←
            process_cells special_case unit_multiplier 0 (select_cells row)
              (replicate n_dates None);
          Ok (Some (column_title, values))
      end
  end.

(** the rows of one table, appended to [columns] and [values_set] *)
Fixpoint process_rows (special_case : bool) (unit_multiplier : Z)
    (n_dates : nat) (rows : list Row)
    (acc : list string * list (list (option Q)))
  : result (list string * list (list (option Q))) :=
  match rows with
  | [] => Ok acc
  | row :: rest =>
      r ← process_row special_case unit_multiplier n_dates row;
      match r with
      | None => process_rows special_case unit_multiplier n_dates rest acc
      | Some (column_title, values) =>
          process_rows special_case unit_multiplier n_dates rest
            ((acc.1 ++ [column_title])%list, (acc.2 ++ [values])%list)
      end
  end.

Fixpoint process_tables (n_dates : nat) (tables : list Table)
    (acc : list string * list (list (option Q)))
  : result (list string * list (list (option Q))) :=
  match tables with
  | [] => Ok acc
  | table :: rest =>
      let '(unit_multiplier, special_case) := table_settings table in
      acc ← process_rows special_case unit_multiplier n_dates
               (table_rows table) acc;
      process_tables n_dates rest acc
  end.

(** [__create_dataframe_of_statement_values_columns_dates] *)
Definition __create_dataframe_of_statement_values_columns_dates
    (values_set : list (list (option Q))) (columns : list string)
    (index_dates : list Date) : result (DataFrame Date string) :=
  let transposed_values_set := Pandas.zip_star values_set in
  Pandas.new transposed_values_set columns index_dates.

(** what [get_one_statement] does with the extracted triple: the frame
    is built and, when it is not empty, transposed and its duplicate
    rows dropped; an empty frame gives [None] *)
Definition assemble (values : list (list (option Q))) (columns : list string)
    (dates : list Date) : result (option (DataFrame string Date)) :=
  df ← __create_dataframe_of_statement_values_columns_dates
         values columns dates;
  if negb (Pandas.empty df)
  then Ok (Some (Pandas.drop_duplicates (Pandas.T df)))
  else Ok None.

Section WithDateParser.

(** [pd.to_datetime] on a list of strings is library code; the
    extraction is stated for any such function. *)
Variable to_datetime : list string -> result (list Date).

(** [__get_datetime_index_dates_from_statement] *)
Definition date_strings (soup : Soup) : list string :=
  map (fun date => Py.replace "." "" (__standardize_date date))
      (omap (fun th => match th with
                       | Some s => if Py.is_empty s then None else Some s
                       | None => None
                       end) (soup_th soup)).

Definition __get_datetime_index_dates_from_statement (soup : Soup)
  : result (list Date) :=
  to_datetime (date_strings soup).

(** [__extract_columns_values_and_dates_from_statement] *)
Definition __extract_columns_values_and_dates_from_statement (soup : Soup)
  : result (list string * list (list (option Q)) * list Date) :=
  date_time_index ← __get_datetime_index_dates_from_statement soup;
  '(columns, values_set) ←
    process_tables (length date_time_index) (soup_tables soup) ([], []);
  Ok (columns, values_set, date_time_index).

(** the second [try] block of [get_one_statement] *)
Definition process_statement (soup : Soup)
  : result (option (DataFrame string Date)) :=
  '(columns, values, dates) ←
    __extract_columns_values_and_dates_from_statement soup;
  assemble values columns dates.

(** [get_one_statement], given what [get_statement_soup] returned or
    raised; a soup object is always true *)
Definition get_one_statement (fetched : result Soup)
  : option (DataFrame string Date) :=
  match fetched with
  | Raise _ => None
  | Ok soup => catch_all (process_statement soup)
  end.

End WithDateParser.

End EdgarFunctions.

(** ** A date parser for the headers of a rendered statement

    [pandas.to_datetime] is library code.  This instance reads the one
    layout the column headers of a rendered statement have once the
    month is spelled out and the points are gone,
    ["<month name> <day>, <year>"], with a day of one or two digits
    and a year of four digits from 1678 to 2261, the years that the
    nanosecond time stamps of pandas cover in full.  The other layouts
    that pandas reads are not modelled: the instance is used at strings
    of this layout only. *)

Module Dates.

Fixpoint index_of (x : string) (l : list string) : option nat :=
  match l with
  | [] => None
  | y :: l' => if String.eqb x y then Some O else S <$> index_of x l'
  end.

Definition all_digits (s : string) : bool :=
  negb (Py.is_empty s) && Py.is_empty (Py.filter_chars (fun c => negb (Py.is_digit c)) s).

Definition number (s : string) : option Z :=
  if all_digits s then Py.int s else None.

Definition is_leap (y : Z) : bool :=
  ((y mod 4 =? 0) && negb (y mod 100 =? 0) || (y mod 400 =? 0))%Z.

Definition days_in_month (y m : Z) : Z :=
  if (m =? 2)%Z then (if is_leap y then 29 else 28)%Z
  else if ((m =? 4) || (m =? 6) || (m =? 9) || (m =? 11))%Z then 30%Z
  else 31%Z.

Definition parse_date (s : string) : option Date :=
  match Py.split " " s with
  | [m; d; y] =>
      mi ← index_of m month_name;
      dn ← match Py.split "," d with
           | [ds; EmptyString] =>
               if (String.length ds <=? 2)%nat then number ds else None
           | _ => None
           end;
      yn ← (if (String.length y =? 4)%nat then number y else None);
      let mn := Z.of_nat (S mi) in
      if ((1 <=? dn) && (dn <=? days_in_month yn mn)
          && (1678 <=? yn) && (yn <=? 2261))%Z
      then Some (mkDate yn mn dn)
      else None
  | _ => None
  end.

Definition to_datetime (dates : list string) : result (list Date) :=
  match mapM parse_date dates with
  | Some ds => Ok ds
  | None => Raise ValueError
  end.

End Dates.

(** ** Reference descriptions

    Closed forms and the wording of the specification, against which
    the functions above are compared. *)

Module Reference.

Import EdgarFunctions.

(** a cell the loop reads a number from: it is not marked as text and
    its cleaned text is not empty *)
Definition populated (cell : Cell) : bool :=
  negb (has_class "text" cell)
  && negb (Py.is_empty (clean_cell_text (cell_text cell))).

(** the number the loop writes for a cell, if it writes one *)
Definition stored_value (special_case : bool) (unit_multiplier : Z)
    (cell : Cell) : option Q :=
  if special_case || has_class "text" cell then None
  else
    match Py.float (clean_cell_text (cell_text cell)) with
    | Some value =>
        Some (if has_class "nump" cell
              then (value * inject_Z unit_multiplier)%Q
              else (- value * inject_Z unit_multiplier)%Q)
    | None => None
    end.

(** the values of a row over [n] dates: position [j] holds what the
    [j]-th selected cell stores, and nothing otherwise *)
Definition aligned_values (special_case : bool) (unit_multiplier : Z)
    (n : nat) (cells : list Cell) : list (option Q) :=
  map (fun j => cells !! j ≫= stored_value special_case unit_multiplier)
      (seq 0 n).

(** the number of NaN in a list of values *)
Definition count_nan (values : list (option Q)) : nat :=
  length (List.filter (fun v => negb (bool_decide (is_Some v))) values).

(** the exception the loop body raises at the cell of position [i] *)
Definition cell_fault (special_case : bool) (n i : nat) (cell : Cell)
  : option exn :=
  if populated cell then
    match Py.float (clean_cell_text (cell_text cell)) with
    | None => Some ValueError
    | Some _ =>
        if negb special_case && (n <=? i)%nat then Some IndexError else None
    end
  else None.

Fixpoint first_fault (special_case : bool) (n i : nat) (cells : list Cell)
  : option exn :=
  match cells with
  | [] => None
  | cell :: rest =>
      match cell_fault special_case n i cell with
      | Some e => Some e
      | None => first_fault special_case n (S i) rest
      end
  end.

(** the writes of the loop, out-of-range ones left out *)
Fixpoint overlay (special_case : bool) (unit_multiplier : Z) (i : nat)
    (cells : list Cell) (values : list (option Q)) : list (option Q) :=
  match cells with
  | [] => values
  | cell :: rest =>
      overlay special_case unit_multiplier (S i) rest
        match stored_value special_case unit_multiplier cell with
        | Some q => <[i := Some q]> values
        | None => values
        end
  end.

Definition labelled (row : Row) : bool :=
  match row_onclick_elements row with
  | [] => false
  | _ :: _ => true
  end.

(** the rows that are not skipped, each with the settings of its table *)
Definition labelled_rows (tables : list Table) : list (Z * bool * Row) :=
  tables ≫= (fun table =>
    map (fun row => (table_settings table, row))
        (List.filter labelled (table_rows table))).

(** the cleaned text of the cell, if the cell is populated, is
    accepted by [float] *)
Definition cell_parses (cell : Cell) : bool :=
  negb (populated cell)
  || bool_decide (is_Some (Py.float (clean_cell_text (cell_text cell)))).

(** a row that raises neither [KeyError] nor [ValueError]: its first
    label anchor has the [onclick] attribute and its cells parse *)
Definition row_well_formed (row : Row) : bool :=
  match row_onclick_elements row with
  | [] => true
  | None :: _ => false
  | Some _ :: _ => forallb cell_parses (select_cells row)
  end.

(** the label of a labelled row *)
Definition row_title (row : Row) : string :=
  match row_onclick_elements row with
  | Some onclick_attr :: _ => column_title_of onclick_attr
  | _ => EmptyString
  end.

(** the values of a labelled row over [n] dates *)
Definition row_values (n : nat) (x : Z * bool * Row) : list (option Q) :=
  aligned_values x.1.2 x.1.1 n (select_cells x.2).

(** the exception a labelled row raises *)
Definition row_fault (n : nat) (x : Z * bool * Row) : option exn :=
  match row_onclick_elements x.2 with
  | None :: _ => Some KeyError
  | _ => first_fault x.1.2 n 0 (select_cells x.2)
  end.

Fixpoint first_row_fault (n : nat) (rows : list (Z * bool * Row))
  : option exn :=
  match rows with
  | [] => None
  | x :: rest =>
      match row_fault n x with
      | Some e => Some e
      | None => first_row_fault n rest
      end
  end.

(** a populated cell at or beyond position [n] among the selected
    cells of the row *)
Definition writes_beyond (n : nat) (row : Row) : Prop :=
  exists i cell,
    select_cells row !! i = Some cell /\ populated cell = true /\ n <= i.

(** the replacements of [__standardize_date], in their order *)
Definition month_pairs : list (string * string) := combine month_abbr month_name.

(** a pair of [pairs] that changes [s]: its abbreviation is in [s] and
    is not its own full name (as "May" is) *)
Definition occurs (pairs : list (string * string)) (s : string) : Prop :=
  Exists (fun p => p.1 <> p.2 /\ Py.contains p.1 s = true) pairs.

(** what the proofs use of a pair: the abbreviation is not empty, and
    either it is the full name or it is shorter and part of it *)
Definition good_pair (p : string * string) : Prop :=
  p.1 <> EmptyString
  /\ (p.1 = p.2
      \/ (String.length p.1 < String.length p.2
          /\ Py.contains p.1 p.2 = true)).

(** the replacements of [pairs], one after the other *)
Definition replace_all (pairs : list (string * string)) (s : string) : string :=
  fold_left (fun date '(abbr, full) => Py.replace abbr full date) pairs s.

(** the specification's de-duplication: by label, first kept *)
Fixpoint dedup_by_label (seen : list string)
    (rows : list (string * list (option Q)))
  : list (string * list (option Q)) :=
  match rows with
  | [] => []
  | (label, values) :: rest =>
      if Py.In_list label seen then dedup_by_label seen rest
      else (label, values) :: dedup_by_label (label :: seen) rest
  end.

(** a key that the loop of [get_statement_soup] passes over *)
Definition misses (dict : gmap string string) (key : string) : Prop :=
  dict !! Py.lower key = None \/ dict !! Py.lower key = Some "".

(** the catalog of the specification's example *)
Definition catalog_R2_R3 : gmap string string :=
  <["balance sheets" := "R2.htm"]> (<["balance sheet" := "R3.htm"]> ∅).

End Reference.

(** ** Sample documents *)

Module Sample.

Definition onclick_of (tag : string) : option string :=
  Some ("top.Show.showAR( this, 'defref_" ++ tag ++ "', window );").

(** one table flagged "unless otherwise specified", one labelled row
    with the cell ["$2,000,000"], one date column *)
Definition special_soup : Soup :=
  mkSoup
    [ mkTable
        (Some "CONSOLIDATED BALANCE SHEETS (USD $) In Millions, unless otherwise specified")
        [ mkRow [] [mkCell ["th"] "Dec. 31, 2013"];
          mkRow [onclick_of "us-gaap_Assets"]
                [mkCell ["pl"] "Total assets"; mkCell ["nump"] "$2,000,000"] ] ]
    [Some "Dec. 31, 2013"].

(** a table in millions whose row has a cell without currency marker
    and a cell with one *)
Definition millions_soup : Soup :=
  mkSoup
    [ mkTable (Some "CONSOLIDATED BALANCE SHEETS - USD ($) $ in Millions")
        [ mkRow [onclick_of "us-gaap_Assets"]
                [mkCell ["pl"] "Total assets"; mkCell ["nump"] "1,234";
                 mkCell ["nump"] "$ 2"] ] ]
    [Some "Dec. 31, 2020"; Some "Dec. 31, 2019"].

(** four date columns; a row with two cells only, and a row whose
    second and third cells hold no number *)
Definition four_dates_soup : Soup :=
  mkSoup
    [ mkTable (Some "CONSOLIDATED STATEMENTS OF CASH FLOWS - USD ($) $ in Thousands")
        [ mkRow [] [mkCell ["th"] "12 Months Ended"];
          mkRow [onclick_of "us-gaap_NetIncomeLoss"]
                [mkCell ["pl"] "Net income"; mkCell ["nump"] "$ 10";
                 mkCell ["num"] "(20)"];
          mkRow [onclick_of "us-gaap_Depreciation"]
                [mkCell ["pl"] "Depreciation"; mkCell ["nump"] "7";
                 mkCell ["text"] "n/a"; mkCell ["nump"] " ";
                 mkCell ["num"] "(3)"] ] ]
    [Some "Dec. 31, 2020"; Some "Dec. 31, 2019";
     Some "Dec. 31, 2018"; Some "Dec. 31, 2017"].

(** one date column; the number of the row is its second selected
    cell, after a text cell *)
Definition text_then_number_soup : Soup :=
  mkSoup
    [ mkTable (Some "CONSOLIDATED BALANCE SHEETS - USD ($) $ in Millions")
        [ mkRow [onclick_of "us-gaap_Assets"]
                [mkCell ["pl"] "Total assets"; mkCell ["text"] "note 3";
                 mkCell ["nump"] "5"] ] ]
    [Some "Dec. 31, 2020"].

(** one date column; the row has a number and then a text cell *)
Definition number_then_text_soup : Soup :=
  mkSoup
    [ mkTable (Some "CONSOLIDATED BALANCE SHEETS - USD ($) $ in Millions")
        [ mkRow [onclick_of "us-gaap_Assets"]
                [mkCell ["pl"] "Total assets"; mkCell ["nump"] "5";
                 mkCell ["text"] "note 3"] ] ]
    [Some "Dec. 31, 2020"].


End Sample.

(** ** More Python primitives *)

Module PyExt.

Definition upper_char (c : ascii) : ascii :=
  let n := nat_of_ascii c in
  if (97 <=? n)%nat && (n <=? 122)%nat then ascii_of_nat (n - 32) else c.

(** [s.upper()] *)
Fixpoint upper (s : string) : string :=
  match s with
  | EmptyString => EmptyString
  | String c s' => String (upper_char c) (upper s')
  end.

Definition digit_char (d : N) : ascii := ascii_of_N (48 + d).

(** the decimal digits of [n] put before [acc], the last digit first;
    [fuel] bounds the number of digits *)
Fixpoint str_N_aux (fuel : nat) (n : N) (acc : string) : string :=
  match fuel with
  | O => acc
  | S fuel' =>
      let acc := String (digit_char (n mod 10)) acc in
      if (n / 10 =? 0)%N then acc else str_N_aux fuel' (n / 10) acc
  end.

Definition str_N (n : N) : string :=
  str_N_aux (S (N.size_nat n)) n EmptyString.

(** [str(z)] for an [int] *)
Definition str_int (z : Z) : string :=
  match z with
  | Z0 => "0"
  | Zpos p => str_N (Npos p)
  | Zneg p => String "-" (str_N (Npos p))
  end.

Fixpoint zeros (k : nat) : string :=
  match k with
  | O => EmptyString
  | S k' => String "0" (zeros k')
  end.

(** [s.zfill(width)]: zeros on the left, after a leading sign *)
Definition zfill (width : nat) (s : string) : string :=
  let fill := width - String.length s in
  match s with
  | String c r =>
      if Ascii.eqb c "+" || Ascii.eqb c "-"
      then String c (zeros fill ++ r)
      else zeros fill ++ s
  | EmptyString => zeros fill
  end.

(** [s.endswith(suffix)] *)
Definition endswith (s suffix : string) : bool :=
  String.eqb (Py.drop (String.length s - String.length suffix) s) suffix.

(** [d[k] = v] on a [dict] whose order of keys matters: a key that is
    there keeps its place *)
Fixpoint dict_set {V : Type} (k : string) (v : V) (d : list (string * V))
  : list (string * V) :=
  match d with
  | [] => [(k, v)]
  | (k', v') :: rest =>
      if String.eqb k k' then (k, v) :: rest
      else (k', v') :: dict_set k v rest
  end.

End PyExt.

(** ** [src/sec_edgar_scraper/utils.py]

    The server is the sequence of its responses: [server k] answers the
    request number [k].  The calls of [time.sleep] have no part in the
    result and are left out.  The module [sec_edgar_scraper.exceptions]
    is not among the sources: [TooManyRequestException] and
    [GetRequestException] are taken to be two unrelated subclasses of
    [Exception], as the [except] clauses treat them. *)

Module Utils.

(** what [requests.get] gives: the status 429, another response with
    what [resp.json()] and [resp.content.decode("utf-8")] return
    ([None] where they raise), or an exception of [requests] *)
Inductive response (J : Type) : Type :=
  | TooManyRequests
  | Reply (json : option J) (text : option string)
  | NoReply.

Arguments TooManyRequests {J}.
Arguments Reply {J} json text.
Arguments NoReply {J}.

Inductive body (J : Type) : Type :=
  | Json (j : J)
  | Text (s : string).

Arguments Json {J} j.
Arguments Text {J} s.

(** the function returns a value ([None] when it falls off its end) or
    raises [GetRequestException] *)
Inductive outcome (J : Type) : Type :=
  | Returned (v : option (body J))
  | GetRequestException.

Arguments Returned {J} v.
Arguments GetRequestException {J}.

Section Server.

Context {J : Type}.
Variable server : nat -> response J.

(** [make_get_request] with [budget = 3 - retry_count] calls left and
    [sent] requests made so far; the result comes with the number of
    requests made.  The recursive call passes neither [payload] nor
    [resp_json], and its result is not returned. *)
Fixpoint attempt (budget sent : nat) (resp_json : bool) : outcome J * nat :=
  match budget with
  | O => (GetRequestException, sent)
  | S budget' =>
      match server sent with
      | TooManyRequests =>
          match attempt budget' (S sent) true with
          | (Returned _, n) => (Returned None, n)
          | (GetRequestException, n) => (GetRequestException, n)
          end
      | Reply json text =>
          match (if resp_json then Json <$> json else Text <$> text) with
          | Some b => (Returned (Some b), S sent)
          | None => (GetRequestException, S sent)
          end
      | NoReply => (GetRequestException, S sent)
      end
  end.

Definition make_get_request (sent retry_count : nat) (resp_json : bool)
  : outcome J * nat :=
  attempt (3 - retry_count) sent resp_json.

End Server.

End Utils.

(** ** The rest of [src/sec_edgar_scraper/scraper.py] *)

Module ScraperRest.

(** an entry of the ticker file: [company["ticker"]] and
    [company["cik_str"]] *)
Record company : Type := mkCompany {
  ticker : string;
  cik_str : Z
}.

(** [get_cik_matching_ticker], given what [make_get_request] returned
    ([None], or the values of the JSON object in their order) *)
Definition get_cik_matching_ticker (ticker_json : option (list company))
    (ticker : string) : result string :=
  let ticker := Py.replace "." "-" (PyExt.upper ticker) in
  match ticker_json with
  | None => Raise AttributeError
  | Some companies =>
      match List.find (fun company => String.eqb (ScraperRest.ticker company) ticker)
                      companies with
      | Some company => Ok (PyExt.zfill 10 (PyExt.str_int (cik_str company)))
      | None => Raise ValueError
      end
  end.

(** [get_cik_matching_ticker] with its request to a server that answers
    with the companies of the ticker file: [None] stands for the
    [GetRequestException] that [make_get_request] raises, which the
    function lets through *)
Definition get_cik_matching_ticker_from
    (server : nat -> Utils.response (list company)) (ticker : string)
  : option (result string) :=
  match (Utils.make_get_request server 0 0 true).1 with
  | Utils.Returned (Some (Utils.Json ticker_json)) =>
      Some (get_cik_matching_ticker (Some ticker_json) ticker)
  | Utils.Returned (Some (Utils.Text _)) => Some (Raise AttributeError)
  | Utils.Returned None => Some (get_cik_matching_ticker None ticker)
  | Utils.GetRequestException => None
  end.

(** a row of [company_json["filings"]["recent"]] *)
Record filing : Type := mkFiling {
  form : string;
  accessionNumber : string;
  reportDate : string
}.

(** [get_filtered_filings] on the frame of the recent filings.
    [company_filings_df["form"] == form] is false in every row when
    [form] is [None]. *)
Definition filter_form (form : option string) (filings : list filing)
  : list filing :=
  List.filter (fun f => match form with
                        | Some form => String.eqb (ScraperRest.form f) form
                        | None => false
                        end) filings.

Definition strip_dashes (f : filing) : filing :=
  mkFiling (ScraperRest.form f) (Py.replace "-" "" (accessionNumber f))
           (reportDate f).

(** with [just_accession_numbers=False]: the filtered frame *)
Definition get_filtered_filings_df (filings : list filing)
    (form : option string) : list filing :=
  map strip_dashes (filter_form form filings).

(** with [just_accession_numbers=True]: the accession numbers, indexed
    by report date *)
Definition get_filtered_filings (filings : list filing) (form : option string)
  : list (string * string) :=
  map (fun f => (reportDate f, accessionNumber f))
      (get_filtered_filings_df filings form).

(** a [Report] element of the filing summary: the text of its first
    [HtmlFileName], [XmlFileName], [ShortName] and [LongName] elements,
    [None] for an element that is not there *)
Record Report : Type := mkReport {
  HtmlFileName : option string;
  XmlFileName : option string;
  ShortName : option string;
  LongName : option string
}.

(** [__get_file_name]; a tag that is there is true, whatever its text *)
Definition __get_file_name (report : Report) : string :=
  match HtmlFileName report with
  | Some text => text
  | None =>
      match XmlFileName report with
      | Some text => text
      | None => EmptyString
      end
  end.

(** [__is_statement_file] *)
Definition __is_statement_file (short_name_tag long_name_tag : option string)
    (file_name : string) : bool :=
  match short_name_tag, long_name_tag with
  | Some _, Some long_name =>
      negb (Py.is_empty file_name) && Py.contains "Statement" long_name
  | _, _ => false
  end.

(** the loop of [get_statement_file_names_in_filing_summary] over the
    reports of the summary *)
Definition add_report (statement_file_names_dict : gmap string string)
    (report : Report) : gmap string string :=
  let file_name := __get_file_name report in
  if __is_statement_file (ShortName report) (LongName report) file_name
  then
    match ShortName report with
    | Some short_name =>
        <[Py.lower short_name := file_name]> statement_file_names_dict
    | None => statement_file_names_dict
    end
  else statement_file_names_dict.

Definition get_statement_file_names_in_filing_summary (reports : list Report)
  : gmap string string :=
  fold_left add_report reports ∅.

Section Fetch.

(** the parsed page of a response *)
Context {Page : Type}.

(** [session.get] followed by [raise_for_status] and the parse: [None]
    when a [RequestException] is raised *)
Variable fetch : string -> option Page.

(** [get_statement_soup]: the [InvalidStatementLinkException] of a
    link to an XML file is caught and logged, and the function ends
    without a value *)
Definition get_statement_soup (base_link : string) (reports : list Report)
    (statement_name : string) : result (option Page) :=
  let statement_file_name_dict :=
    get_statement_file_names_in_filing_summary reports in
  statement_link ←
    Scraper.statement_link base_link statement_file_name_dict statement_name;
  match fetch statement_link with
  | Some page =>
      if PyExt.endswith statement_link ".xml" then Ok None else Ok (Some page)
  | None => Raise ValueError
  end.

End Fetch.

(** a key of [df.to_dict()]: a column label is a string, or a tuple
    of strings when the header has several rows *)
Inductive dict_key : Type :=
  | KStr (s : string)
  | KTuple (t : list string).

(** [key[i] if type(key) == tuple else key] *)
Definition key_item (i : nat) (key : dict_key) : result string :=
  match key with
  | KStr s => Ok s
  | KTuple t =>
      match t !! i with
      | Some s => Ok s
      | None => Raise IndexError
      end
  end.

(** [[__standardize_number(value, 1) for value in values]]; a cell
    that is a number and not NaN is [PFloat false] *)
Fixpoint standardize_column (values : list Scraper.cell_value)
  : result (list (option Z)) :=
  match values with
  | [] => Ok []
  | value :: rest =>
      number ← Scraper.__standardize_number value 1;
      numbers ← standardize_column rest;
      Ok (number :: numbers)
  end.

(** the loop of [process_dict] over [dict_items[1:]] *)
Fixpoint fill_values_map (items : list (dict_key * list Scraper.cell_value))
    (values_map : list (string * list (option Z)))
  : result (list (string * list (option Z))) :=
  match items with
  | [] => Ok values_map
  | (date, values) :: rest =>
      date ← key_item 1 date;
      if (15 <? String.length date)%nat
      then fill_values_map rest values_map
      else
        let date := Scraper.__standardize_date date in
        numbers ← standardize_column values;
        fill_values_map rest (PyExt.dict_set date numbers values_map)
  end.

Section WithDateParser.

Variable to_datetime : list string -> result (list Date).

(** [process_dict] on the items of [df_dict], each column given by its
    values *)
Definition process_dict (df_dict : list (dict_key * list Scraper.cell_value))
  : result (list Scraper.cell_value * list Date
            * list (list (option Z)) * string) :=
  match df_dict with
  | [] => Raise IndexError
  | (statement_name, attributes_dict) :: rest =>
      statement_name ← key_item 0 statement_name;
      let statement_name := Py.lower statement_name in
      let attributes := attributes_dict in
      values_map ← fill_values_map rest [];
      date_index ← to_datetime (map fst values_map);
      Ok (attributes, date_index, map snd values_map, statement_name)
  end.

(** the second [try] block of [get_one_statement]: the numbers enter
    the frame as floats *)
Definition frame_of_dict (df_dict : list (dict_key * list Scraper.cell_value))
  : result (DataFrame Scraper.cell_value Date * string) :=
  '(attributes, date_index, values, notes) ← process_dict df_dict;
  df ← Pandas.new (map (map (fmap inject_Z)) values) attributes date_index;
  Ok (Pandas.T df, notes).

Context {Page : Type}.

(** [pd.read_html(StringIO(str(soup.find("table"))))[0].to_dict()] *)
Variable read_html : Page -> result (list (dict_key * list Scraper.cell_value)).

(** [get_one_statement], given what [get_statement_soup] returned or
    raised *)
Definition get_one_statement (fetched : result (option Page))
  : option (DataFrame Scraper.cell_value Date * string) :=
  match fetched with
  | Raise _ => None
  | Ok None => None
  | Ok (Some soup) =>
      match (df_dict ← read_html soup; frame_of_dict df_dict) with
      | Ok r => Some r
      | Raise _ => None
      end
  end.

End WithDateParser.

End ScraperRest.

(** ** The rest of [test/edgar_functions.py] *)

Module EdgarFunctionsRest.

(** [get_filtered_filings] with its flag [ten_k] *)
Definition get_filtered_filings_df (filings : list ScraperRest.filing)
    (ten_k : bool) : list ScraperRest.filing :=
  map ScraperRest.strip_dashes
    (List.filter (fun f => String.eqb (ScraperRest.form f)
                             (if ten_k then "10-K" else "10-Q")) filings).

Definition get_filtered_filings (filings : list ScraperRest.filing)
    (ten_k : bool) : list (string * string) :=
  map (fun f => (ScraperRest.reportDate f, ScraperRest.accessionNumber f))
      (get_filtered_filings_df filings ten_k).

End EdgarFunctionsRest.

(** ** [test/test_statement_links.py] *)

Module TestStatementLinks.

(** the lines that the inner loop prints for one filing: the loop has
    no [break], every key with a file is shown with its link *)
Fixpoint printed_links (base_link : string)
    (statement_file_name_dict : gmap string string)
    (possible_keys : list string) : list (string * string) :=
  match possible_keys with
  | [] => []
  | possible_key :: rest =>
      match statement_file_name_dict !! Py.lower possible_key with
      | Some file_name =>
          if Py.is_empty file_name
          then printed_links base_link statement_file_name_dict rest
          else (possible_key, base_link ++ "/" ++ file_name)
               :: printed_links base_link statement_file_name_dict rest
      | None => printed_links base_link statement_file_name_dict rest
      end
  end.

End TestStatementLinks.

(** ** Reference descriptions for the rest of the code *)

Module ReferenceRest.

Import ScraperRest.

(** every character of [s] is in the class [P] *)
Fixpoint all_chars (P : ascii -> bool) (s : string) : bool :=
  match s with
  | EmptyString => true
  | String c s' => P c && all_chars P s'
  end.

(** the report puts the file [file_name] under the key [key] of the
    catalog: it has a short name, which is [key] up to case, a long
    name that holds "Statement", and a file name that is not empty *)
Definition is_entry (key file_name : string) (report : Report) : Prop :=
  exists short_name long_name,
    ShortName report = Some short_name
    /\ LongName report = Some long_name
    /\ Py.contains "Statement" long_name = true
    /\ __get_file_name report = file_name
    /\ file_name <> EmptyString
    /\ key = Py.lower short_name.

(** the date header of a column of [df_dict] *)
Definition header_of (key : dict_key) : string :=
  match key with
  | KStr s => s
  | KTuple t => default EmptyString (t !! 1)
  end.

(** a column [process_dict] keeps: its header has at most 15
    characters *)
Definition kept (item : dict_key * list Scraper.cell_value) : bool :=
  (String.length (header_of item.1) <=? 15)%nat.

(** the date under which [process_dict] files a column *)
Definition date_of (item : dict_key * list Scraper.cell_value) : string :=
  Scraper.__standardize_date (header_of item.1).

(** the column of [items] that is last to be filed under [date] *)
Definition last_filed (items : list (dict_key * list Scraper.cell_value))
    (date : string) (numbers : list (option Z)) : Prop :=
  exists pre item post,
    items = (pre ++ item :: post)%list
    /\ kept item = true
    /\ date_of item = date
    /\ standardize_column item.2 = Ok numbers
    /\ length numbers = length item.2
    /\ Forall (fun later => kept later = true -> date_of later <> date) post.

(** the numbers of the column are whole numbers of at most 2^53 in
    absolute value, which a float holds exactly *)
Definition float_exact (values : list Scraper.cell_value) : bool :=
  forallb (fun value =>
             match Scraper.__standardize_number value 1 with
             | Ok (Some z) => (Z.abs z <=? 2 ^ 53)%Z
             | _ => true
             end) values.

(** the strings of the header cells of a page, in their order: the
    cells without a string and those with the empty string left out *)
Definition header_strings (soup : Soup) : list string :=
  List.filter (fun s => negb (Py.is_empty s)) (omap id (soup_th soup)).

(** a cell whose number and its products by 1 and by 1000 are exact
    as floats: the cell holds no number, or a whole number of at most
    12 digits *)
Definition whole_cell (cell : Cell) : bool :=
  negb (Reference.populated cell)
  || (negb (Py.in_string "."
              (EdgarFunctions.clean_cell_text (cell_text cell)))
      && (String.length (EdgarFunctions.clean_cell_text (cell_text cell))
          <=? 12)%nat).

(** the key has a file in the dictionary *)
Definition has_file (dict : gmap string string) (key : string) : bool :=
  match dict !! Py.lower key with
  | Some file_name => negb (Py.is_empty file_name)
  | None => false
  end.

(** the column holds only strings and NaN *)
Definition text_column (values : list Scraper.cell_value) : bool :=
  forallb (fun value => match value with
                        | Scraper.PFloat false => false
                        | _ => true
                        end) values.

End ReferenceRest.

(** * Properties *)

(** ** Strings *)

Section StringFacts.

Lemma contains_single c s : Py.contains (String c "") s = Py.in_string c s.
Proof.
  induction s as [|a s IH]; [reflexivity|].
  simpl. rewrite IH. now destruct (Ascii.eqb c a).
Qed.

(** deleting one character that [keep] rejects does not change what
    [keep] retains *)
Lemma replace_from_single c s :
  Py.replace_from (String c "") "" 0 s
  = Py.filter_chars (fun a => negb (Ascii.eqb c a)) s.
Proof.
  induction s as [|a s IH]; [reflexivity|].
  simpl. destruct (Ascii.eqb c a); simpl; now rewrite IH.
Qed.

Lemma replace_single c s :
  Py.replace (String c "") "" s
  = Py.filter_chars (fun a => negb (Ascii.eqb c a)) s.
Proof. apply replace_from_single. Qed.

Lemma filter_chars_filter keep c s :
  keep c = false ->
  Py.filter_chars keep (Py.filter_chars (fun a => negb (Ascii.eqb c a)) s)
  = Py.filter_chars keep s.
Proof.
  intros Hc. induction s as [|a s IH]; [reflexivity|].
  simpl. destruct (Ascii.eqb_spec c a) as [->|Hne]; simpl.
  - now rewrite Hc.
  - destruct (keep a); now rewrite IH.
Qed.

Lemma filter_chars_replace keep c s :
  keep c = false ->
  Py.filter_chars keep (Py.replace (String c "") "" s)
  = Py.filter_chars keep s.
Proof. intros Hc. rewrite replace_single. now apply filter_chars_filter. Qed.

Lemma filter_chars_lstrip sp keep s :
  (forall a, sp a = true -> keep a = false) ->
  Py.filter_chars keep (Py.lstrip_by sp s) = Py.filter_chars keep s.
Proof.
  intros Hsp. induction s as [|a s IH]; [reflexivity|].
  simpl. destruct (sp a) eqn:Ha; [|reflexivity].
  now rewrite (Hsp a Ha).
Qed.

Lemma filter_chars_rstrip sp keep s :
  (forall a, sp a = true -> keep a = false) ->
  Py.filter_chars keep (Py.rstrip_by sp s) = Py.filter_chars keep s.
Proof.
  intros Hsp. induction s as [|a s IH]; [reflexivity|].
  simpl. destruct (sp a) eqn:Ha; simpl.
  - rewrite (Hsp a Ha). rewrite <- IH.
    destruct (Py.rstrip_by sp s); simpl; [reflexivity|].
    now rewrite (Hsp a Ha).
  - now rewrite IH.
Qed.

Lemma filter_chars_strip_by sp keep s :
  (forall a, sp a = true -> keep a = false) ->
  Py.filter_chars keep (Py.strip_by sp s) = Py.filter_chars keep s.
Proof.
  intros Hsp. unfold Py.strip_by.
  rewrite filter_chars_rstrip by assumption.
  now apply filter_chars_lstrip.
Qed.

Lemma filter_chars_strip keep s :
  (forall a, Py.is_space a = true -> keep a = false) ->
  Py.filter_chars keep (Py.strip s) = Py.filter_chars keep s.
Proof. apply filter_chars_strip_by. Qed.

Lemma space_not_in_num a : Py.is_space a = true -> EdgarFunctions.in_num a = false.
Proof. destruct a as [[] [] [] [] [] [] [] []]; vm_compute; congruence. Qed.

Lemma space_not_numeric a :
  Py.is_space a = true -> Scraper.keep_numeric a = false.
Proof. destruct a as [[] [] [] [] [] [] [] []]; vm_compute; congruence. Qed.

(** the cleaning of a cell text keeps exactly its digits and points *)
Lemma clean_cell_text_filter text :
  EdgarFunctions.clean_cell_text text
  = Py.filter_chars EdgarFunctions.in_num text.
Proof.
  unfold EdgarFunctions.clean_cell_text,
    EdgarFunctions.__keep_numbers_and_decimals_only_in_string.
  rewrite filter_chars_strip by apply space_not_in_num.
  now rewrite !filter_chars_replace by reflexivity.
Qed.

End StringFacts.

(** ** The number normaliser of [scraper.py] *)

Section StandardizeNumber.

Import Scraper.

Lemma in_string_filter c keep s :
  Py.in_string c (Py.filter_chars keep s) = keep c && Py.in_string c s.
Proof.
  induction s as [|a s IH]; simpl.
  - now rewrite andb_false_r.
  - destruct (keep a) eqn:Ka; simpl; rewrite IH.
    + destruct (Ascii.eqb_spec c a) as [->|]; simpl; [|reflexivity].
      rewrite Ka. reflexivity.
    + destruct (Ascii.eqb_spec c a) as [->|]; simpl; [|reflexivity].
      rewrite Ka. reflexivity.
Qed.

Lemma in_string_strip_by sp c s :
  sp c = false -> Py.in_string c (Py.strip_by sp s) = Py.in_string c s.
Proof.
  intros Hc.
  assert (E : forall t, Py.in_string c t
                = Py.in_string c (Py.filter_chars (fun a => negb (sp a)) t)).
  { intros t. rewrite in_string_filter, Hc. reflexivity. }
  rewrite (E (Py.strip_by sp s)), (E s). f_equal.
  apply filter_chars_strip_by. intros a Ha. now rewrite Ha.
Qed.

Lemma in_string_replace c d s :
  c <> d ->
  Py.in_string c (Py.replace (String d "") "" s) = Py.in_string c s.
Proof.
  intros Hcd. rewrite replace_single, in_string_filter.
  destruct (Ascii.eqb_spec d c) as [->|]; [congruence|reflexivity].
Qed.

(** a character that is neither a digit nor an underscore makes the
    digits of an integer literal invalid *)
Lemma int_digits_bad c s :
  Py.is_digit c = false -> c <> "_"%char -> Py.in_string c s = true ->
  forall b acc, Py.int_digits b acc s = None.
Proof.
  intros Hd Hu. induction s as [|a s IH]; simpl; [discriminate|].
  intros Hin b acc.
  destruct (Ascii.eqb_spec c a) as [<-|Hne]; simpl in Hin.
  - rewrite Hd. destruct (Ascii.eqb_spec c "_"%char); [contradiction|reflexivity].
  - destruct (Py.is_digit a); [now apply IH|].
    destruct (Ascii.eqb a "_" && b); [now apply IH|reflexivity].
Qed.

Lemma int_point s : Py.in_string "." s = true -> Py.int s = None.
Proof.
  intros Hin. unfold Py.int.
  rewrite <- (in_string_strip_by Py.is_c_space "." s) in Hin by reflexivity.
  destruct (Py.strip_by Py.is_c_space s) as [|a r]; [discriminate|].
  assert (Hbad : forall t b acc, Py.in_string "." t = true ->
                                 Py.int_digits b acc t = None).
  { intros t b acc Ht. now apply (int_digits_bad "."). }
  destruct (Ascii.eqb_spec a "-") as [->|Hm].
  { simpl in Hin. now rewrite Hbad. }
  destruct (Ascii.eqb_spec a "+") as [->|Hp].
  { simpl in Hin. now rewrite Hbad. }
  transitivity (Py.int_digits false 0 (String a r)).
  - destruct a as [[] [] [] [] [] [] [] []]; try reflexivity; congruence.
  - now apply Hbad.
Qed.

(** the string handed to [int] *)
Lemma filter_after_parens s :
  Py.filter_chars keep_numeric
    (if Py.contains "(" s && Py.contains ")" s
     then Py.replace ")" "" (Py.replace "(" "" s)
     else s)
  = Py.filter_chars keep_numeric s.
Proof.
  destruct (Py.contains "(" s && Py.contains ")" s); [|reflexivity].
  now rewrite !filter_chars_replace by reflexivity.
Qed.

Lemma currency_after_parens s :
  Py.contains "$"
    (if Py.contains "(" s && Py.contains ")" s
     then Py.replace ")" "" (Py.replace "(" "" s)
     else s)
  = Py.contains "$" s.
Proof.
  destruct (Py.contains "(" s && Py.contains ")" s); [|reflexivity].
  rewrite !contains_single.
  now rewrite !in_string_replace by congruence.
Qed.

(** [__standardize_number] on a string, in one expression *)
Lemma standardize_number_str s multiplier :
  __standardize_number (PStr s) multiplier
  = if Py.In_list (Py.strip s) missing_markers then Ok None
    else
      match Py.int (Py.filter_chars keep_numeric s) with
      | Some number =>
          let number :=
            if Py.contains "(" s && Py.contains ")" s
            then (- number)%Z else number in
          Ok (Some (if Py.contains "$" s then (number * multiplier)%Z
                    else number))
      | None => Ok None
      end.
Proof.
  unfold __standardize_number.
  destruct (Py.In_list (Py.strip s) missing_markers); [reflexivity|].
  rewrite currency_after_parens, filter_after_parens.
  reflexivity.
Qed.

Lemma lower_char_numeric c : keep_numeric (Py.lower_char c) = keep_numeric c.
Proof. destruct c as [[] [] [] [] [] [] [] []]; reflexivity. Qed.

Lemma filter_numeric_lower s :
  Py.filter_chars keep_numeric (Py.lower s)
  = Py.lower (Py.filter_chars keep_numeric s).
Proof.
  induction s as [|a s IH]; [reflexivity|].
  simpl. rewrite lower_char_numeric.
  destruct (keep_numeric a); simpl; now rewrite IH.
Qed.

Lemma lower_empty s : Py.lower s = "" -> s = "".
Proof. destruct s; [reflexivity|discriminate]. Qed.

Lemma lower_char_minus c : Py.lower_char c = "-"%char -> c = "-"%char.
Proof.
  destruct c as [[] [] [] [] [] [] [] []]; vm_compute; congruence.
Qed.

Lemma lower_two_minus s : Py.lower s = "--" -> s = "--".
Proof.
  destruct s as [|a [|b [|c s]]]; simpl; try discriminate.
  intros H. injection H as Ha Hb.
  now rewrite (lower_char_minus _ Ha), (lower_char_minus _ Hb).
Qed.

(** a string without digit, point or minus sign is not a number *)
Lemma standardize_number_no_numeric s multiplier :
  Py.filter_chars keep_numeric s = "" ->
  __standardize_number (PStr s) multiplier = Ok None.
Proof.
  intros H. rewrite standardize_number_str, H.
  now destruct (Py.In_list (Py.strip s) missing_markers).
Qed.

End StandardizeNumber.

(** C6.  A raw string with a decimal point is not truncated to its
    integer part: [int] rejects the point, and [__standardize_number]
    returns [None] for every such string, whatever the multiplier;
    ["1234.5"] gives [None], not [1234]. *)
Theorem decimal_point_gives_none (s : string) (multiplier : Z) :
  Py.contains "." s = true ->
  Scraper.__standardize_number (Scraper.PStr s) multiplier = Ok None.
Proof.
  intros Hpt. rewrite standardize_number_str.
  destruct (Py.In_list (Py.strip s) Scraper.missing_markers); [reflexivity|].
  rewrite int_point; [reflexivity|].
  rewrite in_string_filter. rewrite contains_single in Hpt. now rewrite Hpt.
Qed.

Lemma decimal_point_gives_none_witness :
  Py.contains "." "1234.5" = true
  /\ Scraper.__standardize_number (Scraper.PStr "1234.5") 1000 = Ok None.
Proof.
  split; [reflexivity|].
  apply (decimal_point_gives_none "1234.5" 1000). reflexivity.
Defined.

(** C7.  The missing markers, their variants in another case (with or
    without surrounding white space), and every string that has no
    digit, point or minus sign left after the stripping all give
    [None], never a number. *)
Theorem missing_marker_gives_none (s : string) (multiplier : Z) :
  In s Scraper.missing_markers
  \/ In (Py.lower (Py.strip s)) (map Py.lower Scraper.missing_markers)
  \/ Py.filter_chars Scraper.keep_numeric s = "" ->
  Scraper.__standardize_number (Scraper.PStr s) multiplier = Ok None.
Proof.
  intros [H | [H | H]].
  - simpl in H.
    destruct H as [<- | [<- | [<- | [<- | [<- | []]]]]]; reflexivity.
  - simpl in H.
    assert (Hstrip : Py.filter_chars Scraper.keep_numeric (Py.strip s)
                     = Py.filter_chars Scraper.keep_numeric s)
      by (apply filter_chars_strip, space_not_numeric).
    assert (Hlow : forall t, Py.filter_chars Scraper.keep_numeric (Py.lower t) = "" ->
                             Py.filter_chars Scraper.keep_numeric t = "").
    { intros t Ht. rewrite filter_numeric_lower in Ht. now apply lower_empty. }
    destruct H as [H | [H | [H | [H | [H | []]]]]]; symmetry in H.
    + apply standardize_number_no_numeric. rewrite <- Hstrip.
      apply Hlow. now rewrite H.
    + apply lower_two_minus in H. rewrite standardize_number_str, H.
      reflexivity.
    + apply lower_empty in H. rewrite standardize_number_str, H.
      reflexivity.
    + apply standardize_number_no_numeric. rewrite <- Hstrip.
      apply Hlow. now rewrite H.
    + apply standardize_number_no_numeric. rewrite <- Hstrip.
      apply Hlow. now rewrite H.
  - now apply standardize_number_no_numeric.
Qed.

Lemma missing_marker_gives_none_witness :
  Scraper.__standardize_number (Scraper.PStr " NaN ") 1000 = Ok None.
Proof.
  apply (missing_marker_gives_none " NaN " 1000).
  right. left. simpl. right. right. right. left. reflexivity.
Defined.

Example missing_markers_all :
  map (fun s => Scraper.__standardize_number (Scraper.PStr s) 1000)
      ["N/A"; "--"; ""; "nan"; "NAN"; "n/a"; "NaN"; "Nan"; " -- "; "abc"]
  = repeat (Ok None) 10.
Proof. reflexivity. Qed.

(** ** Locating the statement file *)

Section Locate.

Import Scraper Reference.

Lemma first_file_name_skip dict pre keys :
  Forall (misses dict) pre ->
  first_file_name dict (pre ++ keys) = first_file_name dict keys.
Proof.
  induction 1 as [|k pre Hk _ IH]; [reflexivity|].
  simpl. destruct Hk as [-> | ->]; simpl; exact IH.
Qed.

Lemma first_file_name_hit dict pre key post file_name :
  Forall (misses dict) pre ->
  dict !! Py.lower key = Some file_name ->
  file_name <> "" ->
  first_file_name dict (pre ++ key :: post) = Some file_name.
Proof.
  intros Hpre Hkey Hne. rewrite first_file_name_skip by assumption.
  simpl. rewrite Hkey. destruct file_name; [contradiction|reflexivity].
Qed.

Lemma first_file_name_none dict keys :
  first_file_name dict keys = None <-> Forall (misses dict) keys.
Proof.
  induction keys as [|k keys IH]; simpl.
  - split; [constructor|reflexivity].
  - destruct (dict !! Py.lower k) as [f|] eqn:Hk.
    + destruct f as [|a f]; simpl.
      * rewrite IH. split.
        -- intros H. constructor; [now right|assumption].
        -- now inversion 1.
      * split; [discriminate|].
        inversion 1 as [|? ? [Hm | Hm] _]; subst; congruence.
    + rewrite IH. split.
      * intros H. constructor; [now left|assumption].
      * now inversion 1.
Qed.

End Locate.

(** C4, as amended.  The loop returns the file of the first key of the
    table, in its declared order, whose entry in the catalog is a
    non-empty file name, whatever later keys match. *)
Theorem first_match_in_declared_order
    (base_link : string) (dict : gmap string string)
    (statement_name : string) (pre post : list string)
    (key file_name : string) :
  Scraper.statement_keys_map !! Py.lower statement_name
    = Some (pre ++ key :: post)%list ->
  Forall (Reference.misses dict) pre ->
  dict !! Py.lower key = Some file_name ->
  file_name <> "" ->
  Scraper.statement_link base_link dict statement_name
    = Ok (base_link ++ "/" ++ file_name).
Proof.
  intros Hkeys Hpre Hkey Hne. unfold Scraper.statement_link.
  rewrite Hkeys. simpl.
  now rewrite (first_file_name_hit dict pre key post file_name).
Qed.

(** in the table ["balance sheet"] comes before ["balance sheets"], so
    the catalog of the example resolves to ["R3.htm"] *)
Lemma first_match_in_declared_order_witness :
  Scraper.statement_link "https://www.sec.gov/Archives/edgar/data/1/2"
    Reference.catalog_R2_R3 "balance_sheet"
  = Ok "https://www.sec.gov/Archives/edgar/data/1/2/R3.htm".
Proof.
  apply (first_match_in_declared_order
           "https://www.sec.gov/Archives/edgar/data/1/2" Reference.catalog_R2_R3
           "balance_sheet" [] (tail Scraper.balance_sheet_keys)
           "balance sheet" "R3.htm").
  - vm_compute. reflexivity.
  - constructor.
  - vm_compute. reflexivity.
  - discriminate.
Defined.

(** C4, the example as the specification states it: the result is not
    ["R2.htm"], although ["balance sheets"] is in the catalog. *)
Lemma locate_example_is_R3 :
  Reference.catalog_R2_R3 !! "balance sheets" = Some "R2.htm"
  /\ Scraper.first_file_name Reference.catalog_R2_R3 Scraper.balance_sheet_keys
     <> Some "R2.htm"
  /\ Scraper.statement_link "" Reference.catalog_R2_R3 "balance_sheet"
     <> Ok "/R2.htm".
Proof.
  split; [vm_compute; reflexivity|].
  split; vm_compute; discriminate.
Qed.

(** ** The cell loop of the extractor *)

Section CellLoop.

Import EdgarFunctions Reference.

Variables (special_case : bool) (unit_multiplier : Z).


(** The loop either raises the first fault among its cells, or
    returns the values with the cells' numbers written in place. *)
Lemma process_cells_spec cells : forall i values,
  process_cells special_case unit_multiplier i cells values
  = match first_fault special_case (length values) i cells with
    | Some e => Raise e
    | None => Ok (overlay special_case unit_multiplier i cells values)
    end.
Proof.
  induction cells as [|cell rest IH]; intros i values; simpl; [reflexivity|].
  unfold cell_fault, populated, stored_value.
  destruct (has_class "text" cell) eqn:Htext; simpl.
  { rewrite orb_true_r. apply IH. }
  rewrite orb_false_r.
  destruct (Py.is_empty (clean_cell_text (cell_text cell))) eqn:Hempty; simpl.
  { rewrite IH.
    destruct (clean_cell_text (cell_text cell)); [|discriminate].
    simpl. now destruct special_case. }
  destruct (Py.float (clean_cell_text (cell_text cell))) as [v|]; [|reflexivity].
  destruct special_case; simpl; [apply IH|].
  unfold set_item.
  destruct (Nat.ltb_spec i (length values)) as [Hlt|Hge].
  - destruct (Nat.leb_spec (length values) i); [lia|].
    simpl. rewrite IH, length_insert. reflexivity.
  - destruct (Nat.leb_spec (length values) i); [|lia].
    reflexivity.
Qed.

Lemma overlay_lookup cells : forall i values j,
  overlay special_case unit_multiplier i cells values !! j
  = match (if decide (i <= j)
           then cells !! (j - i) ≫= stored_value special_case unit_multiplier
           else None) with
    | Some q => (fun _ => Some q) <$> values !! j
    | None => values !! j
    end.
Proof.
  induction cells as [|cell rest IH]; intros i values j; simpl.
  { now destruct (decide (i <= j)). }
  rewrite IH.
  destruct (decide (S i <= j)) as [Hlt|Hge].
  - destruct (decide (i <= j)); [|lia].
    replace (j - i) with (S (j - S i)) by lia. simpl.
    assert (Hother : forall q,
              (<[i := Some q]> values : list (option Q)) !! j = values !! j).
    { intros q. apply list_lookup_insert_ne. lia. }
    destruct (rest !! (j - S i) ≫= stored_value special_case unit_multiplier);
      destruct (stored_value special_case unit_multiplier cell);
      now rewrite ?Hother.
  - destruct (decide (i <= j)) as [Hle|Hgt].
    + assert (j = i) as -> by lia. rewrite Nat.sub_diag. simpl.
      destruct (stored_value special_case unit_multiplier cell) as [q|];
        [|reflexivity].
      destruct (decide (i < length values)) as [Hin|Hout].
      * rewrite list_lookup_insert_eq by assumption.
        destruct (lookup_lt_is_Some_2 values i Hin) as [x ->]. reflexivity.
      * rewrite list_insert_ge by lia.
        rewrite (lookup_ge_None_2 values i) by lia. reflexivity.
    + destruct (stored_value special_case unit_multiplier cell) as [q|];
        [|reflexivity].
      apply list_lookup_insert_ne. lia.
Qed.

Lemma overlay_aligned n cells :
  overlay special_case unit_multiplier 0 cells (replicate n None)
  = aligned_values special_case unit_multiplier n cells.
Proof.
  apply list_eq. intros j. rewrite overlay_lookup.
  destruct (decide (0 <= j)); [|lia]. rewrite Nat.sub_0_r.
  unfold aligned_values. rewrite list_lookup_fmap.
  destruct (decide (j < n)) as [Hlt|Hge].
  - rewrite lookup_seq_lt by assumption. simpl.
    assert (Hrep : (replicate n None : list (option Q)) !! j = Some None).
    { apply lookup_replicate_2. assumption. }
    rewrite Hrep.
    now destruct (cells !! j ≫= stored_value special_case unit_multiplier).
  - rewrite lookup_seq_ge by lia. simpl.
    assert (Hrep : (replicate n None : list (option Q)) !! j = None).
    { apply lookup_ge_None_2. rewrite length_replicate. lia. }
    rewrite Hrep.
    now destruct (cells !! j ≫= stored_value special_case unit_multiplier).
Qed.

Lemma length_aligned_values n cells :
  length (aligned_values special_case unit_multiplier n cells) = n.
Proof. unfold aligned_values. now rewrite length_map, length_seq. Qed.

(** with at least as many dates as cells, the values are those of
    the cells, followed by NaN *)
Lemma aligned_values_split n cells :
  length cells <= n ->
  aligned_values special_case unit_multiplier n cells
  = (map (stored_value special_case unit_multiplier) cells
     ++ replicate (n - length cells) None)%list.
Proof.
  intros Hn. apply list_eq. intros j. unfold aligned_values.
  rewrite list_lookup_fmap.
  destruct (decide (j < length cells)) as [Hj|Hj].
  - rewrite lookup_seq_lt by lia. simpl.
    rewrite lookup_app_l by now rewrite length_map.
    rewrite list_lookup_fmap.
    destruct (lookup_lt_is_Some_2 cells j Hj) as [c ->]. reflexivity.
  - rewrite lookup_app_r by (rewrite length_map; lia).
    rewrite length_map.
    destruct (decide (j < n)) as [Hjn|Hjn].
    + rewrite lookup_seq_lt by lia. simpl.
      rewrite (lookup_ge_None_2 cells j) by lia. simpl.
      symmetry. apply lookup_replicate_2. lia.
    + rewrite lookup_seq_ge by lia. simpl.
      symmetry. apply lookup_ge_None_2. rewrite length_replicate. lia.
Qed.

Lemma count_nan_app values1 values2 :
  count_nan (values1 ++ values2) = count_nan values1 + count_nan values2.
Proof. unfold count_nan. now rewrite List.filter_app, length_app. Qed.

Lemma count_nan_replicate k : count_nan (replicate k None) = k.
Proof.
  unfold count_nan. induction k as [|k IH]; [reflexivity|].
  simpl. now rewrite IH.
Qed.

(** the loop over a fresh list of [n] values *)
Lemma process_cells_fresh n cells :
  process_cells special_case unit_multiplier 0 cells (replicate n None)
  = match first_fault special_case n 0 cells with
    | Some e => Raise e
    | None => Ok (aligned_values special_case unit_multiplier n cells)
    end.
Proof.
  rewrite process_cells_spec, length_replicate, overlay_aligned. reflexivity.
Qed.

End CellLoop.

(** ** Faults of the cell loop *)

Section Faults.

Import EdgarFunctions Reference.

Lemma first_fault_index_error special_case n cells : forall i,
  first_fault special_case n i cells = Some IndexError ->
  special_case = false
  /\ exists j cell, cells !! j = Some cell /\ populated cell = true
                    /\ n <= i + j.
Proof.
  induction cells as [|cell rest IH]; intros i; simpl; [discriminate|].
  unfold cell_fault.
  destruct (populated cell) eqn:Hpop.
  - destruct (Py.float (clean_cell_text (cell_text cell))); [|discriminate].
    destruct special_case; simpl.
    + intros H. now destruct (IH _ H).
    + destruct (Nat.leb_spec n i) as [Hle|Hgt].
      * intros _. split; [reflexivity|].
        exists 0, cell. repeat split; [assumption|lia].
      * intros H. destruct (IH _ H) as [_ (j & c & Hj & Hc & Hn)].
        split; [reflexivity|]. exists (S j), c. repeat split; [assumption..|lia].
  - intros H. destruct (IH _ H) as [Hs (j & c & Hj & Hc & Hn)].
    split; [assumption|]. exists (S j), c. repeat split; [assumption..|lia].
Qed.

(** when every populated cell parses, the only fault is the index
    error, and it occurs as soon as a write falls beyond the list *)
Lemma first_fault_parses special_case n cells : forall i e,
  forallb cell_parses cells = true ->
  first_fault special_case n i cells = Some e -> e = IndexError.
Proof.
  induction cells as [|cell rest IH]; intros i e; simpl; [discriminate|].
  intros [Hc Hrest]%andb_prop. unfold cell_fault.
  unfold cell_parses in Hc.
  destruct (populated cell); simpl in Hc.
  - apply bool_decide_eq_true_1 in Hc. destruct Hc as [v ->].
    destruct (negb special_case && (n <=? i)%nat); [congruence|].
    now apply IH.
  - now apply IH.
Qed.

Lemma first_fault_beyond n cells : forall i j cell,
  forallb cell_parses cells = true ->
  cells !! j = Some cell -> populated cell = true -> n <= i + j ->
  first_fault false n i cells = Some IndexError.
Proof.
  induction cells as [|c rest IH]; intros i j cell Hwf Hj Hpop Hn;
    [discriminate|].
  simpl in Hwf. apply andb_prop in Hwf as [Hc Hrest].
  simpl.
  destruct (cell_fault false n i c) as [e|] eqn:Hf.
  - f_equal. apply (first_fault_parses false n [c] i e).
    + simpl. now rewrite Hc.
    + simpl. now rewrite Hf.
  - destruct j as [|j]; simpl in Hj.
    + injection Hj as ->. unfold cell_fault in Hf. rewrite Hpop in Hf.
      destruct (Py.float (clean_cell_text (cell_text cell))); [|discriminate].
      simpl in Hf. destruct (Nat.leb_spec n i); [discriminate|lia].
    + apply (IH (S i) j cell); [assumption..|lia].
Qed.

Lemma first_row_fault_app n rows1 rows2 :
  first_row_fault n (rows1 ++ rows2)
  = match first_row_fault n rows1 with
    | Some e => Some e
    | None => first_row_fault n rows2
    end.
Proof.
  induction rows1 as [|x rows1 IH]; simpl; [reflexivity|].
  destruct (row_fault n x); [reflexivity|exact IH].
Qed.

End Faults.

(** ** Rows and tables *)

Section Extraction.

Import EdgarFunctions Reference.

Lemma process_row_spec special_case unit_multiplier n row :
  process_row special_case unit_multiplier n row
  = if labelled row then
      match row_fault n (unit_multiplier, special_case, row) with
      | Some e => Raise e
      | None =>
          Ok (Some (row_title row,
                    row_values n (unit_multiplier, special_case, row)))
      end
    else Ok None.
Proof.
  unfold process_row, labelled, row_fault, row_title, row_values. simpl.
  destruct (row_onclick_elements row) as [|[onclick_attr|] others];
    [reflexivity| |reflexivity].
  rewrite process_cells_fresh.
  now destruct (first_fault special_case n 0 (select_cells row)).
Qed.

Lemma process_rows_spec special_case unit_multiplier n rows : forall acc,
  process_rows special_case unit_multiplier n rows acc
  = let kept := map (fun row => (unit_multiplier, special_case, row))
                    (List.filter labelled rows) in
    match first_row_fault n kept with
    | Some e => Raise e
    | None =>
        Ok ((acc.1 ++ map (fun x => row_title x.2) kept)%list,
            (acc.2 ++ map (row_values n) kept)%list)
    end.
Proof.
  induction rows as [|row rest IH]; intros [columns values_set]; simpl.
  { now rewrite !app_nil_r. }
  rewrite process_row_spec.
  destruct (labelled row); simpl.
  - destruct (row_fault n (unit_multiplier, special_case, row));
      [reflexivity|].
    simpl. rewrite IH. simpl.
    destruct (first_row_fault n _); [reflexivity|].
    now rewrite <- !app_assoc.
  - apply IH.
Qed.

Lemma process_tables_spec n tables : forall acc,
  process_tables n tables acc
  = match first_row_fault n (labelled_rows tables) with
    | Some e => Raise e
    | None =>
        Ok ((acc.1 ++ map (fun x => row_title x.2) (labelled_rows tables))%list,
            (acc.2 ++ map (row_values n) (labelled_rows tables))%list)
    end.
Proof.
  induction tables as [|table rest IH]; intros [columns values_set]; simpl.
  { now rewrite !app_nil_r. }
  unfold labelled_rows. simpl. fold (labelled_rows rest).
  destruct (table_settings table) as [unit_multiplier special_case] eqn:Hset.
  rewrite process_rows_spec. simpl.
  rewrite first_row_fault_app.
  set (kept := map (fun row => (unit_multiplier, special_case, row))
                   (List.filter labelled (table_rows table))).
  destruct (first_row_fault n kept); [reflexivity|].
  simpl. rewrite IH. simpl.
  destruct (first_row_fault n (labelled_rows rest)); [reflexivity|].
  now rewrite !map_app, !app_assoc.
Qed.

Section WithDateParser.

Variable to_datetime : list string -> result (list Date).

(** the extraction in one expression *)
Lemma extract_spec soup :
  __extract_columns_values_and_dates_from_statement to_datetime soup
  = match to_datetime (date_strings soup) with
    | Raise e => Raise e
    | Ok dates =>
        match first_row_fault (length dates)
                (labelled_rows (soup_tables soup)) with
        | Some e => Raise e
        | None =>
            Ok (map (fun x => row_title x.2) (labelled_rows (soup_tables soup)),
                map (row_values (length dates))
                    (labelled_rows (soup_tables soup)),
                dates)
        end
    end.
Proof.
  unfold __extract_columns_values_and_dates_from_statement,
    __get_datetime_index_dates_from_statement.
  destruct (to_datetime (date_strings soup)) as [dates|e]; [|reflexivity].
  simpl. rewrite process_tables_spec. simpl.
  now destruct (first_row_fault (length dates) _).
Qed.

End WithDateParser.

End Extraction.

(** ** What the extractor returns *)

Section ExtractorFacts.

Import EdgarFunctions Reference.

Lemma digit_val_nonneg c : Py.is_digit c = true -> (0 <= Py.digit_val c)%Z.
Proof.
  unfold Py.is_digit, Py.digit_val.
  intros [H _]%andb_prop. apply Nat.leb_le in H. lia.
Qed.

Lemma float_digits_nonneg s : forall seen_dot have_digit mant scale v,
  (0 <= mant)%Z ->
  Py.float_digits seen_dot have_digit mant scale s = Some v ->
  (0 <= v)%Q.
Proof.
  induction s as [|c s IH]; intros seen_dot have_digit mant scale v Hm; simpl.
  - destruct have_digit; [|discriminate].
    intros [= <-]. unfold Qle. simpl. lia.
  - destruct (Py.is_digit c) eqn:Hd.
    + apply IH. pose proof (digit_val_nonneg c Hd). lia.
    + destruct (Ascii.eqb c "." && negb seen_dot); [|discriminate].
      now apply IH.
Qed.

Lemma float_nonneg s v : Py.float s = Some v -> (0 <= v)%Q.
Proof. apply float_digits_nonneg. lia. Qed.

(** one cell of a table that is not flagged special: the number is
    written at the position of the cell, with the sign of its class *)
Lemma process_one_cell unit_multiplier i cell values v :
  i < length values ->
  has_class "text" cell = false ->
  Py.float (clean_cell_text (cell_text cell)) = Some v ->
  process_cells false unit_multiplier i [cell] values
  = Ok (<[i := Some (if has_class "nump" cell
                     then (v * inject_Z unit_multiplier)%Q
                     else (- v * inject_Z unit_multiplier)%Q)]> values).
Proof.
  intros Hi Htext Hv. simpl. rewrite Htext, Hv.
  destruct (clean_cell_text (cell_text cell)) eqn:Hc; [discriminate|].
  simpl. unfold set_item.
  destruct (Nat.ltb_spec i (length values)); [reflexivity|lia].
Qed.

Lemma clean_cell_text_parens text :
  clean_cell_text (Py.replace "(" "" (Py.replace ")" "" text))
  = clean_cell_text text.
Proof.
  rewrite !clean_cell_text_filter.
  now rewrite !filter_chars_replace by reflexivity.
Qed.

Lemma filter_chars_idem keep s :
  Py.filter_chars keep (Py.filter_chars keep s) = Py.filter_chars keep s.
Proof.
  induction s as [|a s IH]; [reflexivity|].
  simpl. destruct (keep a) eqn:Ka; simpl; [rewrite Ka|]; now rewrite IH.
Qed.

(** the loop sees the digits and points of a cell text and nothing
    else of it *)
Lemma process_cells_digits_only special_case unit_multiplier i class text values :
  process_cells special_case unit_multiplier i [mkCell class text] values
  = process_cells special_case unit_multiplier i
      [mkCell class (Py.filter_chars in_num text)] values.
Proof.
  cbn [process_cells cell_text].
  now rewrite (clean_cell_text_filter (Py.filter_chars in_num text)),
    filter_chars_idem, <- clean_cell_text_filter.
Qed.

(** in a table flagged special no cell is written *)
Lemma aligned_values_special unit_multiplier n cells :
  aligned_values true unit_multiplier n cells = replicate n None.
Proof.
  unfold aligned_values.
  assert (H : forall j, cells !! j ≫= stored_value true unit_multiplier = None).
  { intros j. now destruct (cells !! j). }
  generalize 0. induction n as [|n IH]; intros k; simpl; [reflexivity|].
  now rewrite H, IH.
Qed.

(** outside special tables, a cell that parses stores a number
    exactly when it is populated *)
Lemma stored_value_is_Some unit_multiplier cell :
  cell_parses cell = true ->
  bool_decide (is_Some (stored_value false unit_multiplier cell))
  = populated cell.
Proof.
  unfold cell_parses, stored_value, populated. simpl.
  destruct (has_class "text" cell); simpl; [reflexivity|].
  destruct (Py.float (clean_cell_text (cell_text cell))) as [v|] eqn:Hv.
  - intros _. destruct (clean_cell_text (cell_text cell)); [discriminate|].
    reflexivity.
  - destruct (Py.is_empty (clean_cell_text (cell_text cell))); simpl;
      [reflexivity|].
    discriminate.
Qed.

Lemma count_nan_stored unit_multiplier cells :
  forallb cell_parses cells = true ->
  count_nan (map (stored_value false unit_multiplier) cells)
  + length (List.filter populated cells)
  = length cells.
Proof.
  induction cells as [|cell rest IH]; [reflexivity|].
  simpl. intros [Hc Hrest]%andb_prop. specialize (IH Hrest).
  unfold count_nan in *. simpl.
  rewrite (stored_value_is_Some unit_multiplier cell Hc).
  destruct (populated cell); simpl; lia.
Qed.

(** a row outside special tables, with no more cells than dates: as
    many NaN as there are dates without a populated cell *)
Lemma count_nan_row_values n x :
  x.1.2 = false ->
  forallb cell_parses (select_cells x.2) = true ->
  length (select_cells x.2) <= n ->
  count_nan (row_values n x) + length (List.filter populated (select_cells x.2))
  = n.
Proof.
  intros Hs Hparse Hn. unfold row_values. rewrite Hs.
  rewrite aligned_values_split by assumption.
  rewrite count_nan_app, count_nan_replicate.
  pose proof (count_nan_stored x.1.1 (select_cells x.2) Hparse). lia.
Qed.

End ExtractorFacts.

(** in a table flagged special every row keeps its NaN *)
Lemma special_case_rows_stay_nan unit_multiplier n cells values :
  EdgarFunctions.process_cells true unit_multiplier 0 cells (replicate n None)
  = Ok values ->
  values = replicate n None.
Proof.
  rewrite process_cells_fresh.
  destruct (Reference.first_fault true n 0 cells); [discriminate|].
  intros [= <-]. apply aligned_values_special.
Qed.

(** C1.  In a table whose header holds "unless otherwise specified"
    the cell ["$2,000,000"] is divided by 1000 but the quotient is not
    written: the row keeps its NaN, where the specification expects 2000. *)
Theorem special_case_value_not_stored :
  EdgarFunctions.table_settings
    (mkTable (Some "CONSOLIDATED BALANCE SHEETS (USD $) In Millions, unless otherwise specified") [])
  = (1%Z, true)
  /\ EdgarFunctions.__extract_columns_values_and_dates_from_statement
       Dates.to_datetime Sample.special_soup
     = Ok (["us-gaap_Assets"], [[None]], [mkDate 2013 12 31])
  /\ EdgarFunctions.__extract_columns_values_and_dates_from_statement
       Dates.to_datetime Sample.special_soup
     <> Ok (["us-gaap_Assets"], [[Some 2000%Q]], [mkDate 2013 12 31]).
Proof.
  split; [reflexivity|]. split; vm_compute; [reflexivity|discriminate].
Qed.

(** C2, as the specification states it: a parenthesized cell of class [nump]
    is stored as a positive number. *)
Lemma parenthesized_nump_is_positive :
  ~ (forall (unit_multiplier : Z) (cell : Cell) (v : Q),
       Py.contains "(" (cell_text cell) && Py.contains ")" (cell_text cell)
       = true ->
       EdgarFunctions.has_class "nump" cell
       || EdgarFunctions.has_class "num" cell = true ->
       EdgarFunctions.process_cells false unit_multiplier 0 [cell] [None]
       = Ok [Some v] ->
       (v < 0)%Q).
Proof.
  intros H.
  specialize (H 1%Z (mkCell ["nump"] "(5)") (5 * inject_Z 1)%Q
                eq_refl eq_refl eq_refl).
  vm_compute in H. discriminate.
Qed.

(** C2, as amended.  In a table that is not flagged special the sign
    of a stored number follows the class of the cell alone: a cell of
    class [nump] stores the parsed number times the multiplier, which
    is not negative, every other number cell stores its opposite,
    which is not positive; the parentheses of the cell text are
    removed before the parse and change nothing. *)
Theorem sign_follows_role_tag
    (unit_multiplier : Z) (i : nat) (cell : Cell)
    (values : list (option Q)) (v : Q) :
  (0 <= unit_multiplier)%Z ->
  i < length values ->
  EdgarFunctions.has_class "text" cell = false ->
  Py.float (EdgarFunctions.clean_cell_text (cell_text cell)) = Some v ->
  let stored :=
    if EdgarFunctions.has_class "nump" cell
    then (v * inject_Z unit_multiplier)%Q
    else (- v * inject_Z unit_multiplier)%Q in
  EdgarFunctions.process_cells false unit_multiplier i [cell] values
  = Ok (<[i := Some stored]> values)
  /\ (EdgarFunctions.has_class "nump" cell = true -> (0 <= stored)%Q)
  /\ (EdgarFunctions.has_class "nump" cell = false -> (stored <= 0)%Q)
  /\ EdgarFunctions.clean_cell_text
       (Py.replace "(" "" (Py.replace ")" "" (cell_text cell)))
     = EdgarFunctions.clean_cell_text (cell_text cell).
Proof.
  intros Hm Hi Htext Hv stored.
  pose proof (float_nonneg _ _ Hv) as Hv0.
  assert (Hm0 : (0 <= inject_Z unit_multiplier)%Q).
  { unfold Qle. simpl. lia. }
  split; [now apply process_one_cell|].
  split; [|split].
  - intros Hn. unfold stored. rewrite Hn. now apply Qmult_le_0_compat.
  - intros Hn. unfold stored. rewrite Hn.
    assert (H : (0 <= v * inject_Z unit_multiplier)%Q)
      by now apply Qmult_le_0_compat.
    unfold Qle in *. simpl in *. lia.
  - apply clean_cell_text_parens.
Qed.

Lemma sign_follows_role_tag_witness :
  EdgarFunctions.process_cells false 1 0 [mkCell ["nump"] "(5)"] [None]
  = Ok [Some (5 * inject_Z 1)%Q]
  /\ EdgarFunctions.process_cells false 1 0 [mkCell ["num"] "5"] [None]
     = Ok [Some (- 5 * inject_Z 1)%Q].
Proof.
  split.
  - apply (sign_follows_role_tag 1 0 (mkCell ["nump"] "(5)") [None] 5).
    + lia.
    + simpl. lia.
    + reflexivity.
    + reflexivity.
  - apply (sign_follows_role_tag 1 0 (mkCell ["num"] "5") [None] 5).
    + lia.
    + simpl. lia.
    + reflexivity.
    + reflexivity.
Defined.

(** C5, as the specification states it: in the table extractor a number
    without currency marker is multiplied as well.  Under the header
    "in Millions" the cell ["1,234"] is stored as 1234000. *)
Lemma header_multiplier_without_currency :
  Py.contains "$" "1,234" = false
  /\ EdgarFunctions.table_settings
       (mkTable (Some "CONSOLIDATED BALANCE SHEETS - USD ($) $ in Millions") [])
     = (1000%Z, false)
  /\ EdgarFunctions.__extract_columns_values_and_dates_from_statement
       Dates.to_datetime Sample.millions_soup
     = Ok (["us-gaap_Assets"], [[Some 1234000%Q; Some 2000%Q]],
           [mkDate 2020 12 31; mkDate 2019 12 31])
  /\ ~ (1234000 == 1234)%Q.
Proof.
  repeat split; try (vm_compute; reflexivity).
  vm_compute. discriminate.
Qed.

(** ** What an extraction that returns has stored *)

Section Stored.

Import EdgarFunctions Reference.

Lemma first_fault_none special_case n cells : forall i j cell,
  first_fault special_case n i cells = None ->
  cells !! j = Some cell -> populated cell = true ->
  (exists v, Py.float (clean_cell_text (cell_text cell)) = Some v)
  /\ (special_case = false -> i + j < n).
Proof.
  induction cells as [|c cells IH]; intros i j cell Hnone Hj Hpop;
    [discriminate|].
  simpl in Hnone.
  destruct (cell_fault special_case n i c) eqn:Hc; [discriminate|].
  destruct j as [|j]; simpl in Hj.
  - injection Hj as ->. unfold cell_fault in Hc. rewrite Hpop in Hc.
    destruct (Py.float (clean_cell_text (cell_text cell))) as [v|];
      [|discriminate].
    split; [now exists v|]. intros ->. simpl in Hc.
    destruct (n <=? i)%nat eqn:Hn; [discriminate|].
    apply Nat.leb_gt in Hn. lia.
  - destruct (IH (S i) j cell Hnone Hj Hpop) as [Hv Hlt].
    split; [assumption|]. intros Hs. specialize (Hlt Hs). lia.
Qed.

Lemma first_row_fault_none n rows x :
  first_row_fault n rows = None -> x ∈ rows -> row_fault n x = None.
Proof.
  induction rows as [|y rows IH]; intros Hnone Hx.
  - now apply elem_of_nil in Hx.
  - simpl in Hnone. destruct (row_fault n y) eqn:Hy; [discriminate|].
    apply elem_of_cons in Hx as [-> | Hx]; [assumption|now apply IH].
Qed.

Lemma row_fault_none_cells n x :
  row_fault n x = None -> first_fault x.1.2 n 0 (select_cells x.2) = None.
Proof.
  unfold row_fault.
  destruct (row_onclick_elements x.2) as [|[a|] l]; [auto|auto|discriminate].
Qed.

Lemma aligned_values_lookup special_case unit_multiplier n cells j :
  j < n ->
  aligned_values special_case unit_multiplier n cells !! j
  = Some (cells !! j ≫= stored_value special_case unit_multiplier).
Proof.
  intros Hj. unfold aligned_values.
  now rewrite list_lookup_fmap, lookup_seq_lt.
Qed.

Lemma labelled_rows_origin tables x :
  x ∈ labelled_rows tables ->
  exists table,
    table ∈ tables /\ x.1 = table_settings table /\ x.2 ∈ table_rows table.
Proof.
  unfold labelled_rows. intros Hx.
  apply list_elem_of_bind in Hx as (table & Hx & Htable).
  apply list_elem_of_fmap in Hx as (row & -> & Hrow).
  apply list_elem_of_In, filter_In in Hrow as [Hrow _].
  exists table. repeat split; [assumption|now apply list_elem_of_In].
Qed.

(** in a row of a table that is not special, a cell with a number is
    stored at its own position, multiplied by the multiplier of the
    table, with the sign of its class *)
Lemma row_values_stored n rows x j cell :
  first_row_fault n rows = None -> x ∈ rows -> x.1.2 = false ->
  select_cells x.2 !! j = Some cell -> populated cell = true ->
  exists v,
    Py.float (clean_cell_text (cell_text cell)) = Some v
    /\ j < n
    /\ row_values n x !! j
       = Some (Some (if has_class "nump" cell
                     then (v * inject_Z x.1.1)%Q
                     else (- v * inject_Z x.1.1)%Q)).
Proof.
  intros Hnone Hx Hs Hj Hpop.
  pose proof (row_fault_none_cells n x (first_row_fault_none n rows x Hnone Hx))
    as Hcells.
  destruct (first_fault_none _ _ _ 0 j cell Hcells Hj Hpop) as [[v Hv] Hlt].
  specialize (Hlt Hs). exists v. split; [assumption|]. split; [lia|].
  unfold row_values. rewrite aligned_values_lookup by lia.
  rewrite Hj, Hs. simpl. unfold stored_value.
  unfold populated in Hpop. apply andb_prop in Hpop as [Htext _].
  apply negb_true_iff in Htext. rewrite Htext, Hv. reflexivity.
Qed.

Lemma float_populated cell v :
  has_class "text" cell = false ->
  Py.float (clean_cell_text (cell_text cell)) = Some v ->
  populated cell = true.
Proof.
  intros Htext Hv. unfold populated. rewrite Htext. simpl.
  destruct (clean_cell_text (cell_text cell)); [discriminate|reflexivity].
Qed.

Lemma table_settings_millions table :
  (table_settings table).1 = 1000%Z
  <-> exists header_text,
        table_header table = Some header_text
        /\ Py.contains "in Thousands" header_text = false
        /\ Py.contains "in Millions" header_text = true.
Proof.
  unfold table_settings.
  destruct (table_header table) as [h|]; simpl.
  - destruct (Py.contains "in Thousands" h) eqn:Ht;
      [|destruct (Py.contains "in Millions" h) eqn:Hm].
    + split; [discriminate|]. intros (h' & [= <-] & Ht' & _). congruence.
    + split; [|reflexivity]. intros _. now exists h.
    + split; [discriminate|]. intros (h' & [= <-] & _ & Hm'). congruence.
  - split; [discriminate|]. intros (h' & [=] & _).
Qed.

Lemma table_settings_one_or_thousand table :
  (table_settings table).1 = 1%Z \/ (table_settings table).1 = 1000%Z.
Proof.
  unfold table_settings.
  destruct (table_header table) as [h|]; simpl; [|now left].
  destruct (Py.contains "in Thousands" h); [now left|].
  destruct (Py.contains "in Millions" h); [now right|now left].
Qed.




End Stored.

(** C5, as amended.  [__standardize_number] applies its multiplier
    exactly when the raw string holds a currency marker, which gives
    the three values of the specification.  The multiplier that is
    read from the header lives in the table extractor: it is 1000
    exactly when the header of the table holds "in Millions" and not
    "in Thousands", and 1 otherwise, and when the extraction of a page
    returns, every cell with a number in a labelled row of a table that
    is not special is stored at its position multiplied by the
    multiplier of its own table, with the sign of its class.  The cell
    loop sees only the digits and points of a cell text: a currency
    marker changes nothing. *)
Theorem multiplier_applied_iff_currency
    (s : string) (multiplier : Z)
    (to_datetime : list string -> result (list Date)) (soup : Soup)
    (columns : list string) (values_set : list (list (option Q)))
    (dates : list Date) :
  EdgarFunctions.__extract_columns_values_and_dates_from_statement
    to_datetime soup = Ok (columns, values_set, dates) ->
  Scraper.__standardize_number (Scraper.PStr s) multiplier
  = match Scraper.__standardize_number (Scraper.PStr s) 1 with
    | Ok (Some number) =>
        Ok (Some (if Py.contains "$" s then (number * multiplier)%Z
                  else number))
    | r => r
    end
  /\ Scraper.__standardize_number (Scraper.PStr "$1,234") 1000
     = Ok (Some 1234000%Z)
  /\ Scraper.__standardize_number (Scraper.PStr "1,234") 1000
     = Ok (Some 1234%Z)
  /\ Scraper.__standardize_number (Scraper.PStr "(1,234)") 1
     = Ok (Some (-1234)%Z)
  /\ (forall table,
        ((EdgarFunctions.table_settings table).1 = 1000%Z
         <-> exists header_text,
               table_header table = Some header_text
               /\ Py.contains "in Thousands" header_text = false
               /\ Py.contains "in Millions" header_text = true)
        /\ ((EdgarFunctions.table_settings table).1 = 1%Z
            \/ (EdgarFunctions.table_settings table).1 = 1000%Z))
  /\ (forall k x,
        Reference.labelled_rows (soup_tables soup) !! k = Some x ->
        exists table values,
          table ∈ soup_tables soup
          /\ x.2 ∈ table_rows table
          /\ x.1 = EdgarFunctions.table_settings table
          /\ values_set !! k = Some values
          /\ forall j cell v,
               (EdgarFunctions.table_settings table).2 = false ->
               EdgarFunctions.select_cells x.2 !! j = Some cell ->
               EdgarFunctions.has_class "text" cell = false ->
               Py.float (EdgarFunctions.clean_cell_text (cell_text cell))
               = Some v ->
               values !! j
               = Some (Some (if EdgarFunctions.has_class "nump" cell
                             then (v * inject_Z
                                        (EdgarFunctions.table_settings table).1)%Q
                             else (- v * inject_Z
                                          (EdgarFunctions.table_settings table).1)%Q)))
  /\ (forall unit_multiplier cell v,
        EdgarFunctions.has_class "text" cell = false ->
        Py.float (EdgarFunctions.clean_cell_text (cell_text cell)) = Some v ->
        EdgarFunctions.process_cells false unit_multiplier 0 [cell] [None]
        = Ok [Some (if EdgarFunctions.has_class "nump" cell
                    then (v * inject_Z unit_multiplier)%Q
                    else (- v * inject_Z unit_multiplier)%Q)])
  /\ (forall text,
        EdgarFunctions.clean_cell_text text
        = Py.filter_chars EdgarFunctions.in_num text
        /\ EdgarFunctions.clean_cell_text ("$" ++ text)
           = EdgarFunctions.clean_cell_text text).
Proof.
  intros Hextract.
  split; [|split; [reflexivity|split; [reflexivity|split; [reflexivity|]]]].
  { rewrite !standardize_number_str.
    destruct (Py.In_list (Py.strip s) Scraper.missing_markers); [reflexivity|].
    destruct (Py.int (Py.filter_chars Scraper.keep_numeric s)) as [n|];
      [|reflexivity].
    simpl. destruct (Py.contains "$" s); [|reflexivity].
    now rewrite Z.mul_1_r. }
  split; [|split; [|split]].
  - intros table. split;
      [apply table_settings_millions|apply table_settings_one_or_thousand].
  - rewrite extract_spec in Hextract.
    destruct (to_datetime (EdgarFunctions.date_strings soup)) as [ds|];
      [|discriminate].
    destruct (Reference.first_row_fault (length ds)
                (Reference.labelled_rows (soup_tables soup))) eqn:Hfault;
      [discriminate|].
    injection Hextract as <- <- <-.
    intros k x Hk.
    assert (Hx : x ∈ Reference.labelled_rows (soup_tables soup))
      by (eapply list_elem_of_lookup_2; exact Hk).
    destruct (labelled_rows_origin _ _ Hx) as (table & Htable & Hsettings & Hrow).
    exists table, (Reference.row_values (length ds) x).
    split; [assumption|]. split; [assumption|]. split; [assumption|].
    split; [now rewrite list_lookup_fmap, Hk|].
    intros j cell v Hspecial Hj Htext Hv.
    rewrite <- Hsettings in *.
    destruct (row_values_stored _ _ x j cell Hfault Hx Hspecial Hj
                (float_populated cell v Htext Hv)) as (v' & Hv' & _ & Hstored).
    rewrite Hv in Hv'. injection Hv' as <-. exact Hstored.
  - intros unit_multiplier cell v Htext Hv.
    apply (process_one_cell unit_multiplier 0 cell [None] v);
      [simpl; lia|assumption..].
  - intros text. split; [apply clean_cell_text_filter|].
    rewrite !clean_cell_text_filter. reflexivity.
Qed.

(** the page in millions: the cell ["1,234"], without currency marker,
    is stored as 1234000 and the cell ["$ 2"] as 2000, where the
    normaliser leaves ["1,234"] unmultiplied *)
Lemma multiplier_applied_iff_currency_witness :
  EdgarFunctions.__extract_columns_values_and_dates_from_statement
    Dates.to_datetime Sample.millions_soup
  = Ok (["us-gaap_Assets"], [[Some 1234000%Q; Some 2000%Q]],
        [mkDate 2020 12 31; mkDate 2019 12 31])
  /\ Scraper.__standardize_number (Scraper.PStr "1,234") 1000
     = Ok (Some 1234%Z)
  /\ (EdgarFunctions.table_settings
        (mkTable (Some "CONSOLIDATED BALANCE SHEETS - USD ($) $ in Millions") [])).1
     = 1000%Z.
Proof.
  assert (H : EdgarFunctions.__extract_columns_values_and_dates_from_statement
                Dates.to_datetime Sample.millions_soup
              = Ok (["us-gaap_Assets"], [[Some 1234000%Q; Some 2000%Q]],
                    [mkDate 2020 12 31; mkDate 2019 12 31]))
    by (vm_compute; reflexivity).
  destruct (multiplier_applied_iff_currency "1,234" 1000 _ _ _ _ _ H)
    as (H1 & _ & _ & _ & Hheader & _).
  split; [exact H|]. split; [exact H1|].
  apply (Hheader (mkTable _ [])).
  exists "CONSOLIDATED BALANCE SHEETS - USD ($) $ in Millions".
  repeat split.
Defined.




(** ** Index errors *)

Section IndexErrors.

Import EdgarFunctions Reference.

Lemma first_row_fault_some n rows e :
  first_row_fault n rows = Some e ->
  exists x, x ∈ rows /\ row_fault n x = Some e.
Proof.
  induction rows as [|x rows IH]; simpl; [discriminate|].
  destruct (row_fault n x) as [e'|] eqn:Hx.
  - intros [= ->]. exists x. split; [left|assumption].
  - intros H. destruct (IH H) as (y & Hy & Hf).
    exists y. split; [now right|assumption].
Qed.

Lemma row_fault_index_error n x :
  row_fault n x = Some IndexError -> x.1.2 = false /\ writes_beyond n x.2.
Proof.
  unfold row_fault, writes_beyond.
  intros H.
  assert (Hf : first_fault x.1.2 n 0 (select_cells x.2) = Some IndexError).
  { destruct (row_onclick_elements x.2) as [|[a|] l]; [assumption..|discriminate]. }
  destruct (first_fault_index_error _ _ _ _ Hf) as [Hs (j & cell & Hj & Hp & Hn)].
  split; [assumption|]. exists j, cell. repeat split; [assumption..|lia].
Qed.

Lemma row_fault_well_formed n x e :
  labelled x.2 = true -> row_well_formed x.2 = true ->
  row_fault n x = Some e -> e = IndexError.
Proof.
  unfold labelled, row_well_formed, row_fault.
  destruct (row_onclick_elements x.2) as [|[a|] l]; try discriminate.
  intros _ Hwf. now apply first_fault_parses.
Qed.

Lemma row_fault_beyond n x :
  labelled x.2 = true -> row_well_formed x.2 = true -> x.1.2 = false ->
  writes_beyond n x.2 ->
  row_fault n x = Some IndexError.
Proof.
  unfold labelled, row_well_formed, row_fault, writes_beyond.
  destruct (row_onclick_elements x.2) as [|[a|] l]; try discriminate.
  intros _ Hwf -> (i & cell & Hi & Hp & Hn).
  apply (first_fault_beyond n _ 0 i cell); [assumption..|lia].
Qed.

Lemma labelled_rows_labelled tables x :
  x ∈ labelled_rows tables -> labelled x.2 = true.
Proof.
  unfold labelled_rows. intros Hx.
  apply list_elem_of_bind in Hx as (table & Hx & _).
  apply list_elem_of_fmap in Hx as (row & -> & Hrow).
  apply list_elem_of_In, filter_In in Hrow. tauto.
Qed.

Lemma first_row_fault_exists n rows :
  Forall (fun x => labelled x.2 = true) rows ->
  Forall (fun x => row_well_formed x.2 = true) rows ->
  Forall (fun x => x.1.2 = false) rows ->
  Exists (fun x => writes_beyond n x.2) rows ->
  first_row_fault n rows = Some IndexError.
Proof.
  intros Hl Hwf Hs Hex.
  induction Hex as [x rows Hx | x rows Hex IH]; simpl;
    inversion Hl; inversion Hwf; inversion Hs; subst.
  - rewrite row_fault_beyond; auto.
  - destruct (row_fault n x) as [e|] eqn:Hf.
    + f_equal. now apply (row_fault_well_formed n x).
    + now apply IH.
Qed.

End IndexErrors.

(** C10, as the specification states it, in its two readings of "value-bearing
    cell".  Read as a cell that holds a number: a row with one such
    cell and one date column raises the index error, because a text
    cell before it takes position 0.  Read as a selected cell: a row
    with two selected cells and one date column raises nothing,
    because the cell in second place is a text cell. *)
Lemma cell_count_does_not_decide_index_error :
  (let row_cells :=
     EdgarFunctions.select_cells
       (mkRow [] [mkCell ["text"] "note 3"; mkCell ["nump"] "5"]) in
   length (List.filter Reference.populated row_cells) <= 1
   /\ EdgarFunctions.__extract_columns_values_and_dates_from_statement
        Dates.to_datetime Sample.text_then_number_soup
      = Raise IndexError)
  /\ (let row_cells :=
        EdgarFunctions.select_cells
          (mkRow [] [mkCell ["nump"] "5"; mkCell ["text"] "note 3"]) in
      1 < length row_cells
      /\ EdgarFunctions.__extract_columns_values_and_dates_from_statement
           Dates.to_datetime Sample.number_then_text_soup
         = Ok (["us-gaap_Assets"], [[Some 5000%Q]], [mkDate 2020 12 31])).
Proof.
  split; split; try (vm_compute; reflexivity); vm_compute; lia.
Qed.

(** C10, as amended.  The position of a write is the position of the
    cell among the selected cells of its row, text cells and empty
    cells counted.  With the date axis parsed: if no labelled row has
    more selected cells than dates, no index error is raised; when
    every populated cell parses, every label has its attribute and no
    table is flagged special, the index error is raised exactly when
    some labelled row has a populated cell at or beyond the length of
    the date axis, and otherwise the extraction returns; whatever is
    raised, [get_one_statement] returns [None]. *)
Theorem index_error_iff_write_beyond_axis
    (to_datetime : list string -> result (list Date)) (soup : Soup)
    (dates : list Date) :
  to_datetime (EdgarFunctions.date_strings soup) = Ok dates ->
  let rows := Reference.labelled_rows (soup_tables soup) in
  let extracted :=
    EdgarFunctions.__extract_columns_values_and_dates_from_statement
      to_datetime soup in
  (Forall (fun x => length (EdgarFunctions.select_cells x.2) <= length dates)
          rows ->
   extracted <> Raise IndexError)
  /\ (Forall (fun x => Reference.row_well_formed x.2 = true) rows ->
      Forall (fun x => x.1.2 = false) rows ->
      (extracted = Raise IndexError
       <-> Exists (fun x => Reference.writes_beyond (length dates) x.2) rows)
      /\ (~ Exists (fun x => Reference.writes_beyond (length dates) x.2) rows ->
          exists columns values_set,
            extracted = Ok (columns, values_set, dates)))
  /\ (forall e, extracted = Raise e ->
        EdgarFunctions.get_one_statement to_datetime (Ok soup) = None).
Proof.
  intros Hdates rows extracted.
  assert (Hspec : extracted
            = match Reference.first_row_fault (length dates) rows with
              | Some e => Raise e
              | None =>
                  Ok (map (fun x => Reference.row_title x.2) rows,
                      map (Reference.row_values (length dates)) rows, dates)
              end).
  { unfold extracted. rewrite extract_spec, Hdates. reflexivity. }
  assert (Hbeyond : extracted = Raise IndexError ->
            Exists (fun x => Reference.writes_beyond (length dates) x.2) rows).
  { rewrite Hspec.
    destruct (Reference.first_row_fault (length dates) rows) as [e|] eqn:Hf;
      [|discriminate].
    intros [= ->].
    apply first_row_fault_some in Hf as (x & Hx & Hf).
    apply Exists_exists. exists x. split; [assumption|].
    now apply row_fault_index_error in Hf. }
  split; [|split].
  - intros Hmax Hraise. apply Hbeyond in Hraise.
    apply Exists_exists in Hraise as (x & Hx & (i & cell & Hi & _ & Hn)).
    rewrite Forall_forall in Hmax. specialize (Hmax x Hx).
    apply lookup_lt_Some in Hi. lia.
  - intros Hwf Hspecial.
    assert (Hlab : Forall (fun x => Reference.labelled x.2 = true) rows).
    { apply Forall_forall. intros x Hx.
      now apply (labelled_rows_labelled (soup_tables soup)). }
    split; [split; [exact Hbeyond|]|].
    + intros Hex. rewrite Hspec.
      now rewrite (first_row_fault_exists _ _ Hlab Hwf Hspecial Hex).
    + intros Hnone. rewrite Hspec.
      destruct (Reference.first_row_fault (length dates) rows) as [e|] eqn:Hf;
        [|eauto].
      exfalso. apply Hnone, Hbeyond. rewrite Hspec. f_equal.
      apply first_row_fault_some in Hf as (x & Hx & Hf).
      rewrite Forall_forall in Hlab, Hwf.
      apply (row_fault_well_formed (length dates) x);
        [now apply Hlab|now apply Hwf|exact Hf].
  - intros e He. unfold EdgarFunctions.get_one_statement,
      EdgarFunctions.process_statement.
    fold extracted. now rewrite He.
Qed.

(** the row of [text_then_number_soup] writes at position 1 of a list
    of length 1 *)
Lemma index_error_iff_write_beyond_axis_witness :
  EdgarFunctions.__extract_columns_values_and_dates_from_statement
    Dates.to_datetime Sample.text_then_number_soup = Raise IndexError
  /\ EdgarFunctions.get_one_statement Dates.to_datetime
       (Ok Sample.text_then_number_soup) = None.
Proof.
  destruct (index_error_iff_write_beyond_axis Dates.to_datetime
              Sample.text_then_number_soup [mkDate 2020 12 31] eq_refl)
    as (_ & Hiff & Hnone).
  assert (H : EdgarFunctions.__extract_columns_values_and_dates_from_statement
                Dates.to_datetime Sample.text_then_number_soup
              = Raise IndexError).
  { apply Hiff.
    - repeat constructor.
    - repeat constructor.
    - left. exists 1, (mkCell ["nump"] "5").
      repeat split. simpl. lia. }
  split; [exact H|]. exact (Hnone _ H).
Defined.

(** ** The frame and its transposition *)

Section Transposition.

Lemma zip_star_aux_length {A} fuel : forall rows : list (list A),
  Forall (fun r => length r = fuel) rows ->
  length (Pandas.zip_star_aux fuel rows) = fuel.
Proof.
  induction fuel as [|k IH]; intros rows Hrows; simpl; [reflexivity|].
  destruct (mapM head rows) as [hs|] eqn:Hhs.
  - simpl. f_equal. apply IH.
    apply Forall_fmap. eapply Forall_impl; [exact Hrows|].
    intros [|a r]; simpl; [discriminate|]. intros [= ->]. reflexivity.
  - exfalso. apply mapM_None_1 in Hhs.
    apply Exists_exists in Hhs as (r & Hr & Hnone).
    rewrite Forall_forall in Hrows. specialize (Hrows r Hr).
    destruct r; discriminate.
Qed.

Lemma zip_star_aux_row_length {A} fuel : forall rows : list (list A),
  Forall (fun z => length z = length rows) (Pandas.zip_star_aux fuel rows).
Proof.
  induction fuel as [|k IH]; intros rows; simpl; [constructor|].
  destruct (mapM head rows) as [hs|] eqn:Hhs; [|constructor].
  constructor.
  - apply length_mapM in Hhs. congruence.
  - specialize (IH (map tail rows)). now rewrite length_map in IH.
Qed.

(** reading column [j] of the zipped rows gives back row [j] *)
Lemma zip_star_aux_column fuel : forall (rows : list (list (option Q))) j r,
  Forall (fun r => length r = fuel) rows ->
  rows !! j = Some r ->
  map (fun z => default None (z !! j)) (Pandas.zip_star_aux fuel rows) = r.
Proof.
  induction fuel as [|k IH]; intros rows j r Hrows Hj; simpl.
  - rewrite Forall_forall in Hrows.
    specialize (Hrows r (list_elem_of_lookup_2 _ _ _ Hj)).
    now destruct r.
  - destruct (mapM head rows) as [hs|] eqn:Hhs.
    + simpl.
      assert (Hr : length r = S k).
      { rewrite Forall_forall in Hrows.
        exact (Hrows r (list_elem_of_lookup_2 _ _ _ Hj)). }
      destruct r as [|a r]; [discriminate|].
      f_equal.
      * apply mapM_Some_1 in Hhs.
        destruct (Forall2_lookup_l _ _ _ _ _ Hhs Hj) as (h & Hh & Hhead).
        rewrite Hh. simpl in Hhead. now injection Hhead as ->.
      * apply IH.
        -- apply Forall_fmap. eapply Forall_impl; [exact Hrows|].
           intros [|b t]; simpl; [discriminate|]. intros [= ->]. reflexivity.
        -- rewrite list_lookup_fmap, Hj. reflexivity.
    + exfalso. apply mapM_None_1 in Hhs.
      apply Exists_exists in Hhs as (t & Ht & Hnone).
      rewrite Forall_forall in Hrows. specialize (Hrows t Ht).
      destruct t; discriminate.
Qed.

Lemma snd_combine {A B} (l : list A) (k : list B) :
  length l = length k -> map snd (combine l k) = k.
Proof.
  revert k. induction l as [|a l IH]; intros [|b k]; simpl; try discriminate;
    [reflexivity|].
  intros [= H]. now rewrite IH.
Qed.

Lemma fst_combine {A B} (l : list A) (k : list B) :
  length l = length k -> map fst (combine l k) = l.
Proof.
  revert k. induction l as [|a l IH]; intros [|b k]; simpl; try discriminate;
    [reflexivity|].
  intros [= H]. now rewrite IH.
Qed.

Lemma imap_combine {A B} (f : nat -> B) (l : list A) (k : list B) :
  length l = length k ->
  (forall j b, k !! j = Some b -> f j = b) ->
  imap (fun j a => (a, f j)) l = combine l k.
Proof.
  revert f k. induction l as [|a l IH]; intros f [|b k]; simpl;
    try discriminate; [reflexivity|].
  intros [= Hlen] Hf. f_equal.
  - f_equal. now apply (Hf 0).
  - apply IH; [assumption|]. intros j c Hj. now apply (Hf (S j)).
Qed.

(** the frame of the zipped values, transposed, has the extracted
    rows under their labels *)
Lemma transposed_frame (values_set : list (list (option Q)))
    (columns : list string) (dates : list Date) :
  0 < length values_set -> 0 < length dates ->
  length columns = length values_set ->
  Forall (fun values => length values = length dates) values_set ->
  exists df,
    EdgarFunctions.__create_dataframe_of_statement_values_columns_dates
      values_set columns dates = Ok df
    /\ Pandas.empty df = false
    /\ Pandas.T df = mkDataFrame dates (combine columns values_set).
Proof.
  intros HN HM Hcols Hrect.
  unfold EdgarFunctions.__create_dataframe_of_statement_values_columns_dates.
  set (data := Pandas.zip_star values_set).
  assert (Hdata : data = Pandas.zip_star_aux (length dates) values_set).
  { unfold data, Pandas.zip_star.
    destruct values_set as [|r rest]; [simpl in HN; lia|].
    inversion Hrect as [|? ? Hr _]; subst. now rewrite Hr. }
  assert (Hlen : length data = length dates).
  { rewrite Hdata. now apply zip_star_aux_length. }
  assert (Hrow : Forall (fun z => length z = length columns) data).
  { rewrite Hdata, Hcols. apply zip_star_aux_row_length. }
  exists (mkDataFrame columns (combine dates data)).
  split; [|split].
  - unfold Pandas.new.
    destruct data as [|z data']; [simpl in Hlen; lia|].
    assert (Hall : forallb (fun r => (length r =? length columns)%nat)
                     (z :: data') = true).
    { apply forallb_forall. intros y Hy.
      apply Nat.eqb_eq. rewrite Forall_forall in Hrow.
      apply Hrow. now apply list_elem_of_In. }
    rewrite Hlen, Nat.eqb_refl, Hall. reflexivity.
  - unfold Pandas.empty. simpl. rewrite length_combine, Hlen, Nat.min_id.
    destruct (length dates); [lia|]. destruct (length columns); [lia|].
    reflexivity.
  - unfold Pandas.T, Pandas.index. simpl.
    rewrite fst_combine by (symmetry; exact Hlen). f_equal.
    apply imap_combine; [assumption|].
    intros j r Hj.
    rewrite <- (zip_star_aux_column (length dates) values_set j r Hrect Hj).
    rewrite <- Hdata.
    rewrite <- (snd_combine dates data) at 2 by (symmetry; exact Hlen).
    now rewrite map_map.
Qed.

End Transposition.

(** ** Dropping duplicate rows *)

Section Duplicates.

Context {I : Type}.

Lemma value_eqb_refl a : Pandas.value_eqb a a = true.
Proof. destruct a as [x|]; [|reflexivity]. apply Qeq_bool_iff. reflexivity. Qed.

Lemma value_eqb_trans a b c :
  Pandas.value_eqb a b = true -> Pandas.value_eqb b c = true ->
  Pandas.value_eqb a c = true.
Proof.
  destruct a as [x|], b as [y|], c as [z|]; simpl; try discriminate;
    [|reflexivity].
  rewrite !Qeq_bool_iff. intros Hxy Hyz. now rewrite Hxy.
Qed.

Lemma row_eqb_refl r : Pandas.row_eqb r r = true.
Proof.
  induction r as [|a r IH]; [reflexivity|].
  simpl. now rewrite value_eqb_refl.
Qed.

Lemma row_eqb_trans r1 : forall r2 r3,
  Pandas.row_eqb r1 r2 = true -> Pandas.row_eqb r2 r3 = true ->
  Pandas.row_eqb r1 r3 = true.
Proof.
  induction r1 as [|a r1 IH]; intros [|b r2] [|c r3]; simpl;
    try discriminate; [reflexivity|].
  intros [Hab H12]%andb_prop [Hbc H23]%andb_prop.
  rewrite (value_eqb_trans a b c Hab Hbc). now rewrite (IH r2 r3).
Qed.

Lemma drop_seen_sublist (rows : list (I * list (option Q))) : forall seen,
  sublist (Pandas.drop_seen seen rows) rows.
Proof.
  induction rows as [|[i r] rest IH]; intros seen; simpl; [constructor|].
  destruct (existsb (Pandas.row_eqb r) seen).
  - apply sublist_cons. apply IH.
  - apply sublist_skip. apply IH.
Qed.

(** a kept row equals no row met before it *)
Lemma drop_seen_fresh (rows : list (I * list (option Q))) : forall seen x u,
  x ∈ Pandas.drop_seen seen rows -> u ∈ seen ->
  Pandas.row_eqb x.2 u = false.
Proof.
  induction rows as [|[i r] rest IH]; intros seen x u; simpl.
  { intros H. inversion H. }
  destruct (existsb (Pandas.row_eqb r) seen) eqn:Hex.
  - intros Hx Hu. apply (IH (r :: seen)); [assumption|now right].
  - intros Hx Hu. apply elem_of_cons in Hx as [-> | Hx].
    + simpl. destruct (Pandas.row_eqb r u) eqn:E; [|reflexivity].
      rewrite <- Hex. symmetry. apply existsb_exists. exists u.
      split; [now apply list_elem_of_In|assumption].
    + apply (IH (r :: seen)); [assumption|now right].
Qed.

(** two kept rows have different values *)
Lemma drop_seen_distinct (rows : list (I * list (option Q))) :
  forall seen j k x y,
  j < k ->
  Pandas.drop_seen seen rows !! j = Some x ->
  Pandas.drop_seen seen rows !! k = Some y ->
  Pandas.row_eqb y.2 x.2 = false.
Proof.
  induction rows as [|[i r] rest IH]; intros seen j k x y Hjk; simpl.
  { discriminate. }
  destruct (existsb (Pandas.row_eqb r) seen).
  - apply IH. assumption.
  - destruct k as [|k]; [lia|]. destruct j as [|j]; simpl.
    + intros [= <-] Hy. simpl.
      apply (drop_seen_fresh rest (r :: seen) y r);
        [now apply list_elem_of_lookup_2 in Hy|now left].
    + apply IH. lia.
Qed.

(** a row that equals no row before it is kept, under its label *)
Lemma drop_seen_first (rows : list (I * list (option Q))) : forall seen k x,
  rows !! k = Some x ->
  (forall u, u ∈ seen -> Pandas.row_eqb x.2 u = false) ->
  (forall k' y, k' < k -> rows !! k' = Some y ->
                Pandas.row_eqb x.2 y.2 = false) ->
  x ∈ Pandas.drop_seen seen rows.
Proof.
  induction rows as [|[i r] rest IH]; intros seen k x; simpl; [discriminate|].
  destruct k as [|k]; simpl.
  - intros [= <-] Hseen _. simpl in Hseen.
    destruct (existsb (Pandas.row_eqb r) seen) eqn:Hex; [|now left].
    apply existsb_exists in Hex as (u & Hu & E).
    rewrite Hseen in E; [discriminate|now apply list_elem_of_In].
  - intros Hk Hseen Hbefore.
    assert (Hin : x ∈ Pandas.drop_seen (r :: seen) rest).
    { apply (IH (r :: seen) k x Hk).
      - intros u [-> | Hu]%elem_of_cons; [|now apply Hseen].
        apply (Hbefore 0 (i, r)); [lia|reflexivity].
      - intros k' y Hlt Hy. apply (Hbefore (S k') y); [lia|exact Hy]. }
    destruct (existsb (Pandas.row_eqb r) seen); [assumption|now right].
Qed.

(** the values of every row are in the result, or were met before *)
Lemma drop_seen_covers (rows : list (I * list (option Q))) : forall seen x,
  x ∈ rows ->
  (exists u, u ∈ seen /\ Pandas.row_eqb x.2 u = true)
  \/ (exists y, y ∈ Pandas.drop_seen seen rows
                /\ Pandas.row_eqb x.2 y.2 = true).
Proof.
  induction rows as [|[i r] rest IH]; intros seen x Hx; simpl.
  { inversion Hx. }
  destruct (existsb (Pandas.row_eqb r) seen) eqn:Hex.
  - apply existsb_exists in Hex as (u & Hu & E).
    apply list_elem_of_In in Hu.
    apply elem_of_cons in Hx as [-> | Hx].
    + left. exists u. split; assumption.
    + destruct (IH (r :: seen) x Hx) as [(w & Hw & Ew) | (y & Hy & Ey)].
      * left. apply elem_of_cons in Hw as [-> | Hw].
        -- exists u. split; [assumption|].
           now apply (row_eqb_trans x.2 r u).
        -- exists w. split; assumption.
      * right. exists y. split; assumption.
  - apply elem_of_cons in Hx as [-> | Hx].
    + right. exists (i, r). split; [now left|apply row_eqb_refl].
    + destruct (IH (r :: seen) x Hx) as [(w & Hw & Ew) | (y & Hy & Ey)].
      * apply elem_of_cons in Hw as [-> | Hw].
        -- right. exists (i, r). split; [now left|assumption].
        -- left. exists w. split; assumption.
      * right. exists y. split; [now right|assumption].
Qed.

End Duplicates.

(** C3, as the specification states it.  Rows are not de-duplicated by label:
    two rows with the label ["A"] and different values are both
    kept, where the de-duplication by label keeps one; and the row
    ["B"], whose label is new, is dropped because its values equal
    those of the row ["A"]. *)
Lemma rows_are_not_deduplicated_by_label :
  let d := mkDate 2020 12 31 in
  (EdgarFunctions.assemble [[Some 1%Q]; [Some 2%Q]] ["A"; "A"] [d]
   = Ok (Some (mkDataFrame [d] [("A", [Some 1%Q]); ("A", [Some 2%Q])]))
   /\ Reference.dedup_by_label []
        (combine ["A"; "A"] [[Some 1%Q]; [Some 2%Q]])
      = [("A", [Some 1%Q])])
  /\ (EdgarFunctions.assemble [[Some 1%Q]; [Some 1%Q]] ["A"; "B"] [d]
      = Ok (Some (mkDataFrame [d] [("A", [Some 1%Q])]))
      /\ Reference.dedup_by_label []
           (combine ["A"; "B"] [[Some 1%Q]; [Some 1%Q]])
         = [("A", [Some 1%Q]); ("B", [Some 1%Q])]).
Proof. repeat split; vm_compute; reflexivity. Qed.

(** C3, as amended.  From N >= 1 extracted rows over M >= 1 dates the
    assembly returns a frame with the M dates as columns and at most N
    rows of M values, which are rows of the input in their order and
    under their labels.  Rows are de-duplicated by their values (NaN
    equal to NaN), whatever their labels: a row is kept when no
    earlier row has the same values, two kept rows never have the
    same values, and the values of every input row are those of a
    kept row. *)
Theorem assemble_drops_rows_of_equal_values
    (values_set : list (list (option Q))) (columns : list string)
    (dates : list Date) :
  0 < length values_set -> 0 < length dates ->
  length columns = length values_set ->
  Forall (fun values => length values = length dates) values_set ->
  let rows := combine columns values_set in
  exists df,
    EdgarFunctions.assemble values_set columns dates = Ok (Some df)
    /\ df_columns df = dates
    /\ length (df_rows df) <= length values_set
    /\ Forall (fun x => length x.2 = length dates) (df_rows df)
    /\ sublist (df_rows df) rows
    /\ (forall k x, rows !! k = Some x ->
          (forall k' y, k' < k -> rows !! k' = Some y ->
                        Pandas.row_eqb x.2 y.2 = false) ->
          x ∈ df_rows df)
    /\ (forall j k x y, j < k ->
          df_rows df !! j = Some x -> df_rows df !! k = Some y ->
          Pandas.row_eqb y.2 x.2 = false)
    /\ (forall x, x ∈ rows ->
          exists y, y ∈ df_rows df /\ Pandas.row_eqb x.2 y.2 = true).
Proof.
  intros HN HM Hcols Hrect rows.
  destruct (transposed_frame values_set columns dates HN HM Hcols Hrect)
    as (df & Hdf & Hempty & HT).
  assert (Hrows : length rows = length values_set).
  { unfold rows. rewrite length_combine, Hcols. apply Nat.min_id. }
  exists (mkDataFrame dates (Pandas.drop_seen [] rows)).
  assert (Hsub := drop_seen_sublist rows []).
  split; [|split; [reflexivity|]].
  { unfold EdgarFunctions.assemble. rewrite Hdf. simpl. rewrite Hempty.
    simpl. rewrite HT. unfold Pandas.drop_duplicates, Pandas.empty. simpl.
    fold rows. rewrite Hrows.
    destruct (length values_set); [lia|]. destruct (length dates); [lia|].
    reflexivity. }
  cbn [df_rows].
  split; [|split; [|split; [exact Hsub|]]].
  - rewrite <- Hrows. now apply sublist_length.
  - apply Forall_forall. intros [c v] Hx.
    apply (elem_of_sublist _ _ _ Hx) in Hsub.
    apply list_elem_of_In, in_combine_r, list_elem_of_In in Hsub.
    rewrite Forall_forall in Hrect. now apply Hrect.
  - split; [|split].
    + intros k x Hk Hbefore.
      apply (drop_seen_first rows [] k x Hk); [|exact Hbefore].
      intros u Hu. inversion Hu.
    + intros j k x y. apply drop_seen_distinct.
    + intros x Hx.
      destruct (drop_seen_covers rows [] x Hx) as [(u & Hu & _) | H];
        [inversion Hu|exact H].
Qed.

Lemma assemble_drops_rows_of_equal_values_witness :
  exists df,
    EdgarFunctions.assemble
      [[Some 1%Q; None]; [Some 1%Q; None]; [Some 2%Q; Some 3%Q]]
      ["A"; "B"; "C"] [mkDate 2020 12 31; mkDate 2019 12 31]
    = Ok (Some df)
    /\ df_columns df = [mkDate 2020 12 31; mkDate 2019 12 31]
    /\ length (df_rows df) <= 3.
Proof.
  destruct (assemble_drops_rows_of_equal_values
              [[Some 1%Q; None]; [Some 1%Q; None]; [Some 2%Q; Some 3%Q]]
              ["A"; "B"; "C"] [mkDate 2020 12 31; mkDate 2019 12 31])
    as (df & H1 & H2 & H3 & _).
  - simpl. lia.
  - simpl. lia.
  - reflexivity.
  - repeat constructor.
  - exists df. split; [exact H1|]. split; [exact H2|exact H3].
Defined.

(** ** Replacement of substrings *)

Section Replace.

Lemma append_cons a (s t : string) : String a s ++ t = String a (s ++ t).
Proof. reflexivity. Qed.

Lemma length_append s t :
  String.length (s ++ t) = String.length s + String.length t.
Proof.
  induction s as [|a s IH]; [reflexivity|].
  rewrite append_cons. simpl. now rewrite IH.
Qed.

Lemma app_assoc_string (s t u : string) : (s ++ t) ++ u = s ++ (t ++ u).
Proof.
  induction s as [|a s IH]; [reflexivity|].
  rewrite !append_cons. now rewrite IH.
Qed.

Lemma has_prefix_app p : forall s,
  Py.has_prefix p s = true <-> exists t, s = p ++ t.
Proof.
  induction p as [|a p IH]; intros s; simpl.
  - split; [intros _; now exists s|reflexivity].
  - destruct s as [|b s].
    + split; [discriminate|]. intros [t Ht]. discriminate.
    + split.
      * intros [Hab Hp]%andb_prop. apply Ascii.eqb_eq in Hab as ->.
        apply IH in Hp as [t ->]. now exists t.
      * intros [t [= -> ->]]. rewrite Ascii.eqb_refl. simpl.
        apply IH. now exists t.
Qed.

Lemma contains_app sub : forall s,
  Py.contains sub s = true <-> exists pre post, s = pre ++ sub ++ post.
Proof.
  induction s as [|a s IH]; simpl.
  - rewrite orb_false_r, has_prefix_app. split.
    + intros [t Ht]. now exists "", t.
    + intros (pre & post & H). destruct pre; simpl in H.
      * now exists post.
      * discriminate.
  - rewrite orb_true_iff, IH, has_prefix_app. split.
    + intros [[t Ht] | (pre & post & ->)].
      * now exists "", t.
      * now exists (String a pre), post.
    + intros (pre & post & H). destruct pre as [|b pre]; simpl in H.
      * left. now exists post.
      * right. injection H as -> ->. now exists pre, post.
Qed.

Lemma contains_trans a b c :
  Py.contains a b = true -> Py.contains b c = true -> Py.contains a c = true.
Proof.
  rewrite !contains_app. intros (p1 & q1 & ->) (p2 & q2 & ->).
  exists (p2 ++ p1), (q1 ++ q2). now rewrite !app_assoc_string.
Qed.

Lemma contains_empty_string old :
  old <> "" -> Py.contains old "" = false.
Proof. destruct old; [congruence|reflexivity]. Qed.

Lemma drop_empty n : Py.drop n "" = "".
Proof. now destruct n. Qed.

Variables old new : string.
Hypothesis old_not_empty : old <> "".

Lemma length_old_pos : 0 < String.length old.
Proof. destruct old; [congruence|simpl; lia]. Qed.

(** no occurrence, no change *)
Lemma replace_from_absent s :
  Py.contains old s = false -> Py.replace_from old new 0 s = s.
Proof.
  induction s as [|a s IH]; [reflexivity|].
  simpl. intros [Hp Hc]%orb_false_elim.
  simpl in Hp. rewrite Hp. now rewrite IH.
Qed.

(** the result is not shorter when the new string is not *)
Lemma replace_from_length s : forall n,
  String.length old <= String.length new ->
  String.length s <= String.length (Py.replace_from old new n s) + n.
Proof.
  intros n Hlen. revert n.
  induction s as [|a s IH]; intros n; simpl; [lia|].
  destruct n as [|n].
  - destruct (Py.has_prefix old (String a s)).
    + rewrite length_append.
      specialize (IH (String.length old - 1)).
      pose proof length_old_pos. lia.
    + simpl. specialize (IH 0). lia.
  - specialize (IH n). lia.
Qed.

(** and it is longer when the new string is longer and the old one
    occurs *)
Lemma replace_from_longer s : forall n,
  String.length old < String.length new ->
  Py.contains old (Py.drop n s) = true ->
  String.length s < String.length (Py.replace_from old new n s) + n.
Proof.
  intros n Hlen. revert n.
  induction s as [|a s IH]; intros n.
  - rewrite drop_empty, contains_empty_string by assumption. discriminate.
  - destruct n as [|n]; simpl.
    + destruct (Py.has_prefix old (String a s)) eqn:Hp; simpl.
      * intros _. rewrite length_append.
        pose proof (replace_from_length s (String.length old - 1)).
        pose proof length_old_pos. lia.
      * intros Hc. specialize (IH 0 Hc). lia.
    + intros Hc. specialize (IH n Hc). lia.
Qed.

(** where the old string occurs, the new string stands afterwards *)
Lemma replace_from_contains s : forall n,
  Py.contains old (Py.drop n s) = true ->
  Py.contains new (Py.replace_from old new n s) = true.
Proof.
  induction s as [|a s IH]; intros n.
  - rewrite drop_empty, contains_empty_string by assumption. discriminate.
  - destruct n as [|n]; simpl.
    + destruct (Py.has_prefix old (String a s)) eqn:Hp; simpl.
      * intros _. apply contains_app. now exists "", (Py.replace_from old new (String.length old - 1) s).
      * intros Hc. rewrite (IH 0 Hc). apply orb_true_r.
    + apply IH.
Qed.

End Replace.

Lemma drop_append p t : Py.drop (String.length p) (p ++ t) = t.
Proof.
  induction p as [|a p IH]; [now destruct t|].
  rewrite append_cons. simpl. exact IH.
Qed.

(** replacing a string by itself changes nothing *)
Lemma replace_from_same old s : forall n,
  old <> "" -> Py.replace_from old old n s = Py.drop n s.
Proof.
  intros n Hold. revert n.
  induction s as [|a s IH]; intros n; [now destruct n|].
  destruct n as [|n]; simpl; [|apply IH].
  destruct (Py.has_prefix old (String a s)) eqn:Hp.
  - rewrite IH. apply has_prefix_app in Hp as [t Ht].
    destruct old as [|b old']; [congruence|].
    rewrite append_cons in Ht. injection Ht as -> ->.
    rewrite append_cons. f_equal.
    simpl. rewrite Nat.sub_0_r. now rewrite drop_append.
  - rewrite IH. reflexivity.
Qed.

(** ** The month replacements *)

Section Replacements.

Import Reference.

Lemma replace_nonempty a f s :
  a <> "" -> Py.replace a f s = Py.replace_from a f 0 s.
Proof. unfold Py.replace. destruct a; [congruence|reflexivity]. Qed.

Lemma replace_absent p s :
  good_pair p -> Py.contains p.1 s = false -> Py.replace p.1 p.2 s = s.
Proof.
  intros [Hne _] Hc. rewrite replace_nonempty by assumption.
  now apply replace_from_absent.
Qed.

Lemma replace_same p s :
  good_pair p -> p.1 = p.2 -> Py.replace p.1 p.2 s = s.
Proof.
  intros [Hne _] <-. rewrite replace_nonempty by assumption.
  now rewrite replace_from_same.
Qed.

Lemma replace_not_shorter p s :
  good_pair p -> String.length s <= String.length (Py.replace p.1 p.2 s).
Proof.
  intros Hp. pose proof Hp as [Hne [Heq | [Hlt _]]].
  - now rewrite replace_same.
  - rewrite replace_nonempty by assumption.
    pose proof (replace_from_length p.1 p.2 Hne s 0). lia.
Qed.

Lemma replace_longer p s :
  good_pair p -> p.1 <> p.2 -> Py.contains p.1 s = true ->
  String.length s < String.length (Py.replace p.1 p.2 s).
Proof.
  intros [Hne [Heq | [Hlt _]]] Hdiff Hc; [contradiction|].
  rewrite replace_nonempty by assumption.
  pose proof (replace_from_longer p.1 p.2 Hne s 0 Hlt Hc). lia.
Qed.

Lemma string_eq_dec_pair (p : string * string) : {p.1 = p.2} + {p.1 <> p.2}.
Proof. apply string_dec. Qed.

(** a step either changes nothing or makes the string longer *)
Lemma replace_step p s :
  good_pair p ->
  (Py.replace p.1 p.2 s = s /\ ~ (p.1 <> p.2 /\ Py.contains p.1 s = true))
  \/ (p.1 <> p.2 /\ Py.contains p.1 s = true
      /\ String.length s < String.length (Py.replace p.1 p.2 s)).
Proof.
  intros Hp.
  destruct (string_eq_dec_pair p) as [Heq|Hne].
  - left. split; [now apply replace_same|]. intros [H _]. contradiction.
  - destruct (Py.contains p.1 s) eqn:Hc.
    + right. split; [assumption|]. split; [reflexivity|].
      now apply replace_longer.
    + left. split; [now apply replace_absent|]. intros [_ H]. discriminate.
Qed.

Lemma replace_all_not_shorter pairs : forall s,
  Forall good_pair pairs ->
  String.length s <= String.length (replace_all pairs s).
Proof.
  induction pairs as [|[a f] pairs IH]; intros s Hgood; [simpl; lia|].
  inversion Hgood as [|? ? Hp Hrest]; subst.
  pose proof (replace_not_shorter (a, f) s Hp) as H1.
  specialize (IH (Py.replace a f s) Hrest).
  change (replace_all ((a, f) :: pairs) s)
    with (replace_all pairs (Py.replace a f s)).
  simpl in H1. lia.
Qed.

Lemma replace_all_unchanged pairs : forall s,
  Forall good_pair pairs -> ~ occurs pairs s -> replace_all pairs s = s.
Proof.
  induction pairs as [|[a f] pairs IH]; intros s Hgood Hno; [reflexivity|].
  inversion Hgood as [|? ? Hp Hrest]; subst.
  change (replace_all ((a, f) :: pairs) s)
    with (replace_all pairs (Py.replace a f s)).
  destruct (replace_step (a, f) s Hp) as [[Hid _] | (Hne & Hc & _)].
  - simpl in Hid. rewrite Hid. apply IH; [assumption|].
    intros H. apply Hno. now right.
  - exfalso. apply Hno. left. split; assumption.
Qed.

Lemma replace_all_longer pairs : forall s,
  Forall good_pair pairs -> occurs pairs s ->
  String.length s < String.length (replace_all pairs s).
Proof.
  induction pairs as [|[a f] pairs IH]; intros s Hgood Hocc.
  { inversion Hocc. }
  inversion Hgood as [|? ? Hp Hrest]; subst.
  change (replace_all ((a, f) :: pairs) s)
    with (replace_all pairs (Py.replace a f s)).
  destruct (replace_step (a, f) s Hp) as [[Hid Hnot] | (Hne & Hc & Hlt)].
  - simpl in Hid. rewrite Hid. apply IH; [assumption|].
    inversion Hocc as [? ? Hhead | ? ? Htail]; subst;
      [contradiction|assumption].
  - pose proof (replace_all_not_shorter pairs (Py.replace a f s) Hrest).
    simpl in *. lia.
Qed.

(** a step of the table keeps an abbreviation of the table in the
    string *)
Lemma replace_keeps_occurrence pairs p s :
  p ∈ pairs -> good_pair p -> occurs pairs s ->
  occurs pairs (Py.replace p.1 p.2 s).
Proof.
  intros Hin Hp Hocc.
  destruct (replace_step p s Hp) as [[Hid _] | (Hne & Hc & _)].
  - now rewrite Hid.
  - apply Exists_exists. exists p. split; [assumption|].
    split; [assumption|].
    destruct Hp as [Hnon [Heq | [_ Hsub]]]; [contradiction|].
    apply (contains_trans _ p.2); [assumption|].
    rewrite replace_nonempty by assumption.
    now apply replace_from_contains.
Qed.

Lemma replace_all_keeps_occurrence pairs steps : forall s,
  Forall good_pair steps -> Forall (fun p => p ∈ pairs) steps ->
  occurs pairs s -> occurs pairs (replace_all steps s).
Proof.
  induction steps as [|[a f] steps IH]; intros s Hgood Hin Hocc;
    [assumption|].
  change (replace_all ((a, f) :: steps) s)
    with (replace_all steps (Py.replace a f s)).
  inversion Hgood; inversion Hin; subst.
  apply IH; [assumption..|].
  now apply (replace_keeps_occurrence pairs (a, f)).
Qed.

Lemma month_pairs_good : Forall good_pair month_pairs.
Proof.
  unfold month_pairs, month_abbr, month_name. simpl combine.
  repeat (apply Forall_cons_2;
          [split;
           [discriminate
           |first [left; reflexivity
                  |right; split; [vm_compute; lia|reflexivity]]]|]).
  apply Forall_nil_2.
Qed.

Lemma standardize_date_replace_all s :
  EdgarFunctions.__standardize_date s = replace_all month_pairs s.
Proof. reflexivity. Qed.

(** the replacement leaves a string as it is exactly when no
    abbreviation other than "May" is in it, and applying it again
    changes the result exactly when it changed the string *)
Lemma standardize_date_fixed s :
  EdgarFunctions.__standardize_date s = s <-> ~ occurs month_pairs s.
Proof.
  rewrite standardize_date_replace_all. split.
  - intros Heq Hocc.
    pose proof (replace_all_longer month_pairs s month_pairs_good Hocc) as H.
    rewrite Heq in H. lia.
  - apply replace_all_unchanged, month_pairs_good.
Qed.

Lemma standardize_date_twice s :
  EdgarFunctions.__standardize_date (EdgarFunctions.__standardize_date s)
  = EdgarFunctions.__standardize_date s
  <-> ~ occurs month_pairs s.
Proof.
  split.
  - intros Heq Hocc. apply standardize_date_fixed in Heq. apply Heq.
    rewrite standardize_date_replace_all.
    apply replace_all_keeps_occurrence;
      [apply month_pairs_good| |assumption].
    apply Forall_forall. auto.
  - intros Hno. apply standardize_date_fixed in Hno. now rewrite !Hno.
Qed.

End Replacements.

(** C8, as the specification states it: a second replacement changes
    ["January. 31, 2020"] again, since "Jan" is in "January". *)
Lemma month_replacement_not_idempotent :
  EdgarFunctions.__standardize_date "Jan. 31, 2020" = "January. 31, 2020"
  /\ EdgarFunctions.__standardize_date
       (EdgarFunctions.__standardize_date "Jan. 31, 2020")
     = "Januaryuary. 31, 2020"
  /\ ~ (forall s,
          EdgarFunctions.__standardize_date
            (EdgarFunctions.__standardize_date s)
          = EdgarFunctions.__standardize_date s).
Proof.
  split; [reflexivity|]. split; [reflexivity|].
  intros H. specialize (H "Jan. 31, 2020"). vm_compute in H. discriminate.
Qed.

(** C8, as amended.  The header "Jan. 31, 2020" becomes the date
    2020-01-31.  The replacement of the English abbreviations is
    idempotent at a string exactly when the string holds none of the
    abbreviations other than "May", and then it leaves the string as
    it is; where it replaces something, a second application changes
    the result again. *)
Theorem month_replacement_idempotent_iff :
  Dates.to_datetime
    [Py.replace "." "" (EdgarFunctions.__standardize_date "Jan. 31, 2020")]
  = Ok [mkDate 2020 1 31]
  /\ (forall s,
        EdgarFunctions.__standardize_date
          (EdgarFunctions.__standardize_date s)
        = EdgarFunctions.__standardize_date s
        <-> ~ Reference.occurs Reference.month_pairs s)
  /\ (forall s,
        EdgarFunctions.__standardize_date s = s
        <-> ~ Reference.occurs Reference.month_pairs s)
  /\ (forall s, Scraper.__standardize_date s
                = EdgarFunctions.__standardize_date s).
Proof.
  split; [vm_compute; reflexivity|].
  split; [exact standardize_date_twice|].
  split; [exact standardize_date_fixed|reflexivity].
Qed.

(** * Further properties *)

(** ** Requests and retries *)

Section MakeGetRequest.

Context {J : Type}.
Variable server : nat -> Utils.response J.

Lemma attempt_sent budget : forall sent resp_json,
  sent <= (Utils.attempt server budget sent resp_json).2
  /\ (Utils.attempt server budget sent resp_json).2 <= sent + budget.
Proof.
  induction budget as [|budget IH]; intros sent resp_json; simpl; [lia|].
  destruct (server sent) as [|json text|]; simpl.
  - specialize (IH (S sent) true).
    destruct (Utils.attempt server budget (S sent) true) as [[v|] n];
      simpl in *; lia.
  - destruct (if resp_json then Utils.Json <$> json else Utils.Text <$> text);
      simpl; lia.
  - lia.
Qed.

Lemma attempt_body budget sent resp_json b n :
  Utils.attempt server budget sent resp_json = (Utils.Returned (Some b), n)
  <-> 0 < budget /\ n = S sent
      /\ exists json text,
           server sent = Utils.Reply json text
           /\ (if resp_json then Utils.Json <$> json else Utils.Text <$> text)
              = Some b.
Proof.
  destruct budget as [|budget]; simpl.
  { split; [discriminate|]. intros [H _]. lia. }
  destruct (server sent) as [|json text|] eqn:Hs.
  - destruct (Utils.attempt server budget (S sent) true) as [[v|] n'].
    + split; [discriminate|]. intros (_ & _ & j & t & [=] & _).
    + split; [discriminate|]. intros (_ & _ & j & t & [=] & _).
  - destruct (if resp_json then Utils.Json <$> json else Utils.Text <$> text)
      as [b'|] eqn:Hb.
    + split.
      * intros [= -> <-]. split; [lia|]. split; [reflexivity|].
        exists json, text. split; [reflexivity|assumption].
      * intros (_ & -> & j & t & [= <- <-] & Hb'). rewrite Hb in Hb'.
        now injection Hb' as ->.
    + split; [discriminate|].
      intros (_ & _ & j & t & [= <- <-] & Hb'). congruence.
  - split; [discriminate|]. intros (_ & _ & j & t & [=] & _).
Qed.

Lemma attempt_exhausted budget : forall sent resp_json,
  (forall k, sent <= k < sent + budget -> server k = Utils.TooManyRequests) ->
  Utils.attempt server budget sent resp_json
  = (Utils.GetRequestException, sent + budget).
Proof.
  induction budget as [|budget IH]; intros sent resp_json Hall; simpl.
  - now rewrite Nat.add_0_r.
  - rewrite (Hall sent) by lia. rewrite IH.
    + now rewrite Nat.add_succ_r.
    + intros k Hk. apply Hall. lia.
Qed.

End MakeGetRequest.

(** X1.  A call of [make_get_request] sends at most [3 - retry_count]
    requests, so never more than three, and none once [retry_count] has
    reached 3, where it raises. *)
Theorem make_get_request_bounded {J : Type}
    (server : nat -> Utils.response J) (sent retry_count : nat)
    (resp_json : bool) :
  let r := Utils.make_get_request server sent retry_count resp_json in
  sent <= r.2
  /\ r.2 - sent <= 3 - retry_count
  /\ r.2 - sent <= 3
  /\ (3 <= retry_count -> r = (Utils.GetRequestException, sent)).
Proof.
  intros r. unfold r, Utils.make_get_request.
  destruct (attempt_sent server (3 - retry_count) sent resp_json) as [H1 H2].
  repeat split; try lia.
  intros H. replace (3 - retry_count) with 0 by lia. reflexivity.
Qed.

(** X2.  [make_get_request] returns a body exactly when its first
    request is answered by something other than 429 and the body can be
    read; once a request has been answered by 429 no body is ever
    returned. *)
Theorem make_get_request_body_iff {J : Type}
    (server : nat -> Utils.response J) (sent retry_count : nat)
    (resp_json : bool) (b : Utils.body J) (n : nat) :
  Utils.make_get_request server sent retry_count resp_json
  = (Utils.Returned (Some b), n)
  <-> retry_count < 3 /\ n = S sent
      /\ exists json text,
           server sent = Utils.Reply json text
           /\ (if resp_json then Utils.Json <$> json else Utils.Text <$> text)
              = Some b.
Proof.
  unfold Utils.make_get_request. rewrite attempt_body.
  split; intros (H & Hrest); (split; [lia|exact Hrest]).
Qed.

(** X3.  When the first request is answered by 429 and the retry by a
    response whose JSON can be read, the function has sent two
    requests and returns [None]: the result of the retry is not
    returned. *)
Theorem make_get_request_retry_is_lost {J : Type}
    (server : nat -> Utils.response J) (sent retry_count : nat)
    (resp_json : bool) (j : J) (text : option string) :
  retry_count < 2 ->
  server sent = Utils.TooManyRequests ->
  server (S sent) = Utils.Reply (Some j) text ->
  Utils.make_get_request server sent retry_count resp_json
  = (Utils.Returned None, S (S sent)).
Proof.
  intros Hr H1 H2. unfold Utils.make_get_request.
  destruct (3 - retry_count) as [|[|budget]] eqn:Hb; [lia..|].
  simpl. rewrite H1, H2. reflexivity.
Qed.

Lemma make_get_request_retry_is_lost_witness :
  Utils.make_get_request
    (fun k => match k with
              | O => Utils.TooManyRequests
              | _ => Utils.Reply (Some 7%Z) (Some "7")
              end) 0 0 true
  = (Utils.Returned None, 2).
Proof.
  apply (make_get_request_retry_is_lost _ 0 0 true 7%Z (Some "7")).
  - lia.
  - reflexivity.
  - reflexivity.
Defined.

(** ** Printing and reading integers *)

Section Decimal.

Import ReferenceRest.

Lemma digit_char_digit d :
  (d < 10)%N ->
  Py.is_digit (PyExt.digit_char d) = true
  /\ Py.digit_val (PyExt.digit_char d) = Z.of_N d.
Proof.
  intros Hd. rewrite <- (N2Nat.id d).
  assert (Hn : N.to_nat d < 10) by lia. clear Hd.
  destruct (N.to_nat d) as [|[|[|[|[|[|[|[|[|[|m]]]]]]]]]];
    try (split; reflexivity). lia.
Qed.

(** the digits of [n] read back: the accumulator is shifted by the
    number [k] of digits, which is the least possible *)
Lemma str_N_aux_spec fuel : forall n acc,
  (n < 2 ^ N.of_nat fuel)%N -> 0 < fuel ->
  exists k s,
    PyExt.str_N_aux fuel n acc = s ++ acc
    /\ String.length s = S k
    /\ all_chars Py.is_digit s = true
    /\ (k = 0 \/ (10 ^ Z.of_nat k <= Z.of_N n)%Z)
    /\ (Z.of_N n < 10 ^ Z.of_nat (S k))%Z
    /\ forall b a t,
         Py.int_digits b a (s ++ t)
         = Py.int_digits true (a * 10 ^ Z.of_nat (S k) + Z.of_N n) t.
Proof.
  induction fuel as [|fuel IH]; intros n acc Hn Hf; [lia|].
  simpl.
  assert (Hd : (n mod 10 < 10)%N) by (apply N.mod_lt; lia).
  destruct (digit_char_digit _ Hd) as [Hdig Hval].
  assert (Hzn : Z.of_N n = (10 * Z.of_N (n / 10) + Z.of_N (n mod 10))%Z).
  { rewrite N2Z.inj_div, N2Z.inj_mod. change (Z.of_N 10) with 10%Z.
    apply Z.div_mod. discriminate. }
  assert (Hr : (0 <= Z.of_N (n mod 10) < 10)%Z).
  { split; [apply N2Z.is_nonneg|]. change 10%Z with (Z.of_N 10).
    now apply N2Z.inj_lt. }
  destruct (N.eqb_spec (n / 10) 0) as [Hz|Hnz].
  - exists 0, (String (PyExt.digit_char (n mod 10)) "").
    split; [reflexivity|]. split; [reflexivity|].
    split; [simpl; now rewrite Hdig|].
    split; [now left|].
    rewrite Hz in Hzn. change (Z.of_N 0) with 0%Z in Hzn.
    change (10 ^ Z.of_nat 1)%Z with 10%Z.
    split; [lia|].
    intros b a t. rewrite append_cons. simpl. rewrite Hdig, Hval.
    f_equal. lia.
  - assert (Hq : (n / 10 < 2 ^ N.of_nat fuel)%N).
    { apply N.Div0.div_lt_upper_bound.
      rewrite Nat2N.inj_succ, N.pow_succ_r' in Hn. lia. }
    assert (Hfuel : 0 < fuel).
    { destruct fuel; [|lia]. simpl in Hq. lia. }
    assert (Hq1 : (1 <= Z.of_N (n / 10))%Z) by lia.
    destruct (IH (n / 10)%N (String (PyExt.digit_char (n mod 10)) acc) Hq Hfuel)
      as (k & s & Hs & Hlen & Hall & Hmin & Hmax & Hparse).
    exists (S k), (s ++ String (PyExt.digit_char (n mod 10)) "").
    assert (Hpow : (10 ^ Z.of_nat (S (S k)) = 10 * 10 ^ Z.of_nat (S k))%Z).
    { rewrite (Nat2Z.inj_succ (S k)), Z.pow_succ_r by lia. reflexivity. }
    assert (Hpow' : (10 ^ Z.of_nat (S k) = 10 * 10 ^ Z.of_nat k)%Z).
    { rewrite (Nat2Z.inj_succ k), Z.pow_succ_r by lia. reflexivity. }
    split; [rewrite Hs, app_assoc_string; reflexivity|].
    split; [rewrite length_append; simpl; lia|].
    split.
    { clear - Hall Hdig. induction s as [|c s IHs]; simpl in *.
      - now rewrite Hdig.
      - apply andb_prop in Hall as [Hc Hs]. rewrite Hc. now apply IHs. }
    revert Hparse. rewrite Hpow. revert Hmax Hmin Hzn Hr Hq1 Hval.
    generalize (Z.of_N (n mod 10)) (Z.of_N (n / 10)) (Z.of_N n).
    rewrite Hpow'.
    assert (Hk0 : k = 0 -> (10 ^ Z.of_nat k = 1)%Z) by (intros ->; reflexivity).
    revert Hk0. generalize (10 ^ Z.of_nat k)%Z.
    intros X Hk0 r q N Hmax Hmin Hzn Hr Hq1 Hval Hparse.
    split.
    { right. destruct Hmin as [Hk | Hmin]; [rewrite (Hk0 Hk)|]; lia. }
    split; [lia|].
    intros b a t. rewrite app_assoc_string, Hparse, append_cons. simpl.
    rewrite Hdig, Hval. f_equal. lia.
Qed.

Lemma lt_pow_size_nat n : (n < 2 ^ N.of_nat (N.size_nat n))%N.
Proof.
  destruct n as [|p]; [reflexivity|]. simpl N.size_nat.
  induction p as [p IH|p IH|]; simpl Pos.size_nat;
    rewrite ?Nat2N.inj_succ, ?N.pow_succ_r'; [| |reflexivity].
  - change (N.pos p~1) with (2 * N.pos p + 1)%N. lia.
  - change (N.pos p~0) with (2 * N.pos p)%N. lia.
Qed.

Lemma str_N_spec n :
  exists k,
    String.length (PyExt.str_N n) = S k
    /\ all_chars Py.is_digit (PyExt.str_N n) = true
    /\ (k = 0 \/ (10 ^ Z.of_nat k <= Z.of_N n)%Z)
    /\ forall b a t,
         Py.int_digits b a (PyExt.str_N n ++ t)
         = Py.int_digits true (a * 10 ^ Z.of_nat (S k) + Z.of_N n) t.
Proof.
  unfold PyExt.str_N.
  destruct (str_N_aux_spec (S (N.size_nat n)) n "") as
    (k & s & Hs & Hlen & Hall & Hmin & _ & Hparse); [|lia|].
  { rewrite Nat2N.inj_succ, N.pow_succ_r'.
    pose proof (lt_pow_size_nat n). lia. }
  exists k. rewrite Hs.
  assert (E : s ++ "" = s).
  { clear. induction s as [|c s IH]; [reflexivity|].
    rewrite append_cons. now f_equal. }
  rewrite E. repeat split; assumption.
Qed.

End Decimal.

(** ** The identifier of a ticker *)

Section Cik.

Import ReferenceRest.

Lemma append_empty_r (s : string) : s ++ "" = s.
Proof.
  induction s as [|c s IH]; [reflexivity|]. rewrite append_cons. now f_equal.
Qed.

Lemma all_chars_append P s t :
  all_chars P (s ++ t) = all_chars P s && all_chars P t.
Proof.
  induction s as [|c s IH]; [reflexivity|].
  rewrite append_cons. simpl. rewrite IH. apply andb_assoc.
Qed.

Lemma all_chars_impl (P Q : ascii -> bool) s :
  (forall c, P c = true -> Q c = true) ->
  all_chars P s = true -> all_chars Q s = true.
Proof.
  intros HPQ. induction s as [|c s IH]; [reflexivity|].
  simpl. intros [Hc Hs]%andb_prop. now rewrite (HPQ c Hc), IH.
Qed.

Lemma all_chars_zeros k : all_chars Py.is_digit (PyExt.zeros k) = true.
Proof. induction k as [|k IH]; [reflexivity|]. exact IH. Qed.

Lemma length_zeros k : String.length (PyExt.zeros k) = k.
Proof. induction k as [|k IH]; [reflexivity|]. simpl. now rewrite IH. Qed.

Lemma digit_not_space c : Py.is_digit c = true -> Py.is_c_space c = false.
Proof. destruct c as [[] [] [] [] [] [] [] []]; vm_compute; congruence. Qed.

Lemma digit_not_sign c :
  Py.is_digit c = true -> Ascii.eqb c "+" || Ascii.eqb c "-" = false.
Proof. destruct c as [[] [] [] [] [] [] [] []]; vm_compute; congruence. Qed.

(** nothing is stripped from a string without white space *)
Lemma strip_by_id sp s :
  all_chars (fun c => negb (sp c)) s = true -> Py.strip_by sp s = s.
Proof.
  intros Hs. unfold Py.strip_by.
  assert (Hl : Py.lstrip_by sp s = s).
  { destruct s as [|c s]; [reflexivity|]. simpl in *.
    apply andb_prop in Hs as [Hc _]. now destruct (sp c). }
  rewrite Hl. induction s as [|c s IH]; [reflexivity|].
  simpl in *. apply andb_prop in Hs as [Hc Hs].
  destruct (sp c); [discriminate|]. simpl. rewrite IH; [reflexivity|assumption|].
  destruct s as [|d s]; [reflexivity|]. simpl in *.
  apply andb_prop in Hs as [Hd _]. now destruct (sp d).
Qed.

Lemma int_of_digits c r :
  Py.is_digit c = true -> all_chars Py.is_digit r = true ->
  Py.int (String c r) = Py.int_digits false 0 (String c r).
Proof.
  intros Hc Hr. unfold Py.int. rewrite strip_by_id.
  - destruct c as [[] [] [] [] [] [] [] []]; try discriminate Hc; reflexivity.
  - simpl. rewrite (digit_not_space c Hc). simpl.
    apply (all_chars_impl Py.is_digit); [|assumption].
    intros d Hd. now rewrite (digit_not_space d Hd).
Qed.

Lemma int_of_minus_digits r :
  all_chars Py.is_digit r = true ->
  Py.int (String "-" r) = Z.opp <$> Py.int_digits false 0 r.
Proof.
  intros Hr. unfold Py.int. rewrite strip_by_id; [reflexivity|].
  simpl. apply (all_chars_impl Py.is_digit); [|assumption].
  intros d Hd. now rewrite (digit_not_space d Hd).
Qed.

Lemma int_digits_zeros k n : forall b,
  Py.int_digits b 0 (PyExt.zeros k ++ PyExt.str_N n) = Some (Z.of_N n).
Proof.
  induction k as [|k IH]; intros b.
  - destruct (str_N_spec n) as (j & _ & _ & _ & Hparse).
    change (PyExt.zeros 0 ++ PyExt.str_N n) with (PyExt.str_N n).
    rewrite <- (append_empty_r (PyExt.str_N n)), Hparse.
    simpl. f_equal; lia.
  - simpl PyExt.zeros. rewrite append_cons. simpl. apply IH.
Qed.

Lemma str_N_nonempty n :
  exists c r, PyExt.str_N n = String c r /\ Py.is_digit c = true
              /\ all_chars Py.is_digit r = true.
Proof.
  destruct (str_N_spec n) as (k & Hlen & Hall & _).
  destruct (PyExt.str_N n) as [|c r]; [discriminate|].
  simpl in Hall. apply andb_prop in Hall as [Hc Hr]. now exists c, r.
Qed.

Lemma zfill_digits width c r :
  Py.is_digit c = true ->
  PyExt.zfill width (String c r)
  = PyExt.zeros (width - String.length (String c r)) ++ String c r.
Proof. intros Hc. unfold PyExt.zfill. now rewrite (digit_not_sign c Hc). Qed.

Lemma int_zfill_str_N width n :
  Py.int (PyExt.zfill width (PyExt.str_N n)) = Some (Z.of_N n).
Proof.
  destruct (str_N_nonempty n) as (c & r & Hs & Hc & Hr).
  assert (H := int_digits_zeros (width - String.length (PyExt.str_N n))
                 n false).
  revert H. rewrite Hs, (zfill_digits _ _ _ Hc).
  destruct (width - String.length (String c r)) as [|k].
  - change (PyExt.zeros 0 ++ String c r) with (String c r).
    intros H. rewrite int_of_digits; assumption.
  - simpl PyExt.zeros. rewrite append_cons. intros H.
    rewrite int_of_digits; [exact H|reflexivity|].
    rewrite all_chars_append, all_chars_zeros. simpl. now rewrite Hc.
Qed.

(** the zero-filled decimal form of an integer reads back as the
    integer *)
Lemma int_zfill_str_int width z :
  Py.int (PyExt.zfill width (PyExt.str_int z)) = Some z.
Proof.
  destruct z as [|p|p]; unfold PyExt.str_int.
  - change "0" with (PyExt.str_N 0). apply int_zfill_str_N.
  - apply int_zfill_str_N.
  - destruct (str_N_nonempty (N.pos p)) as (c & r & Hs & Hc & Hr).
    unfold PyExt.zfill. simpl (Ascii.eqb _ _ || _). cbv iota.
    rewrite int_of_minus_digits.
    + rewrite int_digits_zeros. reflexivity.
    + rewrite all_chars_append, all_chars_zeros, Hs. simpl. now rewrite Hc.
Qed.

(** and it has exactly [width] digits when the integer is not
    negative and has no more digits than that *)
Lemma zfill_str_int_length width z :
  (0 <= z < 10 ^ Z.of_nat width)%Z -> 0 < width ->
  String.length (PyExt.zfill width (PyExt.str_int z)) = width
  /\ all_chars Py.is_digit (PyExt.zfill width (PyExt.str_int z)) = true.
Proof.
  intros Hz Hw.
  assert (Hgen : forall n, (Z.of_N n < 10 ^ Z.of_nat width)%Z ->
            String.length (PyExt.zfill width (PyExt.str_N n)) = width
            /\ all_chars Py.is_digit (PyExt.zfill width (PyExt.str_N n)) = true).
  { intros n Hn.
    destruct (str_N_spec n) as (k & Hlen & Hall & Hmin & _).
    assert (Hk : S k <= width).
    { destruct Hmin as [-> | Hmin]; [lia|].
      destruct (Nat.le_gt_cases (S k) width) as [|Hgt]; [assumption|].
      exfalso.
      assert ((10 ^ Z.of_nat width <= 10 ^ Z.of_nat k)%Z)
        by (apply Z.pow_le_mono_r; lia).
      lia. }
    destruct (str_N_nonempty n) as (c & r & Hs & Hc & Hr).
    rewrite Hs, (zfill_digits _ _ _ Hc), <- Hs.
    rewrite length_append, length_zeros, Hlen, all_chars_append,
      all_chars_zeros, Hall.
    split; [lia|reflexivity]. }
  destruct z as [|p|p]; [| |lia]; unfold PyExt.str_int.
  - change "0" with (PyExt.str_N 0). apply (Hgen 0%N). simpl. lia.
  - apply (Hgen (N.pos p)). simpl. lia.
Qed.

Lemma find_first {A} (f : A -> bool) pre x post :
  Forall (fun y => f y = false) pre -> f x = true ->
  List.find f (pre ++ x :: post) = Some x.
Proof.
  induction 1 as [|y pre Hy _ IH]; intros Hx; simpl.
  - now rewrite Hx.
  - rewrite Hy. now apply IH.
Qed.

End Cik.

(** X4.  [get_cik_matching_ticker] returns the identifier of the first
    company whose ticker is the argument in upper case with its points
    turned to dashes: the decimal form of [cik_str], which reads back
    as [cik_str], filled with zeros to 10 digits when [cik_str] is
    below 10^10. *)
Theorem cik_of_first_matching_ticker
    (pre post : list ScraperRest.company) (company : ScraperRest.company)
    (ticker : string) :
  Forall (fun c => ScraperRest.ticker c
                   <> Py.replace "." "-" (PyExt.upper ticker)) pre ->
  ScraperRest.ticker company = Py.replace "." "-" (PyExt.upper ticker) ->
  exists cik,
    ScraperRest.get_cik_matching_ticker (Some (pre ++ company :: post)%list)
      ticker = Ok cik
    /\ Py.int cik = Some (ScraperRest.cik_str company)
    /\ ((0 <= ScraperRest.cik_str company < 10 ^ 10)%Z ->
        String.length cik = 10
        /\ ReferenceRest.all_chars Py.is_digit cik = true).
Proof.
  intros Hpre Hc.
  exists (PyExt.zfill 10 (PyExt.str_int (ScraperRest.cik_str company))).
  split; [|split].
  - unfold ScraperRest.get_cik_matching_ticker.
    rewrite (find_first _ pre company post); [reflexivity| |].
    + eapply Forall_impl; [exact Hpre|]. intros c Hne.
      now apply String.eqb_neq.
    + now apply String.eqb_eq.
  - apply int_zfill_str_int.
  - intros Hz. apply (zfill_str_int_length 10); [exact Hz|lia].
Qed.

Lemma cik_of_first_matching_ticker_witness :
  exists cik,
    ScraperRest.get_cik_matching_ticker
      (Some [ScraperRest.mkCompany "AAPL" 320193;
             ScraperRest.mkCompany "BRK-B" 1067983;
             ScraperRest.mkCompany "BRK-B" 5])
      "brk.b" = Ok cik
    /\ Py.int cik = Some 1067983%Z
    /\ ((0 <= 1067983 < 10 ^ 10)%Z ->
        String.length cik = 10
        /\ ReferenceRest.all_chars Py.is_digit cik = true).
Proof.
  apply (cik_of_first_matching_ticker
           [ScraperRest.mkCompany "AAPL" 320193]
           [ScraperRest.mkCompany "BRK-B" 5]
           (ScraperRest.mkCompany "BRK-B" 1067983) "brk.b").
  - apply Forall_cons_2; [discriminate|apply Forall_nil_2].
  - reflexivity.
Defined.

(** X5.  [get_cik_matching_ticker] raises [ValueError] exactly when no
    company of the file has that ticker, and [AttributeError] when
    [make_get_request] has returned [None]. *)
Theorem cik_not_found_iff
    (companies : list ScraperRest.company) (ticker : string) :
  (ScraperRest.get_cik_matching_ticker (Some companies) ticker
   = Raise ValueError
   <-> Forall (fun c => ScraperRest.ticker c
                        <> Py.replace "." "-" (PyExt.upper ticker)) companies)
  /\ ScraperRest.get_cik_matching_ticker None ticker = Raise AttributeError.
Proof.
  split; [|reflexivity].
  unfold ScraperRest.get_cik_matching_ticker.
  set (t := Py.replace "." "-" (PyExt.upper ticker)).
  split.
  - destruct (List.find _ companies) as [c|] eqn:Hf; [discriminate|].
    intros _. apply Forall_forall. intros c Hc.
    apply list_elem_of_In in Hc.
    pose proof (find_none _ _ Hf c Hc) as H. simpl in H.
    now apply String.eqb_neq.
  - intros Hall.
    destruct (List.find _ companies) as [c|] eqn:Hf; [|reflexivity].
    apply find_some in Hf as [Hin Heq]. apply String.eqb_eq in Heq.
    rewrite Forall_forall in Hall.
    now destruct (Hall c (proj2 (list_elem_of_In _ _) Hin)).
Qed.

(** ** The filings of a company *)

(** X6.  [get_filtered_filings] keeps the filings of the requested
    form, in their order, and removes every dash from their accession
    numbers; with the default [form=None] no filing is kept.  The
    variant of [test/edgar_functions.py] is the same function at the
    forms "10-K" and "10-Q". *)
Theorem filtered_filings_spec
    (filings : list ScraperRest.filing) (form : option string) (ten_k : bool) :
  let r := ScraperRest.get_filtered_filings filings form in
  Forall (fun p => Py.in_string "-" p.2 = false) r
  /\ sublist (map fst r) (map ScraperRest.reportDate filings)
  /\ (forall date number,
        (date, number) ∈ r
        <-> exists f, f ∈ filings
              /\ form = Some (ScraperRest.form f)
              /\ date = ScraperRest.reportDate f
              /\ number = Py.filter_chars (fun a => negb (Ascii.eqb "-" a))
                            (ScraperRest.accessionNumber f))
  /\ ScraperRest.get_filtered_filings filings None = []
  /\ EdgarFunctionsRest.get_filtered_filings filings ten_k
     = ScraperRest.get_filtered_filings filings
         (Some (if ten_k then "10-K" else "10-Q")).
Proof.
  unfold ScraperRest.get_filtered_filings, ScraperRest.get_filtered_filings_df,
    ScraperRest.filter_form.
  cbv zeta. repeat split.
  - rewrite !Forall_fmap. apply Forall_forall. intros f _. simpl.
    rewrite replace_single, in_string_filter. now rewrite Ascii.eqb_refl.
  - induction filings as [|f filings IH]; [constructor|].
    simpl. destruct (match form with Some _ => _ | None => _ end); simpl.
    + now apply sublist_skip.
    + now apply sublist_cons.
  - intros Hin.
    apply list_elem_of_fmap in Hin as (f' & Heq & Hin).
    apply list_elem_of_fmap in Hin as (f & -> & Hin).
    apply list_elem_of_In, filter_In in Hin as [Hin Hform].
    exists f. simpl in Heq. injection Heq as -> ->.
    repeat split.
    + now apply list_elem_of_In.
    + destruct form as [form|]; [|discriminate].
      apply String.eqb_eq in Hform. now subst.
    + apply replace_single.
  - intros (f & Hin & -> & -> & ->).
    apply list_elem_of_fmap. exists (ScraperRest.strip_dashes f). split.
    + simpl. now rewrite replace_single.
    + apply list_elem_of_fmap. exists f. split; [reflexivity|].
      apply list_elem_of_In, filter_In. split; [now apply list_elem_of_In|].
      apply String.eqb_refl.
  - induction filings as [|f filings IH]; [reflexivity|exact IH].
Qed.

(** ** The catalog of a filing summary *)

Section Catalog.

Import ScraperRest ReferenceRest.

Lemma is_empty_false s : Py.is_empty s = false <-> s <> "".
Proof. destruct s; simpl; split; congruence. Qed.

(** the entry that one report leaves under [key] *)
Lemma add_report_lookup dict report key file_name :
  add_report dict report !! key = Some file_name
  <-> is_entry key file_name report
      \/ (dict !! key = Some file_name
          /\ forall f, ~ is_entry key f report).
Proof.
  unfold add_report, __is_statement_file, is_entry.
  destruct (ShortName report) as [short_name|] eqn:Hshort;
    [destruct (LongName report) as [long_name|] eqn:Hlong|].
  - destruct (Py.is_empty (__get_file_name report)) eqn:Hempty; simpl.
    + split.
      * intros H. right. split; [assumption|].
        intros f (? & ? & _ & _ & _ & <- & Hne & _).
        apply is_empty_false in Hne. congruence.
      * intros [(? & ? & _ & _ & _ & <- & Hne & _) | [H _]]; [|assumption].
        apply is_empty_false in Hne. congruence.
    + destruct (Py.contains "Statement" long_name) eqn:Hlong_name.
      * destruct (decide (key = Py.lower short_name)) as [->|Hkey].
        -- rewrite lookup_insert_eq. split.
           ++ intros [= <-]. left. exists short_name, long_name.
              repeat split; try assumption; try reflexivity.
              now apply is_empty_false.
           ++ intros [(? & ? & _ & _ & _ & <- & _) | [_ Hno]];
                [reflexivity|].
              destruct (Hno (__get_file_name report)).
              exists short_name, long_name.
              repeat split; try assumption; try reflexivity.
              now apply is_empty_false.
        -- rewrite lookup_insert_ne by congruence. split.
           ++ intros H. right. split; [assumption|].
              intros f (? & ? & [= <-] & _ & _ & _ & _ & Hk). congruence.
           ++ intros [(? & ? & [= <-] & _ & _ & _ & _ & Hk) | [H _]];
                [congruence|assumption].
      * split.
        -- intros H. right. split; [assumption|].
           intros f (? & ? & _ & [= <-] & Hc & _). congruence.
        -- intros [(? & ? & _ & [= <-] & Hc & _) | [H _]];
             [congruence|assumption].
  - split.
    + intros H. right. split; [assumption|].
      intros f (? & ? & _ & [=] & _).
    + intros [(? & ? & _ & [=] & _) | [H _]]. assumption.
  - split.
    + intros H. right. split; [assumption|].
      intros f (? & ? & [=] & _).
    + intros [(? & ? & [=] & _) | [H _]]. assumption.
Qed.

Lemma catalog_fold reports : forall dict key file_name,
  fold_left add_report reports dict !! key = Some file_name
  <-> (exists pre report post,
         reports = (pre ++ report :: post)%list
         /\ is_entry key file_name report
         /\ Forall (fun r => forall f, ~ is_entry key f r) post)
      \/ (dict !! key = Some file_name
          /\ Forall (fun r => forall f, ~ is_entry key f r) reports).
Proof.
  induction reports as [|report reports IH]; intros dict key file_name.
  - simpl. split.
    + intros H. right. split; [assumption|constructor].
    + intros [(pre & r & post & Heq & _) | [H _]]; [|assumption].
      now destruct pre.
  - simpl. rewrite IH, add_report_lookup. split.
    + intros [(pre & r & post & -> & Hr & Hpost)
             | [[Hentry | [Hdict Hno]] Hrest]].
      * left. now exists (report :: pre), r, post.
      * left. now exists [], report, reports.
      * right. split; [assumption|]. now apply Forall_cons_2.
    + intros [(pre & r & post & Heq & Hr & Hpost) | [Hdict Hall]].
      * destruct pre as [|r0 pre]; simpl in Heq; injection Heq as -> ->.
        -- right. split; [now left|assumption].
        -- left. now exists pre, r, post.
      * apply Forall_cons in Hall as [Hno Hall]. right.
        split; [right; now split|assumption].
Qed.

Lemma lower_char_idem c : Py.lower_char (Py.lower_char c) = Py.lower_char c.
Proof. destruct c as [[] [] [] [] [] [] [] []]; reflexivity. Qed.

Lemma lower_idem s : Py.lower (Py.lower s) = Py.lower s.
Proof.
  induction s as [|c s IH]; [reflexivity|].
  simpl. now rewrite lower_char_idem, IH.
Qed.

Lemma catalog_lookup reports key file_name :
  get_statement_file_names_in_filing_summary reports !! key = Some file_name
  <-> exists pre report post,
        reports = (pre ++ report :: post)%list
        /\ is_entry key file_name report
        /\ Forall (fun r => forall f, ~ is_entry key f r) post.
Proof.
  unfold get_statement_file_names_in_filing_summary.
  rewrite catalog_fold. split.
  - intros [H | [H _]]; [assumption|]. now rewrite lookup_empty in H.
  - intros H. now left.
Qed.

End Catalog.

(** X7.  The dictionary of [get_statement_file_names_in_filing_summary]
    holds under a key the file of the last report of the summary that
    has a short name equal to the key up to case, a long name with
    "Statement" in it and a file name that is not empty; so every key
    is in lower case and no entry is the empty string. *)
Theorem catalog_holds_last_statement_report
    (reports : list ScraperRest.Report) (key file_name : string) :
  let catalog :=
    ScraperRest.get_statement_file_names_in_filing_summary reports in
  (catalog !! key = Some file_name
   <-> exists pre report post,
         reports = (pre ++ report :: post)%list
         /\ ReferenceRest.is_entry key file_name report
         /\ Forall (fun r => forall f, ~ ReferenceRest.is_entry key f r) post)
  /\ (is_Some (catalog !! key) -> Py.lower key = key)
  /\ catalog !! key <> Some "".
Proof.
  cbv zeta. split; [apply catalog_lookup|split].
  - intros [f Hf]. apply catalog_lookup in Hf as (_ & r & _ & _ & Hr & _).
    destruct Hr as (short & _ & _ & _ & _ & _ & _ & ->). apply lower_idem.
  - intros Hf. apply catalog_lookup in Hf as (_ & r & _ & _ & Hr & _).
    destruct Hr as (_ & _ & _ & _ & _ & _ & Hne & _). congruence.
Qed.

(** ** From the filing summary to the page of a statement *)

Section StatementSoup.

Import ScraperRest ReferenceRest.

Lemma first_file_name_some dict keys file_name :
  Scraper.first_file_name dict keys = Some file_name
  <-> exists pre key post,
        keys = (pre ++ key :: post)%list
        /\ Forall (Reference.misses dict) pre
        /\ dict !! Py.lower key = Some file_name
        /\ file_name <> "".
Proof.
  split.
  - induction keys as [|key keys IH]; [discriminate|].
    simpl. destruct (dict !! Py.lower key) as [f|] eqn:Hkey.
    + destruct (Py.is_empty f) eqn:Hf.
      * intros H. destruct (IH H) as (pre & k & post & -> & Hpre & Hk & Hne).
        exists (key :: pre), k, post. repeat split; try assumption.
        apply Forall_cons_2; [|assumption]. right.
        destruct f; [assumption|discriminate].
      * intros [= ->]. exists [], key, keys.
        repeat split; [constructor|assumption|now apply is_empty_false].
    + intros H. destruct (IH H) as (pre & k & post & -> & Hpre & Hk & Hne).
      exists (key :: pre), k, post. repeat split; try assumption.
      apply Forall_cons_2; [now left|assumption].
  - intros (pre & key & post & -> & Hpre & Hk & Hne).
    now apply first_file_name_hit.
Qed.

Lemma drop_split n : forall s, exists p, s = p ++ Py.drop n s.
Proof.
  induction n as [|n IH]; intros s.
  - exists "". now destruct s.
  - destruct s as [|c s]; [now exists ""|].
    destruct (IH s) as [p Hp]. exists (String c p).
    rewrite append_cons. simpl. now f_equal.
Qed.

(** [s.endswith(suffix)] says that [s] is a string followed by
    [suffix] *)
Lemma endswith_iff s suffix :
  PyExt.endswith s suffix = true <-> exists p, s = p ++ suffix.
Proof.
  unfold PyExt.endswith. split.
  - intros H. apply String.eqb_eq in H.
    destruct (drop_split (String.length s - String.length suffix) s) as [p Hp].
    exists p. now rewrite <- H.
  - intros [p ->]. rewrite length_append, Nat.add_sub, drop_append.
    apply String.eqb_refl.
Qed.

(** in a dictionary made from a filing summary the loop passes over
    the absent keys only *)
Lemma catalog_misses reports key :
  Reference.misses (get_statement_file_names_in_filing_summary reports) key
  <-> get_statement_file_names_in_filing_summary reports !! Py.lower key = None.
Proof.
  split; [|now left].
  intros [H | H]; [assumption|].
  apply catalog_lookup in H as (_ & r & _ & _ & Hr & _).
  destruct Hr as (_ & _ & _ & _ & _ & _ & Hne & _). congruence.
Qed.

End StatementSoup.

(** X8.  The link that [get_statement_soup] resolves from a filing
    summary is that of the first key of the statement's list that is in
    the dictionary of the summary, and the [ValueError] of a missing
    link is raised exactly when none of the keys is in it: the test
    [if file_name] never passes over a key that is there. *)
Theorem statement_link_of_summary
    (base_link : string) (reports : list ScraperRest.Report)
    (statement_name link : string) :
  let catalog :=
    ScraperRest.get_statement_file_names_in_filing_summary reports in
  let keys :=
    default [] (Scraper.statement_keys_map !! Py.lower statement_name) in
  (Scraper.statement_link base_link catalog statement_name = Raise ValueError
   <-> Forall (fun key => catalog !! Py.lower key = None) keys)
  /\ (Scraper.statement_link base_link catalog statement_name = Ok link
      <-> exists pre key post file_name,
            keys = (pre ++ key :: post)%list
            /\ Forall (fun key => catalog !! Py.lower key = None) pre
            /\ catalog !! Py.lower key = Some file_name
            /\ link = base_link ++ "/" ++ file_name).
Proof.
  cbv zeta. unfold Scraper.statement_link.
  set (keys := default [] _).
  set (catalog := ScraperRest.get_statement_file_names_in_filing_summary _).
  split.
  - destruct (Scraper.first_file_name catalog keys) as [f|] eqn:Hf.
    + split; [discriminate|]. intros Hall.
      assert (Hnone : Scraper.first_file_name catalog keys = None).
      { apply first_file_name_none. eapply Forall_impl; [exact Hall|].
        intros k Hk. now left. }
      congruence.
    + split; [|reflexivity]. intros _.
      apply first_file_name_none in Hf.
      eapply Forall_impl; [exact Hf|]. intros k Hk.
      now apply catalog_misses.
  - split.
    + destruct (Scraper.first_file_name catalog keys) as [f|] eqn:Hf;
        [|discriminate].
      intros [= <-].
      apply first_file_name_some in Hf
        as (pre & key & post & Hkeys & Hpre & Hkey & _).
      exists pre, key, post, f. repeat split; try assumption.
      eapply Forall_impl; [exact Hpre|]. intros k Hk.
      now apply catalog_misses.
    + intros (pre & key & post & f & Hkeys & Hpre & Hkey & ->).
      assert (Hf : Scraper.first_file_name catalog keys = Some f).
      { apply first_file_name_some. exists pre, key, post.
        repeat split; try assumption.
        - eapply Forall_impl; [exact Hpre|]. intros k Hk. now left.
        - intros ->.
          apply catalog_lookup in Hkey as (_ & r & _ & _ & Hr & _).
          destruct Hr as (_ & _ & _ & _ & _ & _ & Hne & _). congruence. }
      now rewrite Hf.
Qed.

(** X9.  Once the link is resolved, [get_statement_soup] raises
    [ValueError] when the request fails, ends without a value when the
    link ends in ".xml", and returns the page otherwise; the request
    is made before the suffix is looked at, and for a link that ends
    in ".xml" [get_one_statement] returns [None]. *)
Theorem statement_soup_of_link {Page : Type}
    (fetch : string -> option Page)
    (to_datetime : list string -> result (list Date))
    (read_html : Page
                 -> result (list (ScraperRest.dict_key
                                  * list Scraper.cell_value)))
    (base_link : string) (reports : list ScraperRest.Report)
    (statement_name link : string) :
  Scraper.statement_link base_link
    (ScraperRest.get_statement_file_names_in_filing_summary reports)
    statement_name = Ok link ->
  let soup :=
    ScraperRest.get_statement_soup fetch base_link reports statement_name in
  (forall e, soup = Raise e <-> e = ValueError /\ fetch link = None)
  /\ (soup = Ok None
      <-> is_Some (fetch link) /\ exists stem, link = stem ++ ".xml")
  /\ (forall page, soup = Ok (Some page)
        <-> fetch link = Some page /\ ~ exists stem, link = stem ++ ".xml")
  /\ ((exists stem, link = stem ++ ".xml") ->
      ScraperRest.get_one_statement to_datetime read_html soup = None).
Proof.
  intros Hlink. cbv zeta. unfold ScraperRest.get_statement_soup.
  rewrite Hlink. simpl.
  pose proof (endswith_iff link ".xml") as Hxml.
  destruct (fetch link) as [page|] eqn:Hfetch;
    [destruct (PyExt.endswith link ".xml") eqn:Hends|].
  - assert (Hex : exists stem, link = stem ++ ".xml") by now apply Hxml.
    split; [|split; [|split]].
    + intros e. split; [discriminate|intros [_ [=]]].
    + split; [|reflexivity]. intros _. split; [now exists page|exact Hex].
    + intros page0. split; [discriminate|]. intros [_ Hno]. contradiction.
    + reflexivity.
  - assert (Hno : ~ exists stem, link = stem ++ ".xml").
    { intros Hex. apply Hxml in Hex. discriminate. }
    split; [|split; [|split]].
    + intros e. split; [discriminate|intros [_ [=]]].
    + split; [discriminate|]. intros [_ Hex]. contradiction.
    + intros page0. split.
      * intros [= <-]. now split.
      * intros [[= <-] _]. reflexivity.
    + intros Hex. contradiction.
  - split; [|split; [|split]].
    + intros e. split.
      * intros [= <-]. now split.
      * intros [-> _]. reflexivity.
    + split; [discriminate|]. intros [[? [=]] _].
    + intros page0. split; [discriminate|intros [[=] _]].
    + reflexivity.
Qed.

Lemma statement_soup_of_link_witness :
  ScraperRest.get_statement_soup (fun _ : string => Some tt)
    "https://www.sec.gov/x"
    [ScraperRest.mkReport None (Some "R2.xml") (Some "Balance Sheet")
       (Some "0002 - Statement - Balance Sheet")]
    "balance_sheet" = Ok None
  /\ ScraperRest.get_one_statement (fun _ => Ok []) (fun _ : unit => Ok [])
       (ScraperRest.get_statement_soup (fun _ : string => Some tt)
          "https://www.sec.gov/x"
          [ScraperRest.mkReport None (Some "R2.xml") (Some "Balance Sheet")
             (Some "0002 - Statement - Balance Sheet")]
          "balance_sheet") = None.
Proof.
  destruct (statement_soup_of_link (fun _ : string => Some tt)
              (fun _ => Ok []) (fun _ : unit => Ok [])
              "https://www.sec.gov/x"
              [ScraperRest.mkReport None (Some "R2.xml") (Some "Balance Sheet")
                 (Some "0002 - Statement - Balance Sheet")]
              "balance_sheet" "https://www.sec.gov/x/R2.xml")
    as (_ & Hnone & _ & Hone).
  - vm_compute. reflexivity.
  - split.
    + apply Hnone. split; [now exists tt|].
      now exists "https://www.sec.gov/x/R2".
    + apply Hone. now exists "https://www.sec.gov/x/R2".
Defined.

(** ** The columns of a statement table *)

Section ProcessDict.

Import ScraperRest ReferenceRest.

Lemma bind_ok {A B} (a : A) (k : A -> result B) : (x ← Ok a; k x) = k a.
Proof. reflexivity. Qed.

Lemma standardize_number_str_ok s multiplier :
  exists v, Scraper.__standardize_number (Scraper.PStr s) multiplier = Ok v.
Proof.
  rewrite standardize_number_str.
  destruct (Py.In_list _ _); [now eexists|].
  destruct (Py.int _); now eexists.
Qed.

Lemma standardize_column_text values :
  text_column values = true ->
  exists numbers,
    standardize_column values = Ok numbers
    /\ length numbers = length values.
Proof.
  induction values as [|value values IH]; [now exists []|].
  simpl. intros [Hvalue Hvalues]%andb_prop.
  destruct (IH Hvalues) as (numbers & Hnumbers & Hlen).
  rewrite Hnumbers.
  destruct value as [s|[]]; [| |discriminate].
  - destruct (standardize_number_str_ok s 1) as [v ->].
    exists (v :: numbers). simpl. now rewrite Hlen.
  - exists (None :: numbers). simpl. now rewrite Hlen.
Qed.

Lemma standardize_column_number values :
  text_column values = false ->
  standardize_column values = Raise AttributeError.
Proof.
  induction values as [|value values IH]; [discriminate|].
  simpl. intros H.
  destruct value as [s|[]].
  - destruct (standardize_number_str_ok s 1) as [v ->]. simpl.
    now rewrite IH.
  - simpl. now rewrite IH.
  - reflexivity.
Qed.

Lemma dict_set_keys {V} k (v : V) d :
  map fst (PyExt.dict_set k v d)
  = if bool_decide (k ∈ map fst d) then map fst d
    else (map fst d ++ [k])%list.
Proof.
  induction d as [|[k' v'] d IH]; [reflexivity|].
  simpl. destruct (String.eqb k k') eqn:Hk.
  - apply String.eqb_eq in Hk as ->. simpl.
    rewrite bool_decide_eq_true_2; [reflexivity|left].
  - apply String.eqb_neq in Hk. simpl. rewrite IH.
    destruct (bool_decide (k ∈ map fst d)) eqn:Hin.
    + apply bool_decide_eq_true in Hin.
      rewrite bool_decide_eq_true_2; [reflexivity|now right].
    + apply bool_decide_eq_false in Hin.
      rewrite bool_decide_eq_false_2; [reflexivity|].
      intros [?|?]%elem_of_cons; congruence.
Qed.

Lemma dict_set_NoDup {V} k (v : V) d :
  NoDup (map fst d) -> NoDup (map fst (PyExt.dict_set k v d)).
Proof.
  intros Hd. rewrite dict_set_keys.
  destruct (bool_decide (k ∈ map fst d)) eqn:Hin; [assumption|].
  apply bool_decide_eq_false in Hin.
  apply NoDup_app. repeat split; [assumption| |apply NoDup_singleton].
  intros x Hx ->%list_elem_of_singleton. contradiction.
Qed.

Lemma dict_set_elem {V} k (v : V) d k' v' :
  NoDup (map fst d) ->
  (k', v') ∈ PyExt.dict_set k v d
  <-> (k' = k /\ v' = v) \/ (k' <> k /\ (k', v') ∈ d).
Proof.
  induction d as [|[k0 v0] d IH]; simpl; intros Hd.
  - rewrite list_elem_of_singleton. split.
    + intros [= -> ->]. now left.
    + intros [[-> ->] | [_ H]]; [reflexivity|]. now apply elem_of_nil in H.
  - apply NoDup_cons in Hd as [Hk0 Hd].
    destruct (String.eqb k k0) eqn:Hk.
    + apply String.eqb_eq in Hk as <-.
      rewrite !elem_of_cons. split.
      * intros [[= -> ->] | Hin]; [now left|]. right.
        split; [|now right]. intros ->. apply Hk0.
        apply list_elem_of_fmap. now exists (k, v').
      * intros [[-> ->] | [Hne [[= -> ->] | Hin]]];
          [now left|congruence|now right].
    + apply String.eqb_neq in Hk.
      rewrite !elem_of_cons, (IH Hd). split.
      * intros [[= -> ->] | [[-> ->] | [Hne Hin]]].
        -- right. split; [congruence|now left].
        -- now left.
        -- right. split; [assumption|now right].
      * intros [[-> ->] | [Hne [[= -> ->] | Hin]]].
        -- right. now left.
        -- now left.
        -- right. right. now split.
Qed.

Lemma fill_values_map_spec items : forall values_map,
  Forall (fun item => key_item 1 item.1 = Ok (header_of item.1)) items ->
  Forall (fun item => kept item = true -> text_column item.2 = true) items ->
  NoDup (map fst values_map) ->
  exists filled,
    fill_values_map items values_map = Ok filled
    /\ NoDup (map fst filled)
    /\ forall date numbers,
         (date, numbers) ∈ filled
         <-> last_filed items date numbers
             \/ ((date, numbers) ∈ values_map
                 /\ Forall (fun later => kept later = true
                                         -> date_of later <> date) items).
Proof.
  induction items as [|[key values] items IH];
    intros values_map Hkeys Htext Hdup.
  - exists values_map. repeat split; [assumption| |].
    + intros H. right. split; [assumption|constructor].
    + intros [(pre & ? & ? & Heq & _) | [H _]]; [|assumption].
      now destruct pre.
  - apply Forall_cons in Hkeys as [Hkey Hkeys].
    apply Forall_cons in Htext as [Hvalues Htext].
    simpl in Hkey, Hvalues. simpl fill_values_map. rewrite Hkey. simpl.
    assert (Hlater : forall date numbers,
              last_filed ((key, values) :: items) date numbers
              <-> last_filed items date numbers
                  \/ (kept (key, values) = true
                      /\ date_of (key, values) = date
                      /\ standardize_column values = Ok numbers
                      /\ length numbers = length values
                      /\ Forall (fun later => kept later = true
                                              -> date_of later <> date) items)).
    { intros date numbers. split.
      - intros (pre & item & post & Heq & Hitem).
        destruct pre as [|first pre]; simpl in Heq; injection Heq as <- ->.
        + right. exact Hitem.
        + left. now exists pre, item, post.
      - intros [(pre & item & post & -> & Hitem) | Hitem].
        + now exists ((key, values) :: pre), item, post.
        + now exists [], (key, values), items. }
    unfold kept in Hvalues, Hlater. simpl in Hvalues, Hlater.
    destruct (15 <? String.length (header_of key))%nat eqn:Hlong.
    + apply Nat.ltb_lt in Hlong.
      assert (Hskip : (String.length (header_of key) <=? 15)%nat = false)
        by (apply Nat.leb_gt; lia).
      destruct (IH values_map Hkeys Htext Hdup) as (filled & Hfill & Hnd & Hin).
      exists filled. repeat split; try assumption.
      * intros H. apply Hin in H as [H | [H Hall]].
        -- left. apply Hlater. now left.
        -- right. split; [assumption|]. apply Forall_cons_2; [|assumption].
           unfold kept. simpl. congruence.
      * intros [H | [H Hall]]; apply Hin.
        -- apply Hlater in H as [H | [H _]]; [now left|congruence].
        -- right. split; [assumption|].
           now apply Forall_cons in Hall as [_ Hall].
    + apply Nat.ltb_ge in Hlong.
      assert (Hkept : (String.length (header_of key) <=? 15)%nat = true)
        by (apply Nat.leb_le; lia).
      destruct (standardize_column_text values (Hvalues Hkept))
        as (numbers & Hnumbers & Hlen).
      rewrite Hnumbers. simpl.
      set (date := Scraper.__standardize_date (header_of key)).
      destruct (IH (PyExt.dict_set date numbers values_map) Hkeys Htext
                  (dict_set_NoDup _ _ _ Hdup)) as (filled & Hfill & Hnd & Hin).
      exists filled. repeat split; try assumption.
      * intros H. apply Hin in H as [H | [H Hall]].
        -- left. apply Hlater. now left.
        -- apply dict_set_elem in H as [[-> ->] | [Hne H]]; [| |assumption].
           ++ left. apply Hlater. right. repeat split; try assumption.
           ++ right. split; [assumption|]. apply Forall_cons_2; [|assumption].
              intros _. unfold date_of. simpl. fold date. congruence.
      * intros [H | [H Hall]]; apply Hin.
        -- apply Hlater in H as [H | (_ & Hdate & Hstd & _ & Hall)];
             [now left|].
           right. split; [|assumption].
           apply dict_set_elem; [assumption|]. left.
           unfold date_of in Hdate. simpl in Hdate. fold date in Hdate.
           split; congruence.
        -- apply Forall_cons in Hall as [Hhead Hall].
           right. split; [|assumption].
           apply dict_set_elem; [assumption|]. right. split; [|assumption].
           intros ->. now apply (Hhead Hkept).
Qed.

Lemma fill_values_map_number items : forall values_map,
  Forall (fun item => key_item 1 item.1 = Ok (header_of item.1)) items ->
  Exists (fun item => kept item = true /\ text_column item.2 = false) items ->
  fill_values_map items values_map = Raise AttributeError.
Proof.
  induction items as [|[key values] items IH];
    intros values_map Hkeys Hbad.
  - now apply Exists_nil in Hbad.
  - apply Forall_cons in Hkeys as [Hkey Hkeys]. simpl in Hkey.
    simpl fill_values_map. rewrite Hkey. simpl.
    apply Exists_cons in Hbad as [[Hkept Hnumber] | Hbad].
    + unfold kept in Hkept. simpl in Hkept, Hnumber.
      apply Nat.leb_le in Hkept.
      assert (Hlong : (15 <? String.length (header_of key))%nat = false)
        by (apply Nat.ltb_ge; lia).
      rewrite Hlong. now rewrite (standardize_column_number _ Hnumber).
    + destruct (15 <? String.length (header_of key))%nat; [now apply IH|].
      destruct (text_column values) eqn:Htext.
      * destruct (standardize_column_text values Htext) as (numbers & -> & _).
        simpl. now apply IH.
      * now rewrite (standardize_column_number _ Htext).
Qed.

End ProcessDict.

(** X10.  When every column header can be read and the columns kept
    hold only strings and NaN, [process_dict] files the columns whose
    header has at most 15 characters under their standardized date:
    the dates are distinct, each date holds the numbers of the last
    column filed under it, one for each value of the column, and the
    name of the statement is returned in lower case. *)
Theorem process_dict_files_columns
    (to_datetime : list string -> result (list Date))
    (name_key : ScraperRest.dict_key) (name : string)
    (attributes : list Scraper.cell_value)
    (items : list (ScraperRest.dict_key * list Scraper.cell_value)) :
  ScraperRest.key_item 0 name_key = Ok name ->
  Forall (fun item => ScraperRest.key_item 1 item.1
                      = Ok (ReferenceRest.header_of item.1)) items ->
  Forall (fun item => ReferenceRest.kept item = true
                      -> ReferenceRest.text_column item.2 = true) items ->
  exists filled,
    NoDup (map fst filled)
    /\ (forall date numbers,
          (date, numbers) ∈ filled
          <-> ReferenceRest.last_filed items date numbers)
    /\ ScraperRest.process_dict to_datetime ((name_key, attributes) :: items)
       = (date_index ← to_datetime (map fst filled);
          Ok (attributes, date_index, map snd filled, Py.lower name)).
Proof.
  intros Hname Hkeys Htext.
  destruct (fill_values_map_spec items [] Hkeys Htext (NoDup_nil_2))
    as (filled & Hfill & Hnd & Hin).
  exists filled. split; [assumption|split].
  - intros date numbers. rewrite Hin. split; [|now left].
    intros [H | [H _]]; [assumption|]. now apply elem_of_nil in H.
  - unfold ScraperRest.process_dict. rewrite Hname. simpl.
    now rewrite Hfill.
Qed.

Lemma process_dict_files_columns_witness :
  exists filled,
    NoDup (map fst filled)
    /\ (forall date numbers,
          (date, numbers) ∈ filled
          <-> ReferenceRest.last_filed
                [(ScraperRest.KTuple ["Balance Sheets"; "Sep. 30, 2023"],
                  [Scraper.PStr "$ 1,234"; Scraper.PFloat true]);
                 (ScraperRest.KTuple ["Balance Sheets"; "12 Months Ended"],
                  [Scraper.PStr "x"; Scraper.PStr "y"]);
                 (ScraperRest.KStr "Restated amounts", [Scraper.PFloat false])]
                date numbers)
    /\ ScraperRest.process_dict Dates.to_datetime
         [(ScraperRest.KTuple ["Balance Sheets"; "Balance Sheets"],
           [Scraper.PStr "Cash"; Scraper.PStr "Total assets"]);
          (ScraperRest.KTuple ["Balance Sheets"; "Sep. 30, 2023"],
           [Scraper.PStr "$ 1,234"; Scraper.PFloat true]);
          (ScraperRest.KTuple ["Balance Sheets"; "12 Months Ended"],
           [Scraper.PStr "x"; Scraper.PStr "y"]);
          (ScraperRest.KStr "Restated amounts", [Scraper.PFloat false])]
       = (date_index ← Dates.to_datetime (map fst filled);
          Ok ([Scraper.PStr "Cash"; Scraper.PStr "Total assets"], date_index,
              map snd filled, Py.lower "Balance Sheets")).
Proof.
  apply (process_dict_files_columns Dates.to_datetime
           (ScraperRest.KTuple ["Balance Sheets"; "Balance Sheets"])
           "Balance Sheets").
  - reflexivity.
  - apply Forall_cons_2; [reflexivity|].
    apply Forall_cons_2; [reflexivity|].
    apply Forall_cons_2; [reflexivity|apply Forall_nil_2].
  - apply Forall_cons_2; [intros _; reflexivity|].
    apply Forall_cons_2; [intros _; reflexivity|].
    apply Forall_cons_2; [vm_compute; discriminate|apply Forall_nil_2].
Defined.

(** X11.  A float that is not NaN in a column that [process_dict]
    keeps has no method [strip]: [process_dict] raises
    [AttributeError], whatever the date parser does, and
    [get_one_statement] returns [None]. *)
Theorem number_cell_gives_none {Page : Type}
    (to_datetime : list string -> result (list Date))
    (read_html : Page
                 -> result (list (ScraperRest.dict_key
                                  * list Scraper.cell_value)))
    (page : Page)
    (name_key : ScraperRest.dict_key) (name : string)
    (attributes : list Scraper.cell_value)
    (items : list (ScraperRest.dict_key * list Scraper.cell_value)) :
  read_html page = Ok ((name_key, attributes) :: items) ->
  ScraperRest.key_item 0 name_key = Ok name ->
  Forall (fun item => ScraperRest.key_item 1 item.1
                      = Ok (ReferenceRest.header_of item.1)) items ->
  Exists (fun item => ReferenceRest.kept item = true
                      /\ ReferenceRest.text_column item.2 = false) items ->
  ScraperRest.process_dict to_datetime ((name_key, attributes) :: items)
  = Raise AttributeError
  /\ ScraperRest.get_one_statement to_datetime read_html (Ok (Some page))
     = None.
Proof.
  intros Hread Hname Hkeys Hbad.
  assert (Hraise : ScraperRest.process_dict to_datetime
                     ((name_key, attributes) :: items) = Raise AttributeError).
  { unfold ScraperRest.process_dict. rewrite Hname. simpl.
    now rewrite (fill_values_map_number items [] Hkeys Hbad). }
  split; [assumption|].
  unfold ScraperRest.get_one_statement.
  rewrite Hread, bind_ok. unfold ScraperRest.frame_of_dict.
  now rewrite Hraise.
Qed.

Lemma number_cell_gives_none_witness :
  ScraperRest.process_dict Dates.to_datetime
    [(ScraperRest.KStr "Balance Sheets", [Scraper.PStr "Shares issued"]);
     (ScraperRest.KStr "Sep. 30, 2023", [Scraper.PFloat false])]
  = Raise AttributeError
  /\ ScraperRest.get_one_statement Dates.to_datetime
       (fun _ : unit =>
          Ok [(ScraperRest.KStr "Balance Sheets", [Scraper.PStr "Shares issued"]);
              (ScraperRest.KStr "Sep. 30, 2023", [Scraper.PFloat false])])
       (Ok (Some tt))
     = None.
Proof.
  apply (number_cell_gives_none Dates.to_datetime
           (fun _ : unit =>
              Ok [(ScraperRest.KStr "Balance Sheets",
                   [Scraper.PStr "Shares issued"]);
                  (ScraperRest.KStr "Sep. 30, 2023", [Scraper.PFloat false])])
           tt (ScraperRest.KStr "Balance Sheets") "Balance Sheets").
  - reflexivity.
  - reflexivity.
  - apply Forall_cons_2; [reflexivity|apply Forall_nil_2].
  - apply Exists_cons_hd. split; reflexivity.
Defined.

(** ** The frame of a statement *)

Section StatementFrame.

Import ScraperRest ReferenceRest.

Context {Page : Type}.
Variable to_datetime : list string -> result (list Date).
Variable read_html : Page -> result (list (dict_key * list Scraper.cell_value)).

(** [pd.to_datetime] gives one date for each string *)
Hypothesis to_datetime_length : forall strings dates,
  to_datetime strings = Ok dates -> length dates = length strings.

(** X12.  For a table whose columns are as long as its first column
    (as those of a frame are), with readable headers and, in the
    columns kept, only strings and NaN that give whole numbers of at
    most 2^53 in absolute value (which the frame holds exactly),
    [get_one_statement] returns [None] when the dates do not parse and
    otherwise the frame that has the dates as columns and one row for
    each attribute, the row [i] holding the number [i] of every column
    filed, together with the name of the statement in lower case. *)
Theorem statement_frame_of_table
    (page : Page) (name_key : dict_key) (name : string)
    (attributes : list Scraper.cell_value)
    (items : list (dict_key * list Scraper.cell_value)) :
  read_html page = Ok ((name_key, attributes) :: items) ->
  key_item 0 name_key = Ok name ->
  Forall (fun item => key_item 1 item.1 = Ok (header_of item.1)) items ->
  Forall (fun item => kept item = true -> text_column item.2 = true) items ->
  Forall (fun item => length item.2 = length attributes) items ->
  Forall (fun item => kept item = true -> float_exact item.2 = true) items ->
  exists filled,
    (forall date numbers,
       (date, numbers) ∈ filled <-> last_filed items date numbers)
    /\ get_one_statement to_datetime read_html (Ok (Some page))
       = match to_datetime (map fst filled) with
         | Ok dates =>
             Some (mkDataFrame dates
                     (imap (fun i attribute =>
                              (attribute,
                               map (fun column =>
                                      inject_Z <$> default None (column.2 !! i))
                                   filled))
                           attributes),
                   Py.lower name)
         | Raise _ => None
         end.
Proof.
  intros Hread Hname Hkeys Htext Hlens _.
  destruct (fill_values_map_spec items [] Hkeys Htext (NoDup_nil_2))
    as (filled & Hfill & _ & Hin).
  assert (Hfilled : forall date numbers,
            (date, numbers) ∈ filled <-> last_filed items date numbers).
  { intros date numbers. rewrite Hin. split; [|now left].
    intros [H | [H _]]; [assumption|]. now apply elem_of_nil in H. }
  exists filled. split; [exact Hfilled|].
  unfold get_one_statement. rewrite Hread, bind_ok.
  unfold frame_of_dict, process_dict. rewrite Hname, bind_ok, Hfill, bind_ok.
  destruct (to_datetime (map fst filled)) as [dates|e] eqn:Hdates;
    [|reflexivity].
  rewrite !bind_ok.
  apply to_datetime_length in Hdates. rewrite length_map in Hdates.
  assert (Hrows : Forall (fun column => length column.2 = length attributes)
                         filled).
  { apply Forall_forall. intros [date numbers] Hcolumn.
    apply Hfilled in Hcolumn
      as (pre & item & post & -> & _ & _ & _ & Hlen & _).
    apply Forall_app in Hlens as [_ Hlens].
    apply Forall_cons in Hlens as [Hitem _]. simpl. congruence. }
  assert (Hcells : forall i,
            map (fun r : Date * list (option Q) => default None (r.2 !! i))
                (combine dates (map (map (fmap inject_Z)) (map snd filled)))
            = map (fun column : string * list (option Z) =>
                     inject_Z <$> default None (column.2 !! i)) filled).
  { intros i.
    rewrite <- (map_map snd (fun d : list (option Q) => default None (d !! i))).
    rewrite snd_combine by (now rewrite !length_map).
    rewrite !map_map. apply map_ext. intros [date numbers]. simpl.
    rewrite list_lookup_fmap. now destruct (numbers !! i). }
  destruct filled as [|column filled].
  - destruct dates; [|discriminate]. simpl.
    unfold Pandas.T, Pandas.index. reflexivity.
  - unfold Pandas.new.
    change (map (map (fmap inject_Z)) (map snd (column :: filled)))
      with (map (fmap inject_Z) column.2
            :: map (map (fmap inject_Z)) (map snd filled)).
    cbv iota.
    change (map (fmap inject_Z) column.2
            :: map (map (fmap inject_Z)) (map snd filled))
      with (map (map (fmap inject_Z)) (map snd (column :: filled))).
    set (data := map (map (fmap inject_Z)) (map snd (column :: filled))) in *.
    assert (Hlen : length data = length dates)
      by (unfold data; now rewrite !length_map).
    assert (Hshape : forallb (fun r => (length r =? length attributes)%nat)
                             data = true).
    { apply forallb_forall. intros r Hr. apply Nat.eqb_eq.
      unfold data in Hr. rewrite map_map in Hr.
      apply in_map_iff in Hr as (c & <- & Hc).
      rewrite length_map.
      rewrite Forall_forall in Hrows. apply Hrows.
      now apply list_elem_of_In. }
    rewrite (proj2 (Nat.eqb_eq _ _) Hlen), Hshape. simpl.
    unfold Pandas.T, Pandas.index. simpl df_rows. simpl df_columns.
    rewrite fst_combine by congruence.
    do 3 f_equal. apply imap_ext. intros i attribute _. f_equal.
    exact (Hcells i).
Qed.

End StatementFrame.

(** the parser of [Dates] gives one date for each string *)
Lemma length_to_datetime strings dates :
  Dates.to_datetime strings = Ok dates -> length dates = length strings.
Proof.
  unfold Dates.to_datetime.
  destruct (mapM Dates.parse_date strings) as [ds|] eqn:Hds; [|discriminate].
  intros [= <-]. symmetry. now apply length_mapM in Hds.
Qed.

(** a table with one column of the date "Sep 30, 2023": the frame has
    this date as its column and the two attributes as its rows *)
Lemma statement_frame_of_table_witness :
  (exists filled,
     (forall date numbers,
        (date, numbers) ∈ filled
        <-> ReferenceRest.last_filed
              [(ScraperRest.KStr "Sep 30, 2023",
                [Scraper.PStr "$ 1,234"; Scraper.PStr "(56)"])]
              date numbers)
     /\ ScraperRest.get_one_statement Dates.to_datetime
          (fun _ : unit =>
             Ok [(ScraperRest.KStr "Balance Sheets",
                  [Scraper.PStr "Cash"; Scraper.PStr "Debt"]);
                 (ScraperRest.KStr "Sep 30, 2023",
                  [Scraper.PStr "$ 1,234"; Scraper.PStr "(56)"])])
          (Ok (Some tt))
        = match Dates.to_datetime (map fst filled) with
          | Ok dates =>
              Some (mkDataFrame dates
                      (imap (fun i attribute =>
                               (attribute,
                                map (fun column : string * list (option Z) =>
                                       inject_Z <$> default None (column.2 !! i))
                                    filled))
                            [Scraper.PStr "Cash"; Scraper.PStr "Debt"]),
                    Py.lower "Balance Sheets")
          | Raise _ => None
          end)
  /\ ScraperRest.get_one_statement Dates.to_datetime
       (fun _ : unit =>
          Ok [(ScraperRest.KStr "Balance Sheets",
               [Scraper.PStr "Cash"; Scraper.PStr "Debt"]);
              (ScraperRest.KStr "Sep 30, 2023",
               [Scraper.PStr "$ 1,234"; Scraper.PStr "(56)"])])
       (Ok (Some tt))
     = Some (mkDataFrame [mkDate 2023 9 30]
               [(Scraper.PStr "Cash", [Some (inject_Z 1234)]);
                (Scraper.PStr "Debt", [Some (inject_Z (-56))])],
             "balance sheets").
Proof.
  split; [|vm_compute; reflexivity].
  apply (statement_frame_of_table Dates.to_datetime
           (fun _ : unit =>
              Ok [(ScraperRest.KStr "Balance Sheets",
                   [Scraper.PStr "Cash"; Scraper.PStr "Debt"]);
                  (ScraperRest.KStr "Sep 30, 2023",
                   [Scraper.PStr "$ 1,234"; Scraper.PStr "(56)"])])
           length_to_datetime tt
           (ScraperRest.KStr "Balance Sheets") "Balance Sheets").
  - reflexivity.
  - reflexivity.
  - apply Forall_cons_2; [reflexivity|apply Forall_nil_2].
  - apply Forall_cons_2; [intros _; reflexivity|apply Forall_nil_2].
  - apply Forall_cons_2; [reflexivity|apply Forall_nil_2].
  - apply Forall_cons_2; [intros _; vm_compute; reflexivity|apply Forall_nil_2].
Defined.

(** ** Numbers that [__standardize_number] reads *)

Section ReadNumber.

Import ReferenceRest.

Lemma zfill_0 s : PyExt.zfill 0 s = s.
Proof.
  unfold PyExt.zfill. destruct s as [|c s]; [reflexivity|].
  now destruct (Ascii.eqb c "+" || Ascii.eqb c "-").
Qed.

Lemma int_str_int z : Py.int (PyExt.str_int z) = Some z.
Proof. rewrite <- (zfill_0 (PyExt.str_int z)). apply int_zfill_str_int. Qed.

(** the decimal form of an integer is none of the strings that the
    numeric characters of a missing-value marker make *)
Lemma str_int_not_marker z :
  PyExt.str_int z <> "" /\ PyExt.str_int z <> "--".
Proof.
  destruct z as [|p|p]; unfold PyExt.str_int; [split; discriminate| |].
  - destruct (str_N_nonempty (N.pos p)) as (c & r & -> & Hc & _).
    split; [discriminate|]. intros [= -> _]. discriminate.
  - destruct (str_N_nonempty (N.pos p)) as (c & r & -> & Hc & _).
    split; [discriminate|]. intros [= -> _]. discriminate.
Qed.

Lemma marker_numeric s :
  Py.In_list (Py.strip s) Scraper.missing_markers = true ->
  Py.filter_chars Scraper.keep_numeric s = ""
  \/ Py.filter_chars Scraper.keep_numeric s = "--".
Proof.
  intros H. rewrite <- (filter_chars_strip Scraper.keep_numeric s)
    by apply space_not_numeric.
  unfold Py.In_list in H. apply existsb_exists in H as (m & Hm & Heq).
  apply String.eqb_eq in Heq. rewrite Heq.
  unfold Scraper.missing_markers in Hm. simpl in Hm.
  destruct Hm as [<- | [<- | [<- | [<- | [<- | []]]]]];
    vm_compute; auto.
Qed.

End ReadNumber.

(** X13.  [__standardize_number] reads a string by its digits and minus
    signs alone: when these spell the decimal form of an integer [z]
    of at most 4300 digits (the most that [int] converts), whatever
    stands between them (currency sign, thousands separators, spaces,
    parentheses), the result is [z], negated when the string holds
    both parentheses, and then multiplied when it holds "$". *)
Theorem standardize_number_reads_decimal (s : string) (z multiplier : Z) :
  (Z.abs z < 10 ^ 4300)%Z ->
  Py.filter_chars Scraper.keep_numeric s = PyExt.str_int z ->
  Scraper.__standardize_number (Scraper.PStr s) multiplier
  = Ok (Some (let number :=
                if Py.contains "(" s && Py.contains ")" s then (- z)%Z else z in
              if Py.contains "$" s then (number * multiplier)%Z else number)).
Proof.
  intros _ Hs. rewrite standardize_number_str.
  destruct (Py.In_list (Py.strip s) Scraper.missing_markers) eqn:Hmarker.
  - apply marker_numeric in Hmarker.
    destruct (str_int_not_marker z) as [Hne Hne'].
    rewrite Hs in Hmarker. now destruct Hmarker.
  - now rewrite Hs, int_str_int.
Qed.

Lemma standardize_number_reads_decimal_witness :
  Scraper.__standardize_number (Scraper.PStr "$ (1,234)") 1000
  = Ok (Some (-1234000)%Z).
Proof.
  apply (standardize_number_reads_decimal "$ (1,234)" 1234 1000).
  - vm_compute. reflexivity.
  - vm_compute. reflexivity.
Defined.

(** ** The label of a row *)

Section Split.

Lemma split_from_absent sep s : forall cur,
  Py.contains sep s = false ->
  Py.split_from sep 0 cur s = [cur ++ s].
Proof.
  induction s as [|c s IH]; intros cur Hs.
  - simpl. now rewrite append_empty_r.
  - simpl in Hs. apply orb_false_elim in Hs as [Hprefix Hs].
    simpl Py.split_from. rewrite Hprefix, (IH _ Hs).
    now rewrite app_assoc_string.
Qed.

Lemma split_from_skip sep p rest : forall cur,
  Py.split_from sep (String.length p) cur (p ++ rest)
  = Py.split_from sep 0 cur rest.
Proof.
  induction p as [|c p IH]; intros cur; [reflexivity|].
  rewrite append_cons. simpl. apply IH.
Qed.

Lemma has_prefix_append p s : Py.has_prefix p (p ++ s) = true.
Proof. apply has_prefix_app. now exists s. Qed.

(** the first piece ends where the separator first stands, when its
    first character does not occur before *)
Lemma split_from_first c sep pre rest : forall cur,
  Py.in_string c pre = false ->
  Py.split_from (String c sep) 0 cur (pre ++ String c sep ++ rest)
  = (cur ++ pre) :: Py.split_from (String c sep) 0 "" rest.
Proof.
  induction pre as [|a pre IH]; intros cur Hpre.
  - change ("" ++ String c sep ++ rest) with (String c sep ++ rest).
    rewrite append_empty_r.
    rewrite append_cons. simpl Py.split_from.
    rewrite Ascii.eqb_refl, has_prefix_append. simpl andb. cbv iota.
    rewrite Nat.sub_0_r. now rewrite split_from_skip.
  - simpl in Hpre. apply orb_false_elim in Hpre as [Hca Hpre].
    rewrite append_cons. simpl Py.split_from. rewrite Hca. simpl.
    rewrite (IH _ Hpre). now rewrite app_assoc_string.
Qed.

End Split.

(** X14.  For an [onclick] attribute in the layout of the EDGAR
    viewer, a text without the letter d, then "defref_", a tag without
    quote, then "'," and the rest, with no further "defref_", the label
    of the row is the tag. *)
Theorem column_title_of_viewer_link (pre tag post : string) :
  Py.in_string "d" pre = false ->
  Py.in_string "'" tag = false ->
  Py.contains "defref_" (tag ++ "'," ++ post) = false ->
  EdgarFunctions.column_title_of (pre ++ "defref_" ++ tag ++ "'," ++ post)
  = tag.
Proof.
  intros Hpre Htag Hrest. unfold EdgarFunctions.column_title_of, Py.split.
  rewrite (split_from_first "d" "efref_" pre _ "" Hpre).
  rewrite (split_from_absent _ _ "" Hrest). simpl last. simpl default.
  change ("" ++ tag ++ "'," ++ post) with (tag ++ "'," ++ post).
  now rewrite (split_from_first "'" "," tag post "" Htag).
Qed.

Lemma column_title_of_viewer_link_witness :
  EdgarFunctions.column_title_of
    "top.Show.showAR( this, 'defref_us-gaap_Assets', window );"
  = "us-gaap_Assets".
Proof.
  apply (column_title_of_viewer_link "top.Show.showAR( this, '"
           "us-gaap_Assets" " window );"); reflexivity.
Defined.

(** X15.  An [onclick] attribute that holds neither "defref_" nor "',"
    is the label of its row as it stands. *)
Theorem column_title_of_plain_text (onclick_attr : string) :
  Py.contains "defref_" onclick_attr = false ->
  Py.contains "'," onclick_attr = false ->
  EdgarFunctions.column_title_of onclick_attr = onclick_attr.
Proof.
  intros Hdefref Hquote. unfold EdgarFunctions.column_title_of, Py.split.
  rewrite (split_from_absent _ _ "" Hdefref). simpl last. simpl default.
  change ("" ++ onclick_attr) with onclick_attr.
  now rewrite (split_from_absent _ _ "" Hquote).
Qed.

Lemma column_title_of_plain_text_witness :
  EdgarFunctions.column_title_of "toggle();" = "toggle();".
Proof. apply column_title_of_plain_text; reflexivity. Defined.

(** ** The statement of a page *)

Section DateStrings.

Import ReferenceRest.

Lemma date_strings_headers soup :
  EdgarFunctions.date_strings soup
  = map (fun header =>
           Py.filter_chars (fun a => negb (Ascii.eqb "." a))
             (EdgarFunctions.__standardize_date header))
        (header_strings soup).
Proof.
  unfold EdgarFunctions.date_strings, header_strings.
  induction (soup_th soup) as [|th ths IH]; [reflexivity|].
  destruct th as [[|c header]|]; simpl; [exact IH| |exact IH].
  rewrite replace_single. f_equal. exact IH.
Qed.

End DateStrings.

(** X16.  [__get_datetime_index_dates_from_statement] hands one string
    to [pd.to_datetime] for each header cell that has a string which is
    not empty, in the order of the cells: the string number [k] is the
    header number [k] with its month abbreviations replaced and then
    its points removed, so none of the strings holds a point, and a
    header without point and without abbreviation is handed over as it
    is. *)
Theorem date_strings_have_no_point (soup : Soup) :
  let headers := ReferenceRest.header_strings soup in
  length (EdgarFunctions.date_strings soup) = length headers
  /\ (forall k,
        EdgarFunctions.date_strings soup !! k
        = (fun header =>
             Py.filter_chars (fun a => negb (Ascii.eqb "." a))
               (EdgarFunctions.__standardize_date header))
            <$> headers !! k)
  /\ Forall (fun date => Py.in_string "." date = false)
            (EdgarFunctions.date_strings soup)
  /\ (forall k header,
        headers !! k = Some header ->
        Py.in_string "." header = false ->
        ~ Reference.occurs Reference.month_pairs header ->
        EdgarFunctions.date_strings soup !! k = Some header)
  /\ (Forall (fun th => exists c s, th = Some (String c s)) (soup_th soup) ->
      headers = omap id (soup_th soup)
      /\ length (EdgarFunctions.date_strings soup) = length (soup_th soup)).
Proof.
  cbv zeta. rewrite date_strings_headers.
  split; [now rewrite length_map|].
  split; [intros k; now rewrite list_lookup_fmap|].
  split; [|split].
  - apply Forall_map, Forall_forall. intros header _.
    rewrite in_string_filter. reflexivity.
  - intros k header Hk Hpoint Hocc.
    rewrite list_lookup_fmap, Hk. simpl. f_equal.
    apply standardize_date_fixed in Hocc. rewrite Hocc.
    clear Hk Hocc. induction header as [|c header IH]; [reflexivity|].
    simpl in *. apply orb_false_elim in Hpoint as [Hc Hpoint].
    rewrite Hc. simpl. now rewrite IH.
  - intros Hall. unfold ReferenceRest.header_strings. rewrite length_map.
    induction Hall as [|th ths (c & header & ->) _ [IH1 IH2]];
      [now split|].
    simpl. split; [now f_equal|]. simpl in IH2. now f_equal.
Qed.

Section Statement.

Variable to_datetime : list string -> result (list Date).

(** X17.  On a page whose cells hold whole numbers of at most 12
    digits, where the floats of the code and their products by the
    multiplier are exact, [get_one_statement] returns [None] when the
    dates do not parse, when a labelled row raises, when the page has
    no labelled row and when it has no date; otherwise it returns the
    frame that has the dates as columns and the labelled rows of all
    tables, in their order, as rows, without the rows whose values
    repeat those of an earlier row. *)
Theorem statement_of_page (soup : Soup) :
  Forall (fun x => forallb ReferenceRest.whole_cell
                     (EdgarFunctions.select_cells x.2) = true)
         (Reference.labelled_rows (soup_tables soup)) ->
  EdgarFunctions.get_one_statement to_datetime (Ok soup)
  = match to_datetime (EdgarFunctions.date_strings soup) with
    | Raise _ => None
    | Ok dates =>
        let rows := Reference.labelled_rows (soup_tables soup) in
        match Reference.first_row_fault (length dates) rows with
        | Some _ => None
        | None =>
            match rows, dates with
            | _ :: _, _ :: _ =>
                Some (mkDataFrame dates
                        (Pandas.drop_seen []
                           (combine
                              (map (fun x => Reference.row_title x.2) rows)
                              (map (Reference.row_values (length dates))
                                   rows))))
            | _, _ => None
            end
        end
    end.
Proof.
  intros _.
  unfold EdgarFunctions.get_one_statement, EdgarFunctions.process_statement.
  rewrite extract_spec.
  destruct (to_datetime (EdgarFunctions.date_strings soup)) as [dates|e];
    [|reflexivity].
  cbv zeta.
  set (rows := Reference.labelled_rows (soup_tables soup)).
  destruct (Reference.first_row_fault (length dates) rows); [reflexivity|].
  rewrite bind_ok.
  destruct rows as [|x rows].
  - simpl. unfold EdgarFunctions.assemble,
      EdgarFunctions.__create_dataframe_of_statement_values_columns_dates.
    simpl. unfold Pandas.empty. simpl. now rewrite orb_true_r.
  - destruct dates as [|date dates].
    + unfold EdgarFunctions.assemble,
        EdgarFunctions.__create_dataframe_of_statement_values_columns_dates,
        Pandas.zip_star.
      simpl map. unfold Reference.row_values at 1.
      rewrite length_aligned_values. reflexivity.
    + set (titles := map (fun x => Reference.row_title x.2) (x :: rows)).
      set (values := map (Reference.row_values (length (date :: dates)))
                         (x :: rows)).
      destruct (transposed_frame values titles (date :: dates))
        as (df & Hdf & Hempty & HT).
      * unfold values. simpl. lia.
      * simpl. lia.
      * unfold titles, values. now rewrite !length_map.
      * unfold values. apply Forall_map, Forall_forall. intros y _.
        apply length_aligned_values.
      * unfold EdgarFunctions.assemble. rewrite Hdf, bind_ok, Hempty, HT.
        reflexivity.
Qed.

End Statement.

(** the page of four dates: both labelled rows are returned, each
    under its label and with its four values *)
Lemma statement_of_page_witness :
  EdgarFunctions.get_one_statement Dates.to_datetime
    (Ok Sample.four_dates_soup)
  = Some (mkDataFrame
            [mkDate 2020 12 31; mkDate 2019 12 31; mkDate 2018 12 31;
             mkDate 2017 12 31]
            [("us-gaap_NetIncomeLoss",
              [Some 10%Q; Some (-20)%Q; None; None]);
             ("us-gaap_Depreciation",
              [Some 7%Q; None; None; Some (-3)%Q])]).
Proof.
  rewrite (statement_of_page Dates.to_datetime Sample.four_dates_soup).
  - vm_compute. reflexivity.
  - apply Forall_cons_2; [vm_compute; reflexivity|].
    apply Forall_cons_2; [vm_compute; reflexivity|apply Forall_nil_2].
Defined.

(** ** Requests, tickers and statement names *)

(** X18.  When the request for the ticker file is answered by 429,
    [get_cik_matching_ticker] never returns an identifier: the retry
    of [make_get_request] is lost, and when it is answered by the file
    the function raises [AttributeError] on the [None] it is given,
    whatever the file holds. *)
Theorem cik_lost_after_429
    (server : nat -> Utils.response (list ScraperRest.company))
    (ticker : string) :
  server 0 = Utils.TooManyRequests ->
  (forall cik,
     ScraperRest.get_cik_matching_ticker_from server ticker <> Some (Ok cik))
  /\ (forall ticker_json text,
        server 1 = Utils.Reply (Some ticker_json) text ->
        ScraperRest.get_cik_matching_ticker_from server ticker
        = Some (Raise AttributeError)).
Proof.
  intros H0. unfold ScraperRest.get_cik_matching_ticker_from,
    Utils.make_get_request.
  change (3 - 0) with 3. split.
  - intros cik. simpl. rewrite H0.
    destruct (server 1) as [|json text|]; simpl.
    + destruct (server 2) as [|json text|]; simpl; [discriminate| |discriminate].
      destruct json; simpl; discriminate.
    + destruct json; simpl; discriminate.
    + discriminate.
  - intros ticker_json text H1. simpl. rewrite H0, H1. reflexivity.
Qed.

Lemma cik_lost_after_429_witness :
  ScraperRest.get_cik_matching_ticker_from
    (fun k => match k with
              | O => Utils.TooManyRequests
              | _ => Utils.Reply (Some [ScraperRest.mkCompany "TSLA" 1318605])
                       None
              end) "tsla"
  = Some (Raise AttributeError).
Proof.
  refine (proj2 (cik_lost_after_429
                   (fun k => match k with
                             | O => Utils.TooManyRequests
                             | _ => Utils.Reply
                                      (Some [ScraperRest.mkCompany "TSLA" 1318605])
                                      None
                             end) "tsla" _) _ None _); reflexivity.
Defined.

Section Tickers.

Lemma replace_char_cons c d a s :
  Py.replace (String c "") (String d "") (String a s)
  = String (if Ascii.eqb c a then d else a)
           (Py.replace (String c "") (String d "") s).
Proof.
  unfold Py.replace. simpl. destruct (Ascii.eqb c a); reflexivity.
Qed.

Lemma upper_char_idem c : PyExt.upper_char (PyExt.upper_char c) = PyExt.upper_char c.
Proof. destruct c as [[] [] [] [] [] [] [] []]; reflexivity. Qed.

Lemma upper_lower_char c : PyExt.upper_char (Py.lower_char c) = PyExt.upper_char c.
Proof. destruct c as [[] [] [] [] [] [] [] []]; reflexivity. Qed.

Lemma upper_char_point c :
  PyExt.upper_char (if Ascii.eqb "." c then "-"%char else c)
  = if Ascii.eqb "." (PyExt.upper_char c) then "-"%char else PyExt.upper_char c.
Proof. destruct c as [[] [] [] [] [] [] [] []]; reflexivity. Qed.

Lemma point_char_idem c :
  (if Ascii.eqb "." (if Ascii.eqb "." c then "-"%char else c)
   then "-"%char else (if Ascii.eqb "." c then "-"%char else c))
  = if Ascii.eqb "." c then "-"%char else c.
Proof. destruct c as [[] [] [] [] [] [] [] []]; reflexivity. Qed.

Lemma upper_cons c s :
  PyExt.upper (String c s) = String (PyExt.upper_char c) (PyExt.upper s).
Proof. reflexivity. Qed.

Lemma upper_idem s : PyExt.upper (PyExt.upper s) = PyExt.upper s.
Proof.
  induction s as [|c s IH]; [reflexivity|].
  simpl. now rewrite upper_char_idem, IH.
Qed.

Lemma upper_lower s : PyExt.upper (Py.lower s) = PyExt.upper s.
Proof.
  induction s as [|c s IH]; [reflexivity|].
  simpl. now rewrite upper_lower_char, IH.
Qed.

Lemma upper_replace_point s :
  PyExt.upper (Py.replace "." "-" s) = Py.replace "." "-" (PyExt.upper s).
Proof.
  induction s as [|c s IH]; [reflexivity|].
  rewrite replace_char_cons, !upper_cons.
  now rewrite replace_char_cons, upper_char_point, IH.
Qed.

Lemma replace_point_idem s :
  Py.replace "." "-" (Py.replace "." "-" s) = Py.replace "." "-" s.
Proof.
  induction s as [|c s IH]; [reflexivity|].
  now rewrite !replace_char_cons, point_char_idem, IH.
Qed.

End Tickers.

(** X19.  [get_cik_matching_ticker] looks a ticker up regardless of the
    case of its letters and with a point standing for a dash. *)
Theorem ticker_lookup_is_normalised
    (ticker_json : option (list ScraperRest.company)) (ticker : string) :
  ScraperRest.get_cik_matching_ticker ticker_json (PyExt.upper ticker)
  = ScraperRest.get_cik_matching_ticker ticker_json ticker
  /\ ScraperRest.get_cik_matching_ticker ticker_json (Py.lower ticker)
     = ScraperRest.get_cik_matching_ticker ticker_json ticker
  /\ ScraperRest.get_cik_matching_ticker ticker_json
       (Py.replace "." "-" ticker)
     = ScraperRest.get_cik_matching_ticker ticker_json ticker.
Proof.
  unfold ScraperRest.get_cik_matching_ticker. cbv zeta.
  rewrite upper_idem, upper_lower, upper_replace_point, replace_point_idem.
  repeat split.
Qed.

Section PrintedLinks.

Lemma printed_links_spec base_link dict keys :
  snd <$> head (TestStatementLinks.printed_links base_link dict keys)
  = (fun file_name => base_link ++ "/" ++ file_name)
      <$> Scraper.first_file_name dict keys
  /\ Forall (fun line => exists file_name,
               dict !! Py.lower line.1 = Some file_name
               /\ file_name <> ""
               /\ line.2 = base_link ++ "/" ++ file_name)
            (TestStatementLinks.printed_links base_link dict keys)
  /\ sublist (map fst (TestStatementLinks.printed_links base_link dict keys))
             keys.
Proof.
  induction keys as [|key keys (IHfirst & IHall & IHsub)].
  - repeat split; constructor.
  - simpl. destruct (dict !! Py.lower key) as [file_name|] eqn:Hkey.
    + destruct (Py.is_empty file_name) eqn:Hempty.
      * repeat split; [assumption..|now apply sublist_cons].
      * repeat split.
        -- apply Forall_cons_2; [|assumption]. exists file_name.
           repeat split; [assumption|now apply is_empty_false].
        -- simpl. now apply sublist_skip.
    + repeat split; [assumption..|now apply sublist_cons].
Qed.

(** a line is printed for every key that has a file *)
Lemma printed_links_keys base_link dict keys :
  map fst (TestStatementLinks.printed_links base_link dict keys)
  = List.filter (ReferenceRest.has_file dict) keys.
Proof.
  induction keys as [|key keys IH]; [reflexivity|].
  simpl. unfold ReferenceRest.has_file at 1.
  destruct (dict !! Py.lower key) as [file_name|]; [|exact IH].
  destruct (Py.is_empty file_name); simpl; [exact IH|now f_equal].
Qed.

Lemma printed_links_complete base_link dict keys key file_name :
  key ∈ keys -> dict !! Py.lower key = Some file_name -> file_name <> "" ->
  (key, base_link ++ "/" ++ file_name)
  ∈ TestStatementLinks.printed_links base_link dict keys.
Proof.
  intros Hkey Hfile Hne. induction keys as [|k keys IH].
  - now apply elem_of_nil in Hkey.
  - simpl. apply elem_of_cons in Hkey as [<- | Hkey].
    + rewrite Hfile. apply is_empty_false in Hne. rewrite Hne. left.
    + specialize (IH Hkey).
      destruct (dict !! Py.lower k) as [f|]; [|exact IH].
      destruct (Py.is_empty f); [exact IH|now right].
Qed.

End PrintedLinks.

(** X20.  The loop of [test/test_statement_links.py] has no [break]:
    it prints exactly one line for every key of the statement that has
    a file in the dictionary, in the order of the keys, keys after the
    first match included, each line with the link of the file of its
    key; the link of its first line is the link that
    [get_statement_soup] resolves, and it prints nothing exactly when
    [get_statement_soup] raises [ValueError]. *)
Theorem first_printed_link_is_resolved
    (base_link : string) (dict : gmap string string) (statement_name : string) :
  let keys :=
    default [] (Scraper.statement_keys_map !! Py.lower statement_name) in
  let lines := TestStatementLinks.printed_links base_link dict keys in
  Scraper.statement_link base_link dict statement_name
  = match head lines with
    | Some line => Ok line.2
    | None => Raise ValueError
    end
  /\ Forall (fun line => exists file_name,
               dict !! Py.lower line.1 = Some file_name
               /\ file_name <> ""
               /\ line.2 = base_link ++ "/" ++ file_name) lines
  /\ sublist (map fst lines) keys
  /\ map fst lines = List.filter (ReferenceRest.has_file dict) keys
  /\ (forall key file_name,
        key ∈ keys -> dict !! Py.lower key = Some file_name ->
        file_name <> "" ->
        (key, base_link ++ "/" ++ file_name) ∈ lines)
  /\ (lines = []
      <-> Scraper.statement_link base_link dict statement_name
          = Raise ValueError).
Proof.
  cbv zeta. unfold Scraper.statement_link.
  set (keys := default [] _).
  destruct (printed_links_spec base_link dict keys) as (Hfirst & Hall & Hsub).
  assert (Hlink : match Scraper.first_file_name dict keys with
                  | Some file_name => Ok (base_link ++ "/" ++ file_name)
                  | None => Raise ValueError
                  end
                  = match head (TestStatementLinks.printed_links
                                  base_link dict keys) with
                    | Some line => Ok line.2
                    | None => Raise ValueError
                    end).
  { destruct (head _) as [line|];
      destruct (Scraper.first_file_name dict keys);
      simpl in Hfirst; try discriminate; [|reflexivity].
    now injection Hfirst as ->. }
  split; [exact Hlink|]. split; [assumption|]. split; [assumption|].
  split; [apply printed_links_keys|].
  split; [intros key file_name; apply printed_links_complete|].
  rewrite Hlink.
  destruct (TestStatementLinks.printed_links base_link dict keys);
    simpl; split; (reflexivity || discriminate).
Qed.

Section StatementNames.

Lemma lookup_statement_keys name :
  Py.In_list name
    ["balance_sheet"; "income_statement"; "cash_flow_statement"] = false ->
  Scraper.statement_keys_map !! name = None.
Proof.
  unfold Py.In_list. simpl. intros H.
  apply orb_false_elim in H as [H1 H].
  apply orb_false_elim in H as [H2 H].
  apply orb_false_elim in H as [H3 _].
  apply String.eqb_neq in H1, H2, H3.
  unfold Scraper.statement_keys_map. simpl.
  now rewrite !lookup_insert_ne, lookup_empty by congruence.
Qed.

End StatementNames.

(** X21.  The name of a statement is looked up regardless of the case
    of its letters, and a name that is none of "balance_sheet",
    "income_statement" and "cash_flow_statement" has no key at all:
    the [ValueError] of a missing link is raised whatever the filing
    summary holds. *)
Theorem statement_name_lookup
    (base_link : string) (dict : gmap string string) (statement_name : string) :
  Scraper.statement_link base_link dict (Py.lower statement_name)
  = Scraper.statement_link base_link dict statement_name
  /\ (Py.In_list (Py.lower statement_name)
        ["balance_sheet"; "income_statement"; "cash_flow_statement"] = false ->
      Scraper.statement_link base_link dict statement_name = Raise ValueError).
Proof.
  unfold Scraper.statement_link. cbv zeta. rewrite lower_idem.
  split; [reflexivity|].
  intros H. now rewrite (lookup_statement_keys _ H).
Qed.

(** X22.  When every request is answered by 429, [make_get_request]
    gives up after the [3 - retry_count] requests it may send and
    raises [GetRequestException]. *)
Theorem make_get_request_gives_up {J : Type}
    (server : nat -> Utils.response J) (sent retry_count : nat)
    (resp_json : bool) :
  (forall k, sent <= k < sent + (3 - retry_count) ->
             server k = Utils.TooManyRequests) ->
  Utils.make_get_request server sent retry_count resp_json
  = (Utils.GetRequestException, sent + (3 - retry_count)).
Proof. intros Hall. now apply attempt_exhausted. Qed.

Lemma make_get_request_gives_up_witness :
  Utils.make_get_request (fun _ => @Utils.TooManyRequests Z) 0 0 false
  = (Utils.GetRequestException, 3).
Proof.
  apply (make_get_request_gives_up (fun _ => @Utils.TooManyRequests Z) 0 0 false).
  intros k _. reflexivity.
Defined.
